(** * FastLearn memory engine: consolidation and retrieval

    A shallow embedding of the decision logic of
    [src/services/memory/crud.py], [src/services/memory/database.py], the
    three agents of [src/agents/memory/] and the endpoints of
    [src/api/routers/] that call them, followed by the properties that the
    specification states about them and by further properties of the code.

    Conventions of the embedding.
    - Python [int] is [Z]; a number of the free-form preference map, which
      the code only compares, is a rational [Q]; [mastery_level], which the
      code adds and clamps as a [float], is a binary64 [float];
      [avg_session_length], which holds an [int] or a [float] and is
      averaged and rounded, is a [pynum] with Python's arithmetic on it.
    - A Python [dict] with a fixed set of keys is a record; a key that the
      code reads through [.get(k, default)] is an [option] field ([None] is
      "key absent").  A dict with arbitrary string keys is a [gmap].
    - The ORM session is a store from [user_id] to the profile object; an
      in-place mutation of the loaded object is a write to that store.
      Which of these writes the persistence engine carries to its tables at
      commit is outside the model.
    - An entry of [weak_points] always has its [concept]; the other keys of
      an entry may be absent.
    - A raised exception is the [Raise] outcome of [result]; inside the
      [DB] monad it discards the state, as the rollback of
      [get_db_session] does.
    - [datetime.utcnow()] is an explicit argument [now] of every operation
      that reads the clock. *)

From Stdlib Require Import ZArith QArith Qround Ascii String List Floats.
From stdpp Require Import base option list gmap strings sorting pretty.

Open Scope string_scope.
Open Scope list_scope.
Open Scope Z_scope.

(** ** Python outcomes *)

Inductive exn : Set :=
| JSONDecodeError
| KeyError
| TypeError
| AttributeError
| ValidationError
| RuntimeError
| OverflowError
| ZeroDivisionError.

Inductive result (A : Type) : Type :=
| Ok (a : A)
| Raise (e : exn).

Arguments Ok {A} a.
Arguments Raise {A} e.

#[global] Instance result_ret : MRet result := fun A a => Ok a.

#[global] Instance result_bind : MBind result :=
  fun A B f m => match m with Ok a => f a | Raise e => Raise e end.

(** [d[k]] on a key that may be absent. *)
Definition subscript {A} (field : option A) : result A :=
  match field with
  | Some v => Ok v
  | None => Raise KeyError
  end.

(** [for x in xs: acc = body(acc, x)], stopping at the first exception. *)
Fixpoint for_each {A B} (body : A -> B -> result A) (acc : A) (xs : list B) : result A :=
  match xs with
  | [] => Ok acc
  | x :: xs' => acc' ← body acc x; for_each body acc' xs'
  end.

(** ** Python numbers *)

(** A number of a JSON column: an [int] of any size, or a binary64
    [float]. *)
Inductive pynum : Type :=
| PyInt (z : Z)
| PyFloat (x : float).

(** An [int] as an unrounded binary number. *)
Definition Z2SF (z : Z) : spec_float :=
  match z with
  | Z0 => S754_zero false
  | Zpos p => S754_finite false p 0
  | Zneg p => S754_finite true p 0
  end.

(** A correctly rounded value, or [OverflowError] when it left the range
    of binary64. *)
Definition finite_or_overflow (sf : spec_float) : result float :=
  match sf with
  | S754_infinity _ => Raise OverflowError
  | _ => Ok (SF2Prim sf)
  end.

(** [float(z)]: the nearest binary64, a tie to the even one. *)
Definition float_of_int (z : Z) : result float :=
  finite_or_overflow (binary_normalize prec emax z 0 false).

(** [a / b] on two ints: the correctly rounded quotient. *)
Definition int_truediv (a b : Z) : result float :=
  if b =? 0 then Raise ZeroDivisionError
  else finite_or_overflow (SFdiv prec emax (Z2SF a) (Z2SF b)).

(** [x / y] on two floats. *)
Definition float_truediv (x y : float) : result float :=
  if is_zero y then Raise ZeroDivisionError else Ok (x / y)%float.

(** The operand of a mixed operation. *)
Definition as_float (a : pynum) : result float :=
  match a with
  | PyInt z => float_of_int z
  | PyFloat x => Ok x
  end.

(** [a * b], [a + b] and [a / b]: exact on two ints (the quotient
    rounded once), in binary64 as soon as one operand is a float. *)
Definition py_mul (a b : pynum) : result pynum :=
  match a, b with
  | PyInt x, PyInt y => Ok (PyInt (x * y))
  | _, _ => x ← as_float a; y ← as_float b; Ok (PyFloat (x * y))
  end.

Definition py_add (a b : pynum) : result pynum :=
  match a, b with
  | PyInt x, PyInt y => Ok (PyInt (x + y))
  | _, _ => x ← as_float a; y ← as_float b; Ok (PyFloat (x + y))
  end.

Definition py_truediv (a b : pynum) : result pynum :=
  match a, b with
  | PyInt x, PyInt y => q ← int_truediv x y; Ok (PyFloat q)
  | _, _ => x ← as_float a; y ← as_float b; q ← float_truediv x y; Ok (PyFloat q)
  end.

(** The integer nearest to a rational, a tie to the even one. *)
Definition round_half_even (q : Q) : Z :=
  let f := Qfloor q in
  match ((q - inject_Z f) ?= (1 # 2))%Q with
  | Lt => f
  | Gt => f + 1
  | Eq => if Z.even f then f else f + 1
  end.

(** [round(x, 2)] on a float: the exact value of [x] is rounded to the
    nearest hundredth, a tie to the even one, and the float nearest to that
    decimal is returned with the sign of [x]; zeros, infinities and NaN
    round to themselves. *)
Definition round_float (x : float) : float :=
  match Prim2SF x with
  | S754_finite s m e =>
      let magnitude := (inject_Z (Z.pos m) * (2 # 1) ^ e)%Q in
      let hundredths := round_half_even (magnitude * inject_Z 100) in
      let signed := if s then SFopp (Z2SF hundredths) else Z2SF hundredths in
      SF2Prim (SFdiv prec emax signed (Z2SF 100))
  | _ => x
  end.

(** [round(a, 2)]: an int is returned as it is. *)
Definition py_round2 (a : pynum) : pynum :=
  match a with
  | PyInt z => PyInt z
  | PyFloat x => PyFloat (round_float x)
  end.

(** ** Data model (the JSON columns of [models/profile.py]) *)

(** A JSON scalar stored in the free-form preference map. *)
Inductive pval : Type :=
| PNull
| PBool (b : bool)
| PNum (q : Q)
| PStr (s : string).

(** An entry of [weak_points].  [last_confused] distinguishes an absent key
    from a key holding [null]. *)
Record WeakPoint : Type := mkWeakPoint {
  concept : string;
  confusion_score : option Z;
  last_confused : option (option string);
  wp_subject : option string;
  wp_topic : option string
}.

(** An entry of [knowledge_graph]. *)
Record KnowledgePoint : Type := mkKnowledgePoint {
  mastery_level : float;
  last_reviewed : string;
  interaction_count : Z;
  kp_confusion_score : Z;
  kp_subject : option string;
  kp_topic : option string;
  kp_difficulty : option string
}.

Record Statistics : Type := mkStatistics {
  total_sessions : option Z;
  total_questions : option Z;
  active_days : option Z;
  avg_session_length : option pynum;
  most_active_hour : option Z;
  last_active_date : option string
}.

(** A row of [user_profiles] without its key: the store below is keyed by
    the unique [user_id] column. *)
Record UserProfile : Type := mkUserProfile {
  preferences : gmap string pval;
  statistics : Statistics;
  knowledge_graph : gmap string KnowledgePoint;
  interests : list string;
  weak_points : list WeakPoint;
  updated_at : option Z
}.

Definition set_preferences (v : gmap string pval) (p : UserProfile) : UserProfile :=
  mkUserProfile v (statistics p) (knowledge_graph p) (interests p)
    (weak_points p) (updated_at p).

Definition set_statistics (v : Statistics) (p : UserProfile) : UserProfile :=
  mkUserProfile (preferences p) v (knowledge_graph p) (interests p)
    (weak_points p) (updated_at p).

Definition set_knowledge_graph (v : gmap string KnowledgePoint) (p : UserProfile) : UserProfile :=
  mkUserProfile (preferences p) (statistics p) v (interests p)
    (weak_points p) (updated_at p).

Definition set_weak_points (v : list WeakPoint) (p : UserProfile) : UserProfile :=
  mkUserProfile (preferences p) (statistics p) (knowledge_graph p)
    (interests p) v (updated_at p).

Definition set_updated_at (now : Z) (p : UserProfile) : UserProfile :=
  mkUserProfile (preferences p) (statistics p) (knowledge_graph p)
    (interests p) (weak_points p) (Some now).

(** ** crud.py: weak points *)

Module WeakPoints.

(** [x.get("confusion_score", 0)] *)
Definition get_score (wp : WeakPoint) : Z := default 0 (confusion_score wp).

(** The two assignments of lines 248-249 on the tracked entry. *)
Definition overwrite (score : Z) (seen : option string) (wp : WeakPoint) : WeakPoint :=
  mkWeakPoint (concept wp) (Some score) (Some seen) (wp_subject wp) (wp_topic wp).

(** [{wp["concept"]: wp for wp in profile.weak_points}].  The dict holds
    references to the very objects of the list, so it is a map from concept to
    position; a later entry with the same concept replaces an earlier one. *)
Definition existing_weak_points (wps : list WeakPoint) : gmap string nat :=
  list_to_map (reverse (imap (fun i wp => (concept wp, i)) wps)).

(** Body of the loop of lines 241-252.  The dict was built before the loop
    and is not extended by the [append].  Its positions are positions of
    the list, so the innermost [None] does not arise. *)
Definition merge_one (now_iso : string) (existing : gmap string nat)
    (wps : list WeakPoint) (new_wp : WeakPoint) : result (list WeakPoint) :=
  match existing !! concept new_wp with
  | Some i =>
      match wps !! i with
      | Some tracked =>
          if get_score tracked <? get_score new_wp then
            score ← subscript (confusion_score new_wp);
            Ok (<[i := overwrite score (default (Some now_iso) (last_confused new_wp)) tracked]> wps)
          else Ok wps
      | None => Ok wps
      end
  | None => Ok (wps ++ [new_wp])
  end.

(** [list.sort(key=lambda x: x.get("confusion_score", 0), reverse=True)]:
    the stable sort, descending by key.  Insertion from the right keeps an
    element before the later elements of equal key. *)
Fixpoint insert_desc (x : WeakPoint) (l : list WeakPoint) : list WeakPoint :=
  match l with
  | [] => [x]
  | y :: l' =>
      if get_score y <=? get_score x then x :: y :: l' else y :: insert_desc x l'
  end.

Definition sort_desc (l : list WeakPoint) : list WeakPoint := foldr insert_desc [] l.

(** Lines 239-255 on the list of one profile. *)
Definition merge_batch (now_iso : string) (wps : list WeakPoint)
    (weak_points_list : list WeakPoint) : result (list WeakPoint) :=
  merged ← for_each (merge_one now_iso (existing_weak_points wps)) wps weak_points_list;
  Ok (sort_desc merged).

(** The order the list is kept in: no later entry has a higher score. *)
Definition ge_score (a b : WeakPoint) : Prop := get_score b <= get_score a.

(** What a list tracks: each concept with the score read from its entry. *)
Definition scores (l : list WeakPoint) : gmap string Z :=
  list_to_map ((fun wp => (concept wp, get_score wp)) <$> l).

(** The merge rule of the specification on that view: keep the maximum for a
    tracked concept, start a new concept at the observed score. *)
Definition keep_max (c : string) (score : Z) (m : gmap string Z) : gmap string Z :=
  <[c := match m !! c with Some tracked => Z.max tracked score | None => score end]> m.

(** An entry [w'] that continues an entry [w]: the same concept, subject and
    topic, and a score that is not lower. *)
Definition kept_by (w w' : WeakPoint) : Prop :=
  concept w' = concept w /\ wp_subject w' = wp_subject w /\ wp_topic w' = wp_topic w
  /\ get_score w <= get_score w'.

End WeakPoints.

(** ** The store behind the ORM session *)

(** A row of [session_summaries] ([models/session.py]). *)
Record SessionSummary : Type := mkSessionSummary {
  ss_id : Z;
  ss_session_id : string;
  ss_user_id : string;
  ss_core_topic : string;
  ss_key_points : list string;
  ss_resolved_questions : list string;
  ss_unresolved_questions : list string;
  ss_weak_points : list WeakPoint;
  ss_message_count : Z;
  ss_created_at : option Z;
  ss_updated_at : option Z
}.

Record Store : Type := mkStore {
  user_profiles : gmap string UserProfile;
  session_summaries : list SessionSummary
}.

(** A unit of work on the store: run from a store, it returns a value and
    the new store, or raises, in which case nothing of it is kept. *)
Record DB (A : Type) : Type := mkDB { run : Store -> result (A * Store) }.

Arguments mkDB {A} run.
Arguments run {A} d s.

#[global] Instance DB_ret : MRet DB := fun A a => mkDB (fun s => Ok (a, s)).

#[global] Instance DB_bind : MBind DB :=
  fun A B f m =>
    mkDB (fun s =>
      match run m s with
      | Ok (a, s') => run (f a) s'
      | Raise e => Raise e
      end).

Definition lift_result {A} (r : result A) : DB A :=
  mkDB (fun s => match r with Ok a => Ok (a, s) | Raise e => Raise e end).

(** The object of [uid] in the session after its attributes were assigned
    and [session.flush()] ran. *)
Definition flush_profile (uid : string) (p : UserProfile) : DB unit :=
  mkDB (fun s =>
    Ok (tt, mkStore (<[uid := p]> (user_profiles s)) (session_summaries s))).

(** Every run of [m] that returns takes the store to one that [R] relates
    to it. *)
Definition relates {A} (R : relation Store) (m : DB A) : Prop :=
  forall s a s', run m s = Ok (a, s') -> R s s'.

(** ** The clock *)

Class Clock : Type := {
  (** [datetime.isoformat()] *)
  isoformat : Z -> string;
  (** [datetime.strftime('%Y-%m-%d %H:%M')] *)
  strftime_minutes : Z -> string
}.

(** ** schemas.py: the validated request of a full profile update *)

Module Schemas.

(** The three [Literal] fields of [LearningPreferences]: construction
    accepts these values only. *)
Inductive LearningStyle : Set := visual | textual | hands_on | code_first.

Inductive DifficultyLevel : Set := beginner | intermediate | advanced.

Inductive ResponseFormat : Set := text | html | markdown.

Record LearningPreferences : Type := mkLearningPreferences {
  learning_style : LearningStyle;
  difficulty_preference : DifficultyLevel;
  language : string;
  include_code : bool;
  include_math : bool;
  response_format : ResponseFormat
}.

Definition style_name (v : LearningStyle) : string :=
  match v with
  | visual => "visual"
  | textual => "textual"
  | hands_on => "hands_on"
  | code_first => "code_first"
  end.

Definition difficulty_name (v : DifficultyLevel) : string :=
  match v with
  | beginner => "beginner"
  | intermediate => "intermediate"
  | advanced => "advanced"
  end.

Definition format_name (v : ResponseFormat) : string :=
  match v with
  | text => "text"
  | html => "html"
  | markdown => "markdown"
  end.

(** [LearningPreferences.model_dump()]: the six fields, by name. *)
Definition model_dump (p : LearningPreferences) : gmap string pval :=
  <["learning_style" := PStr (style_name (learning_style p))]>
  (<["difficulty_preference" := PStr (difficulty_name (difficulty_preference p))]>
  (<["language" := PStr (language p)]>
  (<["include_code" := PBool (include_code p)]>
  (<["include_math" := PBool (include_math p)]>
  (<["response_format" := PStr (format_name (response_format p))]> ∅))))).

Record UserProfileUpdate : Type := mkUserProfileUpdate {
  upd_preferences : option LearningPreferences;
  upd_interests : option (list string)
}.

End Schemas.

(** ** crud.py: profiles *)

Module Crud.
Import WeakPoints.

Section WithClock.
Context {clock : Clock}.

Definition default_preferences : gmap string pval :=
  <["learning_style" := PStr "textual"]>
  (<["difficulty_preference" := PStr "intermediate"]>
  (<["language" := PStr "zh-CN"]>
  (<["include_code" := PBool true]>
  (<["include_math" := PBool true]>
  (<["response_format" := PStr "html"]> ∅))))).

Definition default_statistics : Statistics :=
  mkStatistics (Some 0) (Some 0) (Some 0) (Some (PyInt 0)) None None.

Definition get_user_profile (uid : string) : DB (option UserProfile) :=
  mkDB (fun s => Ok (user_profiles s !! uid, s)).

(** [preferences or default_preferences]: an absent or empty argument gives
    the defaults. *)
Definition create_user_profile (uid : string) (prefs : option (gmap string pval))
    : DB UserProfile :=
  let chosen :=
    match prefs with
    | Some d => if decide (d = ∅) then default_preferences else d
    | None => default_preferences
    end in
  let profile := mkUserProfile chosen default_statistics ∅ [] [] None in
  _ ← flush_profile uid profile;
  mret profile.

(** The opening lines shared by the four update functions. *)
Definition get_or_new (uid : string) : DB UserProfile :=
  found ← get_user_profile uid;
  match found with
  | Some profile => mret profile
  | None => create_user_profile uid None
  end.

(** The object the update functions work on: the stored profile of the
    user, else the one [create_user_profile] makes. *)
Definition fresh_profile : UserProfile :=
  mkUserProfile default_preferences default_statistics ∅ [] [] None.

Definition current (uid : string) (s : Store) : UserProfile :=
  default fresh_profile (user_profiles s !! uid).

Definition put (uid : string) (p : UserProfile) (s : Store) : Store :=
  mkStore (<[uid := p]> (user_profiles s)) (session_summaries s).

(** A unit of work that returns and leaves the statistics of the user as
    they were. *)
Definition keeps_statistics {A} (uid : string) (m : DB A) : Prop :=
  forall s, exists a s', run m s = Ok (a, s')
                         /\ statistics (current uid s') = statistics (current uid s).

(** [dict.update]: the keys of the delta win, the others stay. *)
Definition update_profile_preferences (now : Z) (uid : string)
    (preferences_delta : gmap string pval) : DB UserProfile :=
  profile ← get_or_new uid;
  let profile := set_updated_at now
                   (set_preferences (preferences_delta ∪ preferences profile) profile) in
  _ ← flush_profile uid profile;
  mret profile.

(** Lines 148-156: the new [avg_session_length], in Python's arithmetic. *)
Definition new_avg_session_length (current_avg : pynum) (old_total_sessions : Z)
    (session_length : pynum) : result pynum :=
  let new_total_sessions := old_total_sessions + 1 in
  new_avg ←
    (if 1 <? new_total_sessions
     then weighted ← py_mul current_avg (PyInt old_total_sessions);
          total ← py_add weighted session_length;
          py_truediv total (PyInt new_total_sessions)
     else Ok session_length);
  Ok (py_round2 new_avg).

(** Lines 133-158 on the copied dict. *)
Definition increment_statistics (now : Z) (st : Statistics)
    (increment_sessions increment_questions increment_active_days : bool)
    (session_length : option pynum) : result Statistics :=
  let old_total_sessions := default 0 (total_sessions st) in
  let sessions :=
    if increment_sessions then Some (old_total_sessions + 1) else total_sessions st in
  let questions :=
    if increment_questions then Some (default 0 (total_questions st) + 1)
    else total_questions st in
  let days :=
    if increment_active_days then Some (default 0 (active_days st) + 1)
    else active_days st in
  avg ←
    match session_length with
    | Some len =>
        new_avg ← new_avg_session_length (default (PyInt 0) (avg_session_length st))
                    old_total_sessions len;
        Ok (Some new_avg)
    | None => Ok (avg_session_length st)
    end;
  Ok (mkStatistics sessions questions days avg (most_active_hour st)
        (Some (isoformat now))).

Definition increment_profile_statistics (now : Z) (uid : string)
    (increment_sessions increment_questions increment_active_days : bool)
    (session_length : option pynum) : DB UserProfile :=
  profile ← get_or_new uid;
  st ← lift_result (increment_statistics now (statistics profile)
                      increment_sessions increment_questions increment_active_days
                      session_length);
  let profile := set_updated_at now (set_statistics st profile) in
  _ ← flush_profile uid profile;
  mret profile.

(** Python's two-argument [min] and [max] on floats: the first argument is
    kept unless the second compares strictly below (above) it. *)
Definition py_min (a b : float) : float := if (b <? a)%float then b else a.
Definition py_max (a b : float) : float := if (a <? b)%float then b else a.

(** Lines 187-196: the entry created on first sight of a concept. *)
Definition new_knowledge_point (now : Z) (subject topic difficulty : option string)
    : KnowledgePoint :=
  mkKnowledgePoint 0%float (isoformat now) 0 0 subject topic difficulty.

(** Lines 198-219 on one entry. *)
Definition touch_knowledge_point (now : Z) (mastery_delta : option float)
    (interaction_delta : Z) (confusion_delta : option Z)
    (subject topic difficulty : option string) (kp : KnowledgePoint) : KnowledgePoint :=
  let mastery :=
    match mastery_delta with
    | Some d => py_max 0 (py_min 1 (mastery_level kp + d))
    | None => mastery_level kp
    end in
  let confusion :=
    match confusion_delta with
    | Some d => Z.max 0 (Z.min 100 (kp_confusion_score kp + d))
    | None => kp_confusion_score kp
    end in
  mkKnowledgePoint mastery (isoformat now) (interaction_count kp + interaction_delta)
    confusion
    (if subject is Some _ then subject else kp_subject kp)
    (if topic is Some _ then topic else kp_topic kp)
    (if difficulty is Some _ then difficulty else kp_difficulty kp).

Definition update_graph (now : Z) (graph : gmap string KnowledgePoint) (c : string)
    (mastery_delta : option float) (interaction_delta : Z) (confusion_delta : option Z)
    (subject topic difficulty : option string) : gmap string KnowledgePoint :=
  let entry :=
    match graph !! c with
    | Some kp => kp
    | None => new_knowledge_point now subject topic difficulty
    end in
  <[c := touch_knowledge_point now mastery_delta interaction_delta confusion_delta
           subject topic difficulty entry]> graph.

Definition update_knowledge_graph (now : Z) (uid c : string)
    (mastery_delta : option float) (interaction_delta : Z) (confusion_delta : option Z)
    (subject topic difficulty : option string) : DB UserProfile :=
  profile ← get_or_new uid;
  let graph := update_graph now (knowledge_graph profile) c mastery_delta
                 interaction_delta confusion_delta subject topic difficulty in
  let profile := set_updated_at now (set_knowledge_graph graph profile) in
  _ ← flush_profile uid profile;
  mret profile.

(** One call of [update_knowledge_graph], and the stores a sequence of
    calls goes through. *)
Record GraphUpdate : Type := mkGraphUpdate {
  gu_now : Z;
  gu_user : string;
  gu_concept : string;
  gu_mastery_delta : option float;
  gu_interaction_delta : Z;
  gu_confusion_delta : option Z;
  gu_subject : option string;
  gu_topic : option string;
  gu_difficulty : option string
}.

Definition apply_graph_update (u : GraphUpdate) : DB UserProfile :=
  update_knowledge_graph (gu_now u) (gu_user u) (gu_concept u) (gu_mastery_delta u)
    (gu_interaction_delta u) (gu_confusion_delta u) (gu_subject u) (gu_topic u)
    (gu_difficulty u).

Fixpoint stores_after (s : Store) (ups : list GraphUpdate) : list Store :=
  match ups with
  | [] => []
  | u :: rest =>
      match run (apply_graph_update u) s with
      | Ok (_, s') => s' :: stores_after s' rest
      | Raise _ => []
      end
  end.

(** The bounds of the data model on one entry, on a graph and on every
    graph of a store. *)
Definition point_in_range (kp : KnowledgePoint) : Prop :=
  (0 <=? mastery_level kp)%float = true
  /\ (mastery_level kp <=? 1)%float = true
  /\ 0 <= kp_confusion_score kp <= 100.

Definition graph_in_range (g : gmap string KnowledgePoint) : Prop :=
  forall c kp, g !! c = Some kp -> point_in_range kp.


(** What a step of a profile update may do to the store: it leaves the
    summaries and the other users alone, removes neither the profile of the
    user nor a concept of its graph, and keeps the graph within the bounds. *)
Definition profile_step (uid : string) (s s' : Store) : Prop :=
  session_summaries s' = session_summaries s
  /\ (forall uid', uid' <> uid -> user_profiles s' !! uid' = user_profiles s !! uid')
  /\ (is_Some (user_profiles s !! uid) -> is_Some (user_profiles s' !! uid))
  /\ (forall c, is_Some (knowledge_graph (current uid s) !! c) ->
                is_Some (knowledge_graph (current uid s') !! c))
  /\ (graph_in_range (knowledge_graph (current uid s)) ->
      graph_in_range (knowledge_graph (current uid s'))).

Definition update_weak_points (now : Z) (uid : string)
    (weak_points_list : list WeakPoint) : DB UserProfile :=
  profile ← get_or_new uid;
  merged ← lift_result (merge_batch (isoformat now) (weak_points profile) weak_points_list);
  let profile := set_updated_at now (set_weak_points merged profile) in
  _ ← flush_profile uid profile;
  mret profile.

Definition set_interests (v : list string) (p : UserProfile) : UserProfile :=
  mkUserProfile (preferences p) (statistics p) (knowledge_graph p) v
    (weak_points p) (updated_at p).

(** Lines 73-95: the full update.  It works on a stored profile only and
    assigns the dumped request as the new [preferences]. *)
Definition update_user_profile (now : Z) (uid : string)
    (update_data : Schemas.UserProfileUpdate) : DB (option UserProfile) :=
  found ← get_user_profile uid;
  match found with
  | None => mret None
  | Some profile =>
      let profile :=
        match Schemas.upd_preferences update_data with
        | Some prefs => set_preferences (Schemas.model_dump prefs) profile
        | None => profile
        end in
      let profile :=
        match Schemas.upd_interests update_data with
        | Some v => set_interests v profile
        | None => profile
        end in
      let profile := set_updated_at now profile in
      _ ← flush_profile uid profile;
      mret (Some profile)
  end.

End WithClock.
End Crud.

(** ** database.py *)

Module Database.

(** [get_or_create_profile]: the stored profile, or a new one with the
    defaults written out in lines 192-213; the flag tells which. *)
Definition get_or_create_profile (uid : string) : DB (UserProfile * bool) :=
  mkDB (fun s =>
    match user_profiles s !! uid with
    | Some profile => Ok ((profile, false), s)
    | None =>
        let profile :=
          mkUserProfile
            (<["learning_style" := PStr "textual"]>
             (<["difficulty_preference" := PStr "intermediate"]>
             (<["language" := PStr "zh-CN"]>
             (<["include_code" := PBool true]>
             (<["include_math" := PBool true]>
             (<["response_format" := PStr "html"]> ∅))))))
            (mkStatistics (Some 0) (Some 0) (Some 0) (Some (PyInt 0)) None None)
            ∅ [] [] None in
        Ok ((profile, true),
            mkStore (<[uid := profile]> (user_profiles s)) (session_summaries s))
    end).

End Database.

(** ** What the agents take from outside the repository *)

(** Built-ins of Python's [str], which count and cut by code point. *)
Class PyStr : Type := {
  py_len : string -> Z;
  py_upper : string -> string;
  py_split : string -> list string;
  py_prefix : Z -> string -> string;
  py_suffix : Z -> string -> string;
  py_replace : string -> string -> string -> string
}.

Record llm_request : Type := mkRequest {
  req_user_prompt : string;
  req_system_prompt : option string;
  req_stage : string
}.

(** The two methods the agents inherit from [BaseAgent]: the prompt of the
    agent for a key, with its fallback, and the language-model call, which
    returns the response text or raises. *)
Class BaseAgent : Type := {
  get_prompt : string -> option string -> option string;
  call_llm : llm_request -> result string
}.

(** What [json.loads] returns, read at the type the caller uses it at: a
    JSON object with the keys the caller reads, or another JSON value. *)
Inductive json_doc (D : Type) : Type :=
| JObject (d : D)
| JOther.

Arguments JObject {D} d.
Arguments JOther {D}.

Class Json (D : Type) : Type := {
  json_loads : string -> result (json_doc D)
}.

(** [try: body  except E: handler] for the exceptions [catches] accepts. *)
Definition try_except {A} (body : result A) (catches : exn -> bool)
    (handler : exn -> result A) : result A :=
  match body with
  | Ok a => Ok a
  | Raise e => if catches e then handler e else Raise e
  end.

Definition except_Exception (e : exn) : bool := true.

Definition except_JSONDecodeError (e : exn) : bool :=
  match e with JSONDecodeError => true | _ => false end.

(** [a or b] on two values that are a string or [None]. *)
Definition py_or (a b : option string) : option string :=
  match a with
  | Some s => if decide (s = "") then b else a
  | None => b
  end.

(** [l[k:]] for any integer [k]. *)
Definition slice_from {A} (k : Z) (l : list A) : list A :=
  if k <? 0 then drop (Z.to_nat (Z.max 0 (Z.of_nat (length l) + k))) l
  else drop (Z.to_nat k) l.

Definition NL : string := String "010"%char "".

(** [sep.join(parts)] *)
Fixpoint join (sep : string) (parts : list string) : string :=
  match parts with
  | [] => ""
  | [p] => p
  | p :: rest => p +:+ sep +:+ join sep rest
  end.

(** [needle in haystack] *)
Definition contains (needle haystack : string) : bool :=
  if String.index 0 needle haystack is Some _ then true else false.

Record Message : Type := mkMessage {
  role : option string;
  content : option string
}.

(** [for x in xs: body(x)] inside a unit of work. *)
Fixpoint for_each_db {B} (body : B -> DB unit) (xs : list B) : DB unit :=
  match xs with
  | [] => mret tt
  | x :: xs' => _ ← body x; for_each_db body xs'
  end.

(** ** crud.py: session summaries *)

Module SummaryStore.

Definition get_session_summary (sid : string) : DB (option SessionSummary) :=
  mkDB (fun s =>
    Ok (find (fun row => bool_decide (ss_session_id row = sid)) (session_summaries s), s)).

(** The auto-incremented primary key. *)
Definition next_id (rows : list SessionSummary) : Z :=
  1 + foldr Z.max 0 (map ss_id rows).

Definition create_session_summary (now : Z) (sid uid core_topic : string)
    (key_points resolved unresolved : list string) (wps : list WeakPoint)
    (message_count : Z) : DB SessionSummary :=
  mkDB (fun s =>
    let row := mkSessionSummary (next_id (session_summaries s)) sid uid core_topic
                 key_points resolved unresolved wps message_count (Some now) (Some now) in
    Ok (row, mkStore (user_profiles s) (session_summaries s ++ [row]))).

Definition apply_update (now : Z)
    (core_topic : option string) (key_points resolved unresolved : option (list string))
    (wps : option (list WeakPoint)) (row : SessionSummary) : SessionSummary :=
  mkSessionSummary (ss_id row) (ss_session_id row) (ss_user_id row)
    (default (ss_core_topic row) core_topic)
    (default (ss_key_points row) key_points)
    (default (ss_resolved_questions row) resolved)
    (default (ss_unresolved_questions row) unresolved)
    (default (ss_weak_points row) wps)
    (ss_message_count row) (ss_created_at row) (Some now).

Fixpoint update_first (sid : string) (f : SessionSummary -> SessionSummary)
    (rows : list SessionSummary) : list SessionSummary :=
  match rows with
  | [] => []
  | row :: rest =>
      if bool_decide (ss_session_id row = sid) then f row :: rest
      else row :: update_first sid f rest
  end.

Definition update_session_summary (now : Z) (sid : string)
    (core_topic : option string) (key_points resolved unresolved : option (list string))
    (wps : option (list WeakPoint)) : DB (option SessionSummary) :=
  found ← get_session_summary sid;
  match found with
  | None => mret None
  | Some row =>
      let row' := apply_update now core_topic key_points resolved unresolved wps row in
      mkDB (fun s =>
        Ok (Some row',
            mkStore (user_profiles s)
              (update_first sid (fun _ => row') (session_summaries s))))
  end.

(** [get_user_session_summaries]: the rows of the user created at or after
    [now - days], newest first, at most [limit] of them. *)
Fixpoint insert_newest (row : SessionSummary) (rows : list SessionSummary)
    : list SessionSummary :=
  match rows with
  | [] => [row]
  | r :: rest =>
      if default 0 (ss_created_at r) <=? default 0 (ss_created_at row)
      then row :: r :: rest
      else r :: insert_newest row rest
  end.

Definition summaries_in_window (now : Z) (uid : string) (days : Z) (limit : nat)
    (rows : list SessionSummary) : list SessionSummary :=
  let cutoff_date := now - days * 86400 in
  let in_window row :=
    bool_decide (ss_user_id row = uid)
    && (if ss_created_at row is Some t then cutoff_date <=? t else false) in
  take limit (foldr insert_newest [] (filter in_window rows)).

Definition get_user_session_summaries (now : Z) (uid : string) (days : Z) (limit : nat)
    : DB (list SessionSummary) :=
  mkDB (fun s => Ok (summaries_in_window now uid days limit (session_summaries s), s)).

End SummaryStore.

(** ** agents/memory/summarizer_agent.py *)

Module Summarizer.
Import WeakPoints Crud SummaryStore.

(** [config.summary], with the defaults of [SummaryConfig]. *)
Record SummaryConfig : Type := mkSummaryConfig {
  summary_trigger_rounds : Z;
  summary_trigger_tokens : Z;
  summary_keep_recent : Z
}.

Definition default_config : SummaryConfig := mkSummaryConfig 10 4000 5.

(** The summary dict.  A field is [None] when the key is absent; for the
    keys read only through [.get] with a [None] default, also when it holds
    [null]. *)
Record Summary : Type := mkSummary {
  sm_core_topic : option string;
  sm_key_points : option (list string);
  sm_resolved_questions : option (list string);
  sm_unresolved_questions : option (list string);
  sm_user_preferences : option (gmap string pval);
  sm_weak_points : option (list WeakPoint);
  sm_subject : option string;
  sm_topic : option string;
  sm_difficulty : option string;
  sm_recent_messages : option (list Message);
  sm_message_count : option Z;
  sm_token_count : option Z;
  sm_created_at : option string;
  sm_generated_at : option string
}.

(** What [process] returns: the early exit, or the stored summary. *)
Inductive Outcome : Type :=
| NotTriggered
| Summarized (summary_id : Z) (summary : Summary).

Section Agent.
Context {clock : Clock} {pystr : PyStr} {agent : BaseAgent} {json : Json Summary}.
Variable config : SummaryConfig.

Definition _should_trigger_summary (messages : list Message) (force : bool) : bool :=
  if force then true
  else
    let message_count := Z.of_nat (length messages) in
    if summary_trigger_rounds config * 2 <=? message_count then true
    else
      let total_chars :=
        foldr Z.add 0 (map (fun m => py_len (default "" (content m))) messages) in
      let estimated_tokens := total_chars / 2 in
      summary_trigger_tokens config <=? estimated_tokens.

Definition _format_messages (messages : list Message) : string :=
  join NL
    (imap (fun i msg =>
             pretty (Z.of_nat i + 1) +:+ ". [" +:+ py_upper (default "unknown" (role msg))
             +:+ "]: " +:+ default "" (content msg))
          messages).

Definition _get_default_summary (messages : list Message) : Summary :=
  mkSummary
    (Some "学习对话")
    (Some ["讨论了相关概念"; "进行了一些问题解答"])
    (Some [])
    (Some [])
    (Some (<["learning_style" := PStr "textual"]>
           (<["difficulty_preference" := PStr "intermediate"]>
           (<["include_code" := PBool true]>
           (<["include_math" := PBool true]> ∅)))))
    (Some [])
    None None None
    (Some (if 5 <? Z.of_nat (length messages) then slice_from (-5) messages else messages))
    (Some (Z.of_nat (length messages)))
    (Some 0)
    None None.

(** Lines 183-186: the two keys written into the parsed object. *)
Definition attach_messages (messages : list Message) (summary : Summary) : Summary :=
  let keep_recent := summary_keep_recent config in
  mkSummary (sm_core_topic summary) (sm_key_points summary)
    (sm_resolved_questions summary) (sm_unresolved_questions summary)
    (sm_user_preferences summary) (sm_weak_points summary)
    (sm_subject summary) (sm_topic summary) (sm_difficulty summary)
    (Some (if keep_recent <? Z.of_nat (length messages)
           then slice_from (- keep_recent) messages else messages))
    (Some (Z.of_nat (length messages)))
    (sm_token_count summary) (sm_created_at summary) (sm_generated_at summary).

Definition summarize_request (messages : list Message) : llm_request :=
  let messages_text := _format_messages messages in
  let system_prompt := get_prompt "system" None in
  let user_prompt := get_prompt "user" (Some "分析以下对话并生成JSON摘要：\n\n{messages}") in
  let user_prompt :=
    match user_prompt with
    | Some template => py_replace template "{messages}" (py_suffix 5000 messages_text)
    | None => "None" +:+ "\n\n" +:+ py_suffix 5000 messages_text
    end in
  mkRequest user_prompt system_prompt "summarize".

(** The outcome, and the requests sent to the language model.  The call
    stands before the [try]; the handler accepts [json.JSONDecodeError]
    only. *)
Definition _generate_summary (session_id uid : string) (messages : list Message)
    : result Summary * list llm_request :=
  let request := summarize_request messages in
  (response ← call_llm request;
   try_except
     (doc ← json_loads response;
      match doc with
      | JObject summary => Ok (attach_messages messages summary)
      | JOther => Raise TypeError
      end)
     except_JSONDecodeError
     (fun _ => Ok (_get_default_summary messages)),
   [request]).

(** [" ".join(point.split()[0:5])[:50]] *)
Definition concept_of_key_point (point : string) : string :=
  py_prefix 50 (join " " (take 5 (py_split point))).

(** Lines 245-253: the entry handed to [update_weak_points]. *)
Definition stamp_weak_point (summary : Summary) (wp : WeakPoint) : WeakPoint :=
  mkWeakPoint (concept wp) (confusion_score wp)
    (Some (py_or (sm_created_at summary) (sm_generated_at summary)))
    (py_or (wp_subject wp) (sm_subject summary))
    (py_or (wp_topic wp) (sm_topic summary)).

(** Lines 256-269: the arguments of the statistics update. *)
Definition session_length_of (summary : Summary) : option pynum :=
  Some (PyInt (default 0 (sm_message_count summary))).

Definition has_questions (summary : Summary) : bool :=
  let resolved_count := Z.of_nat (length (default [] (sm_resolved_questions summary))) in
  let unresolved_count := Z.of_nat (length (default [] (sm_unresolved_questions summary))) in
  let total_questions := resolved_count + unresolved_count in
  0 <? total_questions.

Definition reinforcement : float := 0x1.999999999999ap-4%float.

Definition _update_user_profile (now : Z) (uid : string) (summary : Summary) : DB unit :=
  _ ← match sm_user_preferences summary with
      | Some prefs => _ ← update_profile_preferences now uid prefs; mret tt
      | None => mret tt
      end;
  _ ← match sm_weak_points summary with
      | Some (wp :: wps) =>
          _ ← update_weak_points now uid (map (stamp_weak_point summary) (wp :: wps));
          mret tt
      | _ => mret tt
      end;
  _ ← increment_profile_statistics now uid true (has_questions summary) true
        (session_length_of summary);
  match sm_key_points summary with
  | Some points =>
      for_each_db
        (fun point =>
           _ ← update_knowledge_graph now uid (concept_of_key_point point)
                 (Some reinforcement) 1 None
                 (sm_subject summary) (sm_topic summary) (sm_difficulty summary);
           mret tt)
        points
  | None => mret tt
  end.

(** Lines 81-107: create the row of the session, or update it in place. *)
Definition upsert_summary (now : Z) (session_id uid : string) (summary : Summary) : DB Z :=
  existing ← get_session_summary session_id;
  match existing with
  | Some row =>
      core_topic ← lift_result (subscript (sm_core_topic summary));
      key_points ← lift_result (subscript (sm_key_points summary));
      resolved ← lift_result (subscript (sm_resolved_questions summary));
      unresolved ← lift_result (subscript (sm_unresolved_questions summary));
      wps ← lift_result (subscript (sm_weak_points summary));
      updated ← update_session_summary now session_id (Some core_topic) (Some key_points)
                  (Some resolved) (Some unresolved) (Some wps);
      mret (if updated is Some row' then ss_id row' else ss_id row)
  | None =>
      match sm_core_topic summary, sm_key_points summary with
      | Some core_topic, Some key_points =>
          created ← create_session_summary now session_id uid core_topic key_points
                      (default [] (sm_resolved_questions summary))
                      (default [] (sm_unresolved_questions summary))
                      (default [] (sm_weak_points summary))
                      (default 0 (sm_message_count summary));
          mret (ss_id created)
      | _, _ => lift_result (Raise ValidationError)
      end
  end.

Definition process (now : Z) (session_id uid : string) (messages : list Message)
    (force : bool) (s : Store) : result (Outcome * Store) * list llm_request :=
  if negb (_should_trigger_summary messages force) then (Ok (NotTriggered, s), [])
  else
    let '(generated, calls) := _generate_summary session_id uid messages in
    (summary_data ← generated;
     run (summary_id ← upsert_summary now session_id uid summary_data;
          _ ← _update_user_profile now uid summary_data;
          mret (Summarized summary_id summary_data)) s,
     calls).

End Agent.
End Summarizer.

(** ** agents/memory/retrieval_agent.py *)

Module Retrieval.
Import WeakPoints Crud SummaryStore.

(** The keys [process] reads from the context dict. *)
Record ContextDoc : Type := mkContextDoc {
  suggested_context : option string;
  relevant_memories : option (list string);
  follow_up_suggestions : option (list string)
}.

(** The dict [process] returns.  [user_profile] is [profile_obj.to_dict()],
    or [None] for the empty dict. *)
Record Retrieved : Type := mkRetrieved {
  success : bool;
  context : string;
  source_memories : list string;
  user_profile : option UserProfile;
  rt_weak_points : list WeakPoint
}.

Section Agent.
Context {clock : Clock} {pystr : PyStr} {agent : BaseAgent} {json : Json ContextDoc}.
(** [str(x)] of a JSON number, and [json.dumps(profile, ...)]. *)
Variable str_of_num : Q -> string.
Variable json_dumps : option UserProfile -> string.

Definition no_memories : string := "暂无历史记忆".

Definition _format_summaries (summaries : list SessionSummary) : string :=
  match summaries with
  | [] => no_memories
  | _ =>
      join (NL +:+ NL)
        (map (fun s =>
                join NL
                  [ "会话ID: " +:+ ss_session_id s;
                    "日期: " +:+ (if ss_created_at s is Some t then strftime_minutes t else "N/A");
                    "核心主题: " +:+ ss_core_topic s;
                    "关键知识点: " +:+ join ", " (take 3 (ss_key_points s));
                    "已解决问题: " +:+ join ", " (take 2 (ss_resolved_questions s));
                    "未解决问题: " +:+ join ", " (take 2 (ss_unresolved_questions s));
                    "---" ])
             summaries)
  end.

(** [str(v)] of a preference value. *)
Definition py_str (v : pval) : string :=
  match v with
  | PNull => "None"
  | PBool true => "True"
  | PBool false => "False"
  | PNum q => str_of_num q
  | PStr s => s
  end.

(** Truth value of [d.get(k)]. *)
Definition truthy (v : option pval) : bool :=
  match v with
  | None | Some PNull => false
  | Some (PBool b) => b
  | Some (PNum q) => negb (Qeq_bool q 0)
  | Some (PStr s) => negb (bool_decide (s = ""))
  end.

Definition style_map : gmap string string :=
  <["visual" := "视觉型学习者（偏好图表、图像）"]>
  (<["textual" := "文字型学习者（偏好文字解释）"]>
  (<["hands_on" := "动手型学习者（偏好实践操作）"]>
  (<["code_first" := "代码优先学习者（偏好先看代码示例）"]> ∅))).

Definition difficulty_map : gmap string string :=
  <["beginner" := "初学者"]>
  (<["intermediate" := "中级"]>
  (<["advanced" := "高级"]> ∅)).

(** [table.get(v, v)] rendered inside an f-string. *)
Definition render_with (table : gmap string string) (v : pval) : string :=
  match v with
  | PStr s => default s (table !! s)
  | _ => py_str v
  end.

Definition _get_basic_context (profile : option UserProfile) : string :=
  let prefs : gmap string pval := if profile is Some p then preferences p else ∅ in
  let learning_style := default (PStr "textual") (prefs !! "learning_style") in
  let difficulty := default (PStr "intermediate") (prefs !! "difficulty_preference") in
  let context_parts :=
    ["- 学习风格：" +:+ render_with style_map learning_style]
    ++ ["- 难度偏好：" +:+ render_with difficulty_map difficulty]
    ++ (if truthy (prefs !! "include_code") then ["- 喜欢包含代码示例"] else [])
    ++ (if truthy (prefs !! "include_math") then ["- 可以包含数学公式"] else [])
    ++ (let weak_points := if profile is Some p then weak_points p else [] in
        match weak_points with
        | [] => []
        | _ =>
            let top_weak := take 3 weak_points in
            let weak_list :=
              map (fun wp => concept wp +:+ "（困惑度" +:+ pretty (get_score wp) +:+ "）")
                  top_weak in
            ["- 薄弱知识点：" +:+ join ", " weak_list]
        end) in
  match context_parts with
  | [] => "新用户，暂无画像信息"
  | _ => "## 用户画像" +:+ NL +:+ join NL context_parts
  end.

Definition basic_context_doc (profile : option UserProfile) : json_doc ContextDoc :=
  JObject (mkContextDoc (Some (_get_basic_context profile)) (Some []) (Some [])).

Definition retrieve_request (query : string) (profile : option UserProfile)
    (memories_text : string) (days : Z) : llm_request :=
  let system_prompt := get_prompt "system" (Some "你是一个智能记忆检索助手。") in
  let user_prompt := get_prompt "user" (Some "请检索相关记忆。") in
  let user_prompt :=
    match user_prompt with
    | Some template =>
        py_replace
          (py_replace
             (py_replace (py_replace template "{query}" query) "{profile}" (json_dumps profile))
             "{memories}" (py_suffix 4000 memories_text))
          "{days}" (pretty days)
    | None =>
        join NL
          [ "请根据用户画像和历史记忆，为以下查询生成上下文。"; "";
            "查询: " +:+ query; "";
            "用户画像:"; json_dumps profile; "";
            "历史记忆:"; py_suffix 4000 memories_text; "";
            "返回 JSON 格式，包含:";
            "- suggested_context: 建议的上下文";
            "- relevant_memories: 相关记忆列表";
            "- follow_up_suggestions: 后续问题建议"; "" ]
    end in
  mkRequest user_prompt system_prompt "retrieve_memory".

(** The context dict, and the requests sent to the language model. *)
Definition _generate_context (query : string) (profile : option UserProfile)
    (memories_text : string) (days : Z)
    : result (json_doc ContextDoc) * list llm_request :=
  if bool_decide (memories_text = "") || contains no_memories memories_text
  then (Ok (basic_context_doc profile), [])
  else
    let request := retrieve_request query profile memories_text days in
    (try_except
       (response ← call_llm request; json_loads response)
       except_Exception
       (fun _ => Ok (basic_context_doc profile)),
     [request]).

(** [context.get(...)] on what [_generate_context] returned. *)
Definition read_context (doc : json_doc ContextDoc) : result (string * list string) :=
  match doc with
  | JObject d => Ok (default "" (suggested_context d), default [] (relevant_memories d))
  | JOther => Raise AttributeError
  end.

Definition process (now : Z) (uid query : string) (days : Z)
    (subject topic : option string) (s : Store)
    : result (Retrieved * Store) * list llm_request :=
  match run (profile_obj ← get_user_profile uid;
             summaries ← get_user_session_summaries now uid days 20;
             mret (profile_obj, summaries)) s with
  | Raise e => (Raise e, [])
  | Ok ((profile, summaries), s') =>
      let memories_text := _format_summaries summaries in
      let '(generated, calls) := _generate_context query profile memories_text days in
      (doc ← generated;
       '(text, memories) ← read_context doc;
       Ok (mkRetrieved true text memories profile
             (if profile is Some p then weak_points p else []), s'),
       calls)
  end.

(** What retrieval answers from the profile alone. *)
Definition profile_only (profile : option UserProfile) : Retrieved :=
  mkRetrieved true (_get_basic_context profile) [] profile
    (if profile is Some p then weak_points p else []).

End Agent.
End Retrieval.

(** ** agents/memory/profile_agent.py *)

Module Profile.
Import Crud Database.

(** The dict [process] returns. *)
Record Inferred : Type := mkInferred {
  success : bool;
  profile : UserProfile;
  inferred_preferences : json_doc (gmap string pval);
  created : bool
}.

Section Agent.
Context {clock : Clock} {pystr : PyStr} {agent : BaseAgent}
  {json : Json (gmap string pval)}.

Definition _format_messages_for_inference (messages : list Message) : string :=
  join (NL +:+ NL)
    (omap (fun msg =>
             let body := default "" (content msg) in
             if bool_decide (body = "") then None
             else Some ("[" +:+ py_upper (default "unknown" (role msg)) +:+ "]: " +:+ body))
          messages).

Definition infer_request (messages : list Message) : llm_request :=
  let messages_text := _format_messages_for_inference messages in
  let system_prompt := get_prompt "system" None in
  let user_prompt := get_prompt "user" (Some "分析用户偏好。") in
  let user_prompt :=
    match user_prompt with
    | Some template => py_replace template "{messages}" (py_suffix 3000 messages_text)
    | None => "None" +:+ "\n\n对话内容:\n" +:+ py_suffix 3000 messages_text
    end in
  mkRequest user_prompt system_prompt "infer_preferences".

(** Every failure of the call or of the parse gives the empty dict. *)
Definition _infer_preferences (messages : list Message)
    : json_doc (gmap string pval) * list llm_request :=
  match messages with
  | [] => (JObject ∅, [])
  | _ =>
      let request := infer_request messages in
      (match response ← call_llm request; json_loads response with
       | Ok doc => doc
       | Raise _ => JObject ∅
       end,
       [request])
  end.

(** [preferences.get("confidence", 0) > 0.5] *)
Definition confident (doc : json_doc (gmap string pval)) : result bool :=
  match doc with
  | JOther => Raise AttributeError
  | JObject prefs =>
      match prefs !! "confidence" with
      | None => Ok false
      | Some (PNum q) => Ok (if Qlt_le_dec (1 # 2) q then true else false)
      | Some (PBool b) => Ok b
      | Some PNull | Some (PStr _) => Raise TypeError
      end
  end.

(** Lines 57-65.  [profile] names the object of the session, which
    [update_profile_preferences] loads again and changes in place: what
    [to_dict] reads after the update is the changed object. *)
Definition consolidate (now : Z) (uid : string) (doc : json_doc (gmap string pval))
    : DB (UserProfile * bool) :=
  '(profile, created) ← get_or_create_profile uid;
  sure ← lift_result (confident doc);
  profile ←
    (if sure : bool
     then update_profile_preferences now uid (if doc is JObject prefs then prefs else ∅)
     else mret profile);
  mret (profile, created).

Definition process (now : Z) (uid : string) (messages : list Message)
    (update_statistics : bool) (s : Store)
    : result (Inferred * Store) * list llm_request :=
  let '(preferences, calls) := _infer_preferences messages in
  ('(profile, created, s') ← run (consolidate now uid preferences) s;
   Ok (mkInferred true profile preferences created, s'),
   calls).

(** Lines 120-124. *)
Definition get_profile (uid : string) : DB UserProfile :=
  '(profile, _) ← get_or_create_profile uid;
  mret profile.

(** Lines 126-134.  [update_profile_preferences] never returns [None], so
    the empty dict of line 134 is not among the answers. *)
Definition update_preferences (now : Z) (uid : string) (preferences : gmap string pval)
    : DB UserProfile :=
  update_profile_preferences now uid preferences.

End Agent.
End Profile.

(** ** api/routers/memory.py *)

Module Api.
Import WeakPoints Crud SummaryStore Database.

(** [GET /profiles/{user_id}], lines 57-65. *)
Definition get_profile (uid : string) : DB UserProfile :=
  profile ← get_user_profile uid;
  match profile with
  | Some profile => mret profile
  | None => '(profile, _) ← get_or_create_profile uid; mret profile
  end.

(** The dict of [GET /sessions/{user_id}/list]. *)
Record SessionList : Type := mkSessionList {
  sl_success : bool;
  sl_user_id : string;
  sl_days : Z;
  sl_count : Z;
  sl_sessions : list SessionSummary
}.

Definition list_user_sessions (now : Z) (uid : string) (days : Z) (limit : nat)
    : DB SessionList :=
  summaries ← get_user_session_summaries now uid days limit;
  mret (mkSessionList true uid days (Z.of_nat (length summaries)) summaries).

(** The dict of [GET /stats/{user_id}]: the stored statistics and the
    counts added to their copy. *)
Record UserStats : Type := mkUserStats {
  us_statistics : Statistics;
  recent_sessions_30d : Z;
  weak_points_count : Z;
  top_weak_points : list WeakPoint;
  knowledge_points_count : Z;
  mastered_points_count : Z
}.

(** For a user without a profile the answer is the dict of three zero
    counters. *)
Inductive StatsReply : Type :=
| NoProfile (total_sessions total_questions active_days : Z)
| ProfileStats (stats : UserStats).

(** [0.7] as a binary64 number. *)
Definition mastery_threshold : float := 0x1.6666666666666p-1%float.

(** [v.get("mastery_level", 0) > 0.7] *)
Definition is_mastered (kp : KnowledgePoint) : bool :=
  (mastery_threshold <? mastery_level kp)%float.

Definition get_user_stats (now : Z) (uid : string) : DB StatsReply :=
  profile ← get_user_profile uid;
  match profile with
  | None => mret (NoProfile 0 0 0)
  | Some profile =>
      let stats := statistics profile in
      recent_summaries ← get_user_session_summaries now uid 30 100;
      let weak_points := weak_points profile in
      let knowledge_graph := knowledge_graph profile in
      let mastered :=
        length (List.filter is_mastered (snd <$> map_to_list knowledge_graph)) in
      mret (ProfileStats
              (mkUserStats stats
                 (Z.of_nat (length recent_summaries))
                 (Z.of_nat (length weak_points))
                 (take 5 weak_points)
                 (Z.of_nat (size knowledge_graph))
                 (Z.of_nat mastered)))
  end.

End Api.

(** ** api/routers/chat.py: the calls of the summarizer *)

Module Chat.
Import Summarizer.

(** What [POST /chat/sessions/{session_id}/end] answers: the 404 of an
    unknown session, one of the two "skipped" dicts, the "success" dict with
    the result of the summarizer, or the 500 of an exception. *)
Inductive EndSession : Type :=
| NotFound
| Skipped (message : string)
| Success (outcome : Outcome)
| ServerError (e : exn).

Section Endpoints.
Context {clock : Clock} {pystr : PyStr} {agent : BaseAgent} {json : Json Summary}.
Variable config : SummaryConfig.

(** [end_session], lines 87-128.  [session] is what
    [session_manager.get_session] found, read at its ["messages"]. *)
Definition end_session (now : Z) (session : option (list Message)) (session_id : string)
    (user_id : option string) (s : Store) : EndSession * Store * list llm_request :=
  match session with
  | None => (NotFound, s, [])
  | Some [] => (Skipped "No messages to summarize", s, [])
  | Some messages =>
      match user_id with
      | None => (Skipped "Invalid user_id for memory system", s, [])
      | Some uid =>
          if bool_decide (uid = "") || bool_decide (uid = "default_user")
          then (Skipped "Invalid user_id for memory system", s, [])
          else
            let '(result, calls) := process config now session_id uid messages true s in
            match result with
            | Ok (outcome, s') => (Success outcome, s', calls)
            | Raise e => (ServerError e, s, calls)
            end
      end
  end.

(** [trigger_summary] of the websocket handler, lines 170-197: the
    background task started on disconnect.  Every exception is logged and
    dropped. *)
Definition trigger_summary (now : Z) (session : option (list Message)) (sid uid : string)
    (s : Store) : Store * list llm_request :=
  match session with
  | None => (s, [])
  | Some messages =>
      if (if messages is [] then true else false) || bool_decide (uid = "default_user")
      then (s, [])
      else if Z.of_nat (length messages) <? 6 then (s, [])
      else
        let '(result, calls) := process config now sid uid messages false s in
        (match result with Ok (_, s') => s' | Raise _ => s end, calls)
  end.

End Endpoints.
End Chat.

(** ** Collaborators and inputs on which the model is run *)

Module Examples.
Import WeakPoints Crud.

(** A clock that prints the seconds since the epoch. *)
Definition epoch_clock : Clock :=
  {| isoformat := pretty; strftime_minutes := pretty |}.

(** The [str] built-ins read byte by byte, which is what Python computes on
    ASCII text. *)
Definition upper_ascii (c : ascii) : ascii :=
  let n := nat_of_ascii c in
  if ((97 <=? n) && (n <=? 122))%nat then ascii_of_nat (n - 32) else c.

Fixpoint upper (s : string) : string :=
  match s with
  | EmptyString => EmptyString
  | String c rest => String (upper_ascii c) (upper rest)
  end.

Definition is_space (c : ascii) : bool :=
  let n := nat_of_ascii c in
  ((n =? 32) || ((9 <=? n) && (n <=? 13)) || ((28 <=? n) && (n <=? 31)))%nat.

Fixpoint split_from (word s : string) : list string :=
  match s with
  | EmptyString => if decide (word = "") then [] else [word]
  | String c rest =>
      if is_space c
      then (if decide (word = "") then split_from "" rest else word :: split_from "" rest)
      else split_from (word +:+ String c "") rest
  end.

Definition first_chars (n : Z) (s : string) : string := substring 0 (Z.to_nat n) s.

Definition last_chars (n : Z) (s : string) : string :=
  if n <=? 0 then s
  else substring (String.length s - Z.to_nat n) (Z.to_nat n) s.

Fixpoint replace_from (fuel : nat) (s old new : string) : string :=
  match fuel, s with
  | S fuel', String c rest =>
      if String.prefix old s
      then new +:+ replace_from fuel'
                     (substring (String.length old) (String.length s - String.length old) s)
                     old new
      else String c (replace_from fuel' rest old new)
  | _, _ => s
  end.

Definition ascii_str : PyStr :=
  {| py_len := fun s => Z.of_nat (String.length s);
     py_upper := upper;
     py_split := split_from "";
     py_prefix := first_chars;
     py_suffix := last_chars;
     py_replace := fun s old new => replace_from (String.length s) s old new |}.

(** An agent without prompt files whose language model is unreachable, and
    one whose language model answers with a fixed text. *)
Definition llm_down : BaseAgent :=
  {| get_prompt := fun _ fallback => fallback;
     call_llm := fun _ => Raise RuntimeError |}.

Definition llm_replying (text : string) : BaseAgent :=
  {| get_prompt := fun _ fallback => fallback;
     call_llm := fun _ => Ok text |}.

(** Stand-ins for [str] of a number and for [json.dumps]. *)
Definition ratio_text (q : Q) : string :=
  pretty (Qnum q) +:+ "/" +:+ pretty (Z.pos (Qden q)).

Definition braces (_ : option UserProfile) : string := "{}".

(** A parser with a fixed outcome. *)
Definition json_reading {D} (outcome : result (json_doc D)) : Json D :=
  {| json_loads := fun _ => outcome |}.

Definition no_store : Store := mkStore ∅ [].

(** Weak points. *)
Definition seen (c : string) (score : Z) (at_time : string) : WeakPoint :=
  mkWeakPoint c (Some score) (Some (Some at_time)) None None.

Definition recursion_jan : WeakPoint := seen "recursion" 50 "2024-01-01T00:00:00".
Definition recursion_feb : WeakPoint := seen "recursion" 50 "2024-02-01T00:00:00".
Definition recursion_60 : WeakPoint := seen "recursion" 60 "2024-03-01T00:00:00".
Definition recursion_80 : WeakPoint := seen "recursion" 80 "2024-03-01T00:00:00".
Definition pointers_40 : WeakPoint := seen "pointers" 40 "2024-01-15T00:00:00".

(** A conversation of two turns. *)
Definition two_turns : list Message :=
  [ mkMessage (Some "user") (Some "what is recursion");
    mkMessage (Some "assistant") (Some "a function that calls itself") ].

(** A conversation of [n] short messages, and a configuration that asks
    for three rounds. *)
Definition short_turns (n : nat) : list Message :=
  replicate n (mkMessage (Some "user") (Some "ok")).

Definition three_rounds : Summarizer.SummaryConfig :=
  Summarizer.mkSummaryConfig 3 4000 5.

(** The same with [summary_keep_recent = 0]. *)
Definition keep_none : Summarizer.SummaryConfig :=
  Summarizer.mkSummaryConfig 3 4000 0.

(** A stored profile after two sessions that averaged ten messages. *)
Definition two_sessions : Statistics :=
  mkStatistics (Some 2) (Some 1) (Some 2) (Some (PyFloat 10)) None None.

Definition returning_user : UserProfile :=
  mkUserProfile default_preferences two_sessions ∅ [] [recursion_jan] None.

Definition one_user : Store := mkStore (<["u1" := returning_user]> ∅) [].

(** A visual learner at the advanced level who asked for no code and said
    nothing about formulas, with four weak points. *)
Definition visual_learner : UserProfile :=
  mkUserProfile
    (<["learning_style" := PStr "visual"]>
     (<["difficulty_preference" := PStr "advanced"]>
     (<["include_code" := PBool false]> ∅)))
    two_sessions ∅ [] [recursion_80; recursion_60; recursion_jan; pointers_40] None.

(** A summary row of the user, and a store that holds it. *)
Definition a_row : SessionSummary :=
  mkSessionSummary 1 "s1" "u1" "recursion" ["base case"] [] [] [] 8 (Some 1000) (Some 1000).

Definition one_summary : Store := mkStore (<["u1" := returning_user]> ∅) [a_row].


(** Two updates of one concept that raise its confusion past the bound. *)
Definition rising_confusion : list GraphUpdate :=
  [ mkGraphUpdate 1 "u1" "recursion" None 1 (Some 70) None None None;
    mkGraphUpdate 2 "u1" "recursion" None 2 (Some 50) None None None ].

(** What an inference pass may return: a guess of low and one of high
    confidence. *)
Definition unsure_guess : gmap string pval :=
  <["confidence" := PNum (3 # 10)]> (<["learning_style" := PStr "visual"]> ∅).

Definition confident_guess : gmap string pval :=
  <["confidence" := PNum (6 # 10)]> (<["learning_style" := PStr "visual"]> ∅).

(** A guess whose confidence is a word. *)
Definition worded_guess : gmap string pval :=
  <["confidence" := PStr "high"]> (<["learning_style" := PStr "visual"]> ∅).

(** A summary as the language model may return it. *)
Definition parsed_summary : Summarizer.Summary :=
  Summarizer.mkSummary (Some "recursion") (Some ["base case first"]) (Some ["what is it"])
    (Some []) (Some (<["learning_style" := PStr "visual"]> ∅))
    (Some [mkWeakPoint "recursion" (Some 70) None None None])
    (Some "cs") None None None None None None None.

End Examples.

(** ** The formula of the specification *)

(** The running weighted mean as the specification words it,
    [(old_avg × old_count + new_value) / (old_count + 1)], in Python's
    arithmetic. *)
Definition running_mean (old_avg : pynum) (old_count : Z) (new_value : pynum)
    : result pynum :=
  weighted ← py_mul old_avg (PyInt old_count);
  total ← py_add weighted new_value;
  py_truediv total (PyInt (old_count + 1)).

(** The statistics after sessions of the given numbers of messages,
    recorded one after the other. *)
Definition after_sessions {clock : Clock} (now : Z) (lengths : list Z) (st : Statistics)
    : result Statistics :=
  foldl (fun r length => st ← r;
                         Crud.increment_statistics now st true false true
                           (Some (PyInt length)))
        (Ok st) lengths.

(** * Properties *)

Import WeakPoints Crud SummaryStore Examples.

(** ** Running a unit of work *)

Section StoreFacts.
Context {clock : Clock}.

Lemma run_bind {A B} (m : DB A) (f : A -> DB B) s :
  run (m ≫= f) s
  = match run m s with Ok (a, s') => run (f a) s' | Raise e => Raise e end.
Proof. reflexivity. Qed.

Lemma put_put uid p q s : put uid p (put uid q s) = put uid p s.
Proof. unfold put. simpl. by rewrite insert_insert_eq. Qed.

Lemma current_put uid p s : current uid (put uid p s) = p.
Proof. unfold current, put. simpl. by rewrite lookup_insert_eq. Qed.

(** The opening lines hand over the current object; whatever they added to
    the session is overwritten by the flush that follows. *)
Lemma run_get_or_new uid s :
  exists s', run (get_or_new uid) s = Ok (current uid s, s')
             /\ forall p, put uid p s' = put uid p s.
Proof.
  unfold get_or_new, current. rewrite run_bind. simpl.
  destruct (user_profiles s !! uid) as [p|] eqn:Hp; simpl.
  - exists s. done.
  - eexists. split; [reflexivity|]. intros p. apply put_put.
Qed.

Lemma run_modify uid (f : UserProfile -> UserProfile) s :
  run (profile ← get_or_new uid; _ ← flush_profile uid (f profile); mret (f profile)) s
  = Ok (f (current uid s), put uid (f (current uid s)) s).
Proof.
  rewrite run_bind. destruct (run_get_or_new uid s) as (s' & -> & Hput).
  rewrite run_bind. simpl. f_equal. f_equal. apply Hput.
Qed.

Lemma run_update_profile_preferences now uid delta s :
  run (update_profile_preferences now uid delta) s
  = Ok (set_updated_at now (set_preferences (delta ∪ preferences (current uid s)) (current uid s)),
        put uid (set_updated_at now
                   (set_preferences (delta ∪ preferences (current uid s)) (current uid s))) s).
Proof.
  exact (run_modify uid
           (fun p => set_updated_at now (set_preferences (delta ∪ preferences p) p)) s).
Qed.

Lemma run_increment_profile_statistics now uid a b c len s :
  run (increment_profile_statistics now uid a b c len) s
  = match increment_statistics now (statistics (current uid s)) a b c len with
    | Ok st =>
        Ok (set_updated_at now (set_statistics st (current uid s)),
            put uid (set_updated_at now (set_statistics st (current uid s))) s)
    | Raise e => Raise e
    end.
Proof.
  unfold increment_profile_statistics. rewrite run_bind.
  destruct (run_get_or_new uid s) as (s' & -> & Hput).
  rewrite run_bind. simpl.
  destruct (increment_statistics _ _ _ _ _ _) as [st|e]; simpl; [|done].
  f_equal. f_equal. apply Hput.
Qed.

Lemma run_update_knowledge_graph now uid c md idelta cd sub top dif s :
  run (update_knowledge_graph now uid c md idelta cd sub top dif) s
  = Ok (set_updated_at now
          (set_knowledge_graph
             (update_graph now (knowledge_graph (current uid s)) c md idelta cd sub top dif)
             (current uid s)),
        put uid
          (set_updated_at now
             (set_knowledge_graph
                (update_graph now (knowledge_graph (current uid s)) c md idelta cd sub top dif)
                (current uid s))) s).
Proof.
  exact (run_modify uid
           (fun p => set_updated_at now
                       (set_knowledge_graph
                          (update_graph now (knowledge_graph p) c md idelta cd sub top dif) p))
           s).
Qed.

Lemma run_update_weak_points now uid batch s :
  run (update_weak_points now uid batch) s
  = match merge_batch (isoformat now) (weak_points (current uid s)) batch with
    | Ok merged =>
        Ok (set_updated_at now (set_weak_points merged (current uid s)),
            put uid (set_updated_at now (set_weak_points merged (current uid s))) s)
    | Raise e => Raise e
    end.
Proof.
  unfold update_weak_points. rewrite run_bind.
  destruct (run_get_or_new uid s) as (s' & -> & Hput).
  rewrite run_bind. simpl.
  destruct (merge_batch _ _ _) as [merged|e]; simpl; [|done].
  f_equal. f_equal. apply Hput.
Qed.

Lemma run_get_or_create_profile uid s :
  exists s', run (Database.get_or_create_profile uid) s
             = Ok ((current uid s, bool_decide (user_profiles s !! uid = None)), s')
             /\ current uid s' = current uid s
             /\ user_profiles s' !! uid = Some (current uid s)
             /\ forall p, put uid p s' = put uid p s.
Proof.
  unfold Database.get_or_create_profile, current. simpl.
  destruct (user_profiles s !! uid) as [p|] eqn:Hp; simpl.
  - exists s. rewrite Hp. done.
  - eexists. split; [reflexivity|]. simpl. rewrite lookup_insert_eq.
    split; [done|]. split; [done|]. intros p. apply put_put.
Qed.

(** Steps that keep the statistics compose. *)
Lemma keeps_ret {A} uid (a : A) : keeps_statistics uid (mret a).
Proof. intros s. by exists a, s. Qed.

Lemma keeps_bind {A B} uid (m : DB A) (f : A -> DB B) :
  keeps_statistics uid m -> (forall a, keeps_statistics uid (f a)) ->
  keeps_statistics uid (m ≫= f).
Proof.
  intros Hm Hf s. destruct (Hm s) as (a & s1 & Hrun & Hst).
  destruct (Hf a s1) as (b & s2 & Hrun2 & Hst2).
  exists b, s2. rewrite run_bind, Hrun, Hrun2. split; [done|congruence].
Qed.

Lemma keeps_for_each {B} uid (body : B -> DB unit) xs :
  (forall x, keeps_statistics uid (body x)) -> keeps_statistics uid (for_each_db body xs).
Proof.
  intros Hbody. induction xs as [|x xs IH]; simpl; [apply keeps_ret|].
  apply keeps_bind; [apply Hbody|intros _; apply IH].
Qed.

Lemma keeps_preferences now uid delta :
  keeps_statistics uid (update_profile_preferences now uid delta).
Proof.
  intros s. eexists _, _. split; [apply run_update_profile_preferences|].
  by rewrite current_put.
Qed.

Lemma keeps_knowledge_graph now uid c md idelta cd sub top dif :
  keeps_statistics uid (update_knowledge_graph now uid c md idelta cd sub top dif).
Proof.
  intros s. eexists _, _. split; [apply run_update_knowledge_graph|].
  by rewrite current_put.
Qed.

End StoreFacts.

(** ** The stable descending sort *)

Section SortFacts.

Lemma insert_desc_perm x l : insert_desc x l ≡ₚ x :: l.
Proof.
  induction l as [|y l IH]; simpl; [done|].
  case_match; [done|]. rewrite IH. apply Permutation_swap.
Qed.

Lemma sort_desc_perm l : sort_desc l ≡ₚ l.
Proof.
  induction l as [|x l IH]; simpl; [done|].
  by rewrite insert_desc_perm, IH.
Qed.

Lemma insert_desc_sorted x l : Sorted ge_score l -> Sorted ge_score (insert_desc x l).
Proof.
  induction 1 as [|y l Hl IH Hhd]; simpl.
  - repeat constructor.
  - destruct (Z.leb_spec (get_score y) (get_score x)).
    + repeat constructor; done.
    + constructor; [done|].
      destruct Hhd as [|z l' Hz]; simpl.
      * constructor. unfold ge_score. lia.
      * destruct (Z.leb_spec (get_score z) (get_score x));
          constructor; unfold ge_score in *; lia.
Qed.

Lemma sort_desc_sorted l : Sorted ge_score (sort_desc l).
Proof.
  induction l as [|x l IH]; simpl; [constructor|]. by apply insert_desc_sorted.
Qed.

(** Sorting a list that is in order returns it unchanged: equal scores are
    never swapped. *)
Lemma sort_desc_fixed l : Sorted ge_score l -> sort_desc l = l.
Proof.
  induction 1 as [|x l Hl IH Hhd]; simpl; [done|].
  fold (sort_desc l). rewrite IH.
  destruct Hhd as [|y l' Hy]; simpl; [done|].
  unfold ge_score in Hy. by rewrite (proj2 (Z.leb_le _ _) Hy).
Qed.

End SortFacts.

(** ** The dict of tracked concepts *)

Section DictFacts.

Lemma existing_keys (wps : list WeakPoint) :
  (reverse (imap (fun i wp => (concept wp, i)) wps)).*1 = reverse (concept <$> wps).
Proof.
  rewrite fmap_reverse. f_equal. rewrite fmap_imap. apply imap_const.
Qed.

Lemma existing_Some wps c i :
  existing_weak_points wps !! c = Some i ->
  exists w, wps !! i = Some w /\ concept w = c.
Proof.
  intros Hi. apply elem_of_list_to_map_2 in Hi.
  apply elem_of_reverse, elem_of_lookup_imap in Hi as (j & w & Heq & Hw).
  injection Heq as -> ->. eauto.
Qed.

Lemma existing_None wps c :
  existing_weak_points wps !! c = None <-> c ∉ concept <$> wps.
Proof.
  unfold existing_weak_points. rewrite <- not_elem_of_list_to_map, existing_keys.
  by rewrite elem_of_reverse.
Qed.

Lemma existing_is_Some wps c :
  c ∈ concept <$> wps ->
  exists i w, existing_weak_points wps !! c = Some i /\ wps !! i = Some w /\ concept w = c.
Proof.
  intros Hc. destruct (existing_weak_points wps !! c) as [i|] eqn:Hi.
  - destruct (existing_Some _ _ _ Hi) as (w & ? & ?). eauto.
  - apply existing_None in Hi. done.
Qed.

Lemma same_concept_same_entry (l : list WeakPoint) w1 w2 :
  NoDup (concept <$> l) -> w1 ∈ l -> w2 ∈ l -> concept w1 = concept w2 -> w1 = w2.
Proof.
  intros Hnd [i Hi]%list_elem_of_lookup [j Hj]%list_elem_of_lookup Hc.
  assert (i = j) as ->.
  { eapply NoDup_lookup; [exact Hnd| |]; rewrite list_lookup_fmap.
    - by rewrite Hi.
    - rewrite Hj. simpl. by rewrite Hc. }
  congruence.
Qed.

End DictFacts.

(** ** What a list tracks *)

Section ScoreFacts.

Lemma keep_max_comm c1 s1 c2 s2 m :
  keep_max c1 s1 (keep_max c2 s2 m) = keep_max c2 s2 (keep_max c1 s1 m).
Proof.
  unfold keep_max. destruct (decide (c1 = c2)) as [->|Hne].
  - rewrite !lookup_insert_eq, !insert_insert_eq. f_equal.
    destruct (m !! c2); lia.
  - rewrite !(lookup_insert_ne _ c2 c1), !(lookup_insert_ne _ c1 c2) by done.
    by apply insert_insert_ne.
Qed.

Lemma scores_keys l : ((fun w => (concept w, get_score w)) <$> l).*1 = concept <$> l.
Proof. rewrite <- list_fmap_compose. done. Qed.

Lemma scores_perm l1 l2 :
  NoDup (concept <$> l1) -> l1 ≡ₚ l2 -> scores l1 = scores l2.
Proof.
  intros Hnd Hp. unfold scores. apply list_to_map_proper.
  - by rewrite scores_keys.
  - by rewrite Hp.
Qed.

Lemma scores_cons w l : scores (w :: l) = <[concept w := get_score w]> (scores l).
Proof. reflexivity. Qed.

Lemma scores_lookup_None l c : c ∉ concept <$> l -> scores l !! c = None.
Proof.
  intros Hc. unfold scores. apply not_elem_of_list_to_map. by rewrite scores_keys.
Qed.

Lemma scores_lookup_Some l w :
  NoDup (concept <$> l) -> w ∈ l -> scores l !! concept w = Some (get_score w).
Proof.
  intros Hnd Hw. unfold scores. apply elem_of_list_to_map_1.
  - by rewrite scores_keys.
  - apply list_elem_of_fmap. eauto.
Qed.

Lemma concepts_insert (P : list WeakPoint) i t t' :
  P !! i = Some t -> concept t' = concept t ->
  concept <$> <[i := t']> P = concept <$> P.
Proof.
  intros Ht Hc. rewrite list_fmap_insert. apply list_insert_id.
  by rewrite list_lookup_fmap, Ht, Hc.
Qed.

Lemma scores_insert (P : list WeakPoint) i t t' :
  NoDup (concept <$> P) -> P !! i = Some t -> concept t' = concept t ->
  scores (<[i := t']> P) = <[concept t := get_score t']> (scores P).
Proof.
  intros Hnd Ht Hc.
  assert (Hnd' : NoDup (concept <$> <[i := t']> P))
    by by rewrite (concepts_insert _ _ _ _ Ht Hc).
  pose proof (lookup_lt_Some _ _ _ Ht) as Hlt.
  rewrite (insert_take_drop P i t' Hlt) in Hnd' |- *.
  rewrite <- (take_drop_middle P i t Ht) in Hnd at 1.
  rewrite <- (take_drop_middle P i t Ht) at 3.
  rewrite (scores_perm _ (t' :: take i P ++ drop (S i) P) Hnd')
    by (symmetry; apply Permutation_middle).
  rewrite (scores_perm _ (t :: take i P ++ drop (S i) P) Hnd)
    by (symmetry; apply Permutation_middle).
  rewrite !scores_cons, Hc. by rewrite insert_insert_eq.
Qed.

End ScoreFacts.

(** ** One observation against the tracked entries *)

Section MergeFacts.
Variable now : string.

Lemma merge_one_untracked existing wps a :
  existing !! concept a = None -> merge_one now existing wps a = Ok (wps ++ [a]).
Proof. intros Hn. unfold merge_one. by rewrite Hn. Qed.

Lemma merge_one_tracked existing wps a i t :
  existing !! concept a = Some i -> wps !! i = Some t ->
  merge_one now existing wps a =
    if get_score t <? get_score a then
      score ← subscript (confusion_score a);
      Ok (<[i := overwrite score (default (Some now) (last_confused a)) t]> wps)
    else Ok wps.
Proof. intros Hi Ht. unfold merge_one. by rewrite Hi, Ht. Qed.

Lemma merge_one_settled existing wps a i t :
  existing !! concept a = Some i -> wps !! i = Some t -> get_score a <= get_score t ->
  merge_one now existing wps a = Ok wps.
Proof.
  intros Hi Ht Hle. rewrite (merge_one_tracked _ _ _ _ _ Hi Ht).
  destruct (Z.ltb_spec (get_score t) (get_score a)); [lia|done].
Qed.

Lemma merge_one_total existing wps a :
  is_Some (confusion_score a) -> exists r, merge_one now existing wps a = Ok r.
Proof.
  intros [score Hscore]. unfold merge_one.
  destruct (existing !! concept a) as [i|]; [|eauto].
  destruct (wps !! i) as [t|]; [|eauto].
  destruct (get_score t <? get_score a); [|eauto].
  rewrite Hscore. simpl. eauto.
Qed.

(** Repeating an observation on a tracked concept inside one batch changes
    nothing the second time. *)
Lemma merge_one_twice existing (wps X : list WeakPoint) a i t :
  existing !! concept a = Some i -> wps !! i = Some t ->
  merge_one now existing wps a = Ok X ->
  merge_one now existing X a = Ok X.
Proof.
  intros Hi Ht. rewrite (merge_one_tracked _ _ _ _ _ Hi Ht).
  destruct (Z.ltb_spec (get_score t) (get_score a)) as [Hlt|Hge].
  - destruct (confusion_score a) as [score|] eqn:Hscore; simpl; [|discriminate].
    intros [= <-]. eapply merge_one_settled; [exact Hi| |].
    + apply list_lookup_insert_eq. by eapply lookup_lt_Some.
    + unfold get_score. simpl. by rewrite Hscore.
  - intros [= <-]. by eapply merge_one_settled.
Qed.

Lemma merge_batch_one wps a :
  merge_batch now wps [a] =
    merged ← merge_one now (existing_weak_points wps) wps a; Ok (sort_desc merged).
Proof.
  unfold merge_batch. simpl.
  destruct (merge_one now (existing_weak_points wps) wps a); reflexivity.
Qed.

Lemma merge_batch_total wps batch :
  Forall (fun wp => is_Some (confusion_score wp)) batch ->
  exists r, merge_batch now wps batch = Ok r.
Proof.
  intros Hall. unfold merge_batch.
  generalize (existing_weak_points wps). intros existing.
  revert wps. induction Hall as [|a batch Ha _ IH]; intros wps; simpl; [eauto|].
  destruct (merge_one_total existing wps a Ha) as [r ->]. simpl. apply IH.
Qed.

(** Whatever the batch, the list that is stored is in descending order. *)
Lemma merge_batch_sorted wps batch r :
  merge_batch now wps batch = Ok r -> Sorted ge_score r.
Proof.
  unfold merge_batch.
  destruct (for_each _ _ _) as [merged|e]; simpl; [|done].
  intros [= <-]. apply sort_desc_sorted.
Qed.

(** The first merge of an observation into a list of distinct concepts. *)
Lemma merge_one_first (P : list WeakPoint) a :
  NoDup (concept <$> P) -> is_Some (confusion_score a) ->
  exists X,
    merge_one now (existing_weak_points P) P a = Ok X
    /\ NoDup (concept <$> X)
    /\ (exists w, w ∈ X /\ concept w = concept a /\ get_score a <= get_score w)
    /\ scores X = keep_max (concept a) (get_score a) (scores P).
Proof.
  intros Hnd [score Hscore].
  destruct (decide (concept a ∈ concept <$> P)) as [Hold|Hnew].
  - destruct (existing_is_Some _ _ Hold) as (i & t & Hi & Ht & Hc).
    rewrite (merge_one_tracked _ _ _ _ _ Hi Ht).
    assert (Hin : t ∈ P) by (apply list_elem_of_lookup; eauto).
    pose proof (scores_lookup_Some _ _ Hnd Hin) as Hs. rewrite Hc in Hs.
    destruct (Z.ltb_spec (get_score t) (get_score a)) as [Hlt|Hge].
    + rewrite Hscore. simpl.
      set (t' := overwrite score (default (Some now) (last_confused a)) t).
      assert (Hgs : get_score t' = get_score a)
        by (unfold get_score; simpl; by rewrite Hscore).
      exists (<[i := t']> P). split; [done|]. split; [|split].
      * by rewrite (concepts_insert P i t t' Ht eq_refl).
      * exists t'. split; [|split; [done|lia]].
        apply list_elem_of_lookup. exists i. apply list_lookup_insert_eq.
        by eapply lookup_lt_Some.
      * rewrite (scores_insert P i t t' Hnd Ht eq_refl). unfold keep_max.
        rewrite Hs, Hc, Hgs. f_equal. lia.
    + exists P. split; [done|]. split; [done|]. split; [eauto|].
      unfold keep_max. rewrite Hs. rewrite insert_id; [done|]. rewrite Hs. f_equal. lia.
  - pose proof Hnew as Hn. apply existing_None in Hn.
    rewrite (merge_one_untracked _ _ _ Hn).
    assert (Hnd' : NoDup (concept <$> P ++ [a])).
    { rewrite fmap_app. apply NoDup_app. split; [done|]. split.
      - intros c Hc Hc'. apply list_elem_of_singleton in Hc'. by subst.
      - apply NoDup_singleton. }
    exists (P ++ [a]). split; [done|]. split; [done|]. split.
    + exists a. split; [|done]. apply elem_of_app. right.
      by apply list_elem_of_singleton.
    + rewrite (scores_perm _ (a :: P) Hnd') by (by rewrite Permutation_app_comm).
      rewrite scores_cons. unfold keep_max. by rewrite (scores_lookup_None _ _ Hnew).
Qed.

(** An observation that a tracked entry already dominates leaves the list
    as it is. *)
Lemma merge_one_again (l : list WeakPoint) a :
  NoDup (concept <$> l) ->
  (exists w, w ∈ l /\ concept w = concept a /\ get_score a <= get_score w) ->
  merge_one now (existing_weak_points l) l a = Ok l.
Proof.
  intros Hnd (w & Hw & Hc & Hle).
  assert (Hold : concept a ∈ concept <$> l).
  { rewrite <- Hc. apply list_elem_of_fmap. eauto. }
  destruct (existing_is_Some _ _ Hold) as (i & t & Hi & Ht & Hct).
  assert (t = w) as ->.
  { eapply same_concept_same_entry; [exact Hnd| |exact Hw|congruence].
    apply list_elem_of_lookup. eauto. }
  by eapply merge_one_settled.
Qed.

Lemma merge_batch_first (P : list WeakPoint) a :
  NoDup (concept <$> P) -> is_Some (confusion_score a) ->
  exists r,
    merge_batch now P [a] = Ok r
    /\ NoDup (concept <$> r)
    /\ (exists w, w ∈ r /\ concept w = concept a /\ get_score a <= get_score w)
    /\ scores r = keep_max (concept a) (get_score a) (scores P)
    /\ Sorted ge_score r.
Proof.
  intros Hnd Hs.
  destruct (merge_one_first P a Hnd Hs) as (X & HX & HndX & (w & Hw & Hc & Hle) & Hsc).
  exists (sort_desc X). rewrite merge_batch_one, HX. split; [done|].
  pose proof (sort_desc_perm X) as Hp.
  split; [by rewrite Hp|]. split; [|split].
  - exists w. by rewrite Hp.
  - rewrite <- Hsc. symmetry. apply scores_perm; [done|by symmetry].
  - apply sort_desc_sorted.
Qed.

(** C2, as the code has it: an observation whose concept is not tracked is
    appended; for a tracked concept the stored score becomes the maximum of
    the tracked and the observed score, [last_confused] is replaced by the
    observation's (the current time when it carries none) exactly when the
    observed score is strictly greater, and on an equal or lower score the
    entry stays untouched.  The list is then sorted again. *)
Theorem C2_weak_point_merge wps a :
  is_Some (confusion_score a) ->
  (concept a ∉ concept <$> wps ->
     merge_batch now wps [a] = Ok (sort_desc (wps ++ [a])))
  /\ (concept a ∈ concept <$> wps ->
      exists i tracked stored,
        wps !! i = Some tracked /\ concept tracked = concept a
        /\ merge_batch now wps [a] = Ok (sort_desc (<[i := stored]> wps))
        /\ concept stored = concept a
        /\ get_score stored = Z.max (get_score tracked) (get_score a)
        /\ (get_score tracked < get_score a ->
            last_confused stored = Some (default (Some now) (last_confused a)))
        /\ (get_score a <= get_score tracked -> stored = tracked)).
Proof.
  intros [score Hscore]. split.
  - intros Hnew. apply existing_None in Hnew.
    rewrite merge_batch_one, (merge_one_untracked _ _ _ Hnew). reflexivity.
  - intros Hold. destruct (existing_is_Some _ _ Hold) as (i & tracked & Hi & Ht & Hc).
    rewrite merge_batch_one, (merge_one_tracked _ _ _ _ _ Hi Ht).
    destruct (Z.ltb_spec (get_score tracked) (get_score a)) as [Hlt|Hge].
    + exists i, tracked, (overwrite score (default (Some now) (last_confused a)) tracked).
      rewrite Hscore. simpl. repeat split; try done.
      * unfold get_score at 1. simpl. unfold get_score at 2. rewrite Hscore. simpl.
        unfold get_score in Hlt at 2. rewrite Hscore in Hlt. simpl in Hlt. lia.
      * lia.
    + exists i, tracked, tracked. rewrite list_insert_id by done.
      repeat split; try done; lia.
Qed.

End MergeFacts.

(** C2 at a tracked concept and a higher score: the entry of "recursion"
    takes the score 60 and the time of the observation. *)
Lemma C2_weak_point_merge_witness :
  is_Some (confusion_score recursion_60)
  /\ concept recursion_60 ∈ concept <$> [pointers_40; recursion_jan]
  /\ exists i tracked stored,
       [pointers_40; recursion_jan] !! i = Some tracked
       /\ concept tracked = concept recursion_60
       /\ merge_batch "2024-03-02T00:00:00" [pointers_40; recursion_jan] [recursion_60]
          = Ok (sort_desc (<[i := stored]> [pointers_40; recursion_jan]))
       /\ concept stored = concept recursion_60
       /\ get_score stored = Z.max (get_score tracked) (get_score recursion_60)
       /\ (get_score tracked < get_score recursion_60 ->
           last_confused stored
           = Some (default (Some "2024-03-02T00:00:00") (last_confused recursion_60)))
       /\ (get_score recursion_60 <= get_score tracked -> stored = tracked).
Proof.
  assert (Hscore : is_Some (confusion_score recursion_60)) by (by eexists).
  assert (Hold : concept recursion_60 ∈ concept <$> [pointers_40; recursion_jan])
    by (simpl; repeat constructor).
  split; [exact Hscore|]. split; [exact Hold|].
  exact (proj2 (C2_weak_point_merge "2024-03-02T00:00:00" [pointers_40; recursion_jan]
                  recursion_60 Hscore) Hold).
Defined.

(** C2 as stated fails on an equal score: the observation of February has
    a score that is greater than or equal to the tracked one, and the stored
    entry keeps the [last_confused] of January. *)
Lemma C2_counterexample :
  concept recursion_feb = concept recursion_jan
  /\ get_score recursion_jan <= get_score recursion_feb
  /\ merge_batch "2024-03-01T00:00:00" [recursion_jan] [recursion_feb] = Ok [recursion_jan]
  /\ last_confused recursion_jan <> last_confused recursion_feb.
Proof. repeat split; [vm_compute; discriminate|discriminate]. Qed.

(** C3 at a batch that names a new concept twice: both observations are
    appended, and the stored list holds the concept twice.  The list is in
    descending order all the same. *)
Theorem C3_duplicate_concept_in_one_batch :
  run (update_weak_points (clock := epoch_clock) 1709251200 "u1" [recursion_60; recursion_80])
      no_store
  = Ok (mkUserProfile default_preferences default_statistics ∅ []
          [recursion_80; recursion_60] (Some 1709251200),
        mkStore
          (<["u1" := mkUserProfile default_preferences default_statistics ∅ []
                       [recursion_80; recursion_60] (Some 1709251200)]> ∅) [])
  /\ concept recursion_80 = concept recursion_60
  /\ ~ NoDup (concept <$> [recursion_80; recursion_60])
  /\ Sorted ge_score [recursion_80; recursion_60].
Proof.
  split; [vm_compute; reflexivity|]. split; [reflexivity|]. split.
  - intros Hnd. apply NoDup_cons in Hnd as [Hnotin _]. apply Hnotin. simpl. constructor.
  - repeat constructor. unfold ge_score. vm_compute. discriminate.
Qed.

(** C4, as the code has it.  On a list of distinct concepts and for
    observations that carry a score: merging an observation again in a later
    batch leaves the list that the first merge stored; repeating it inside
    one batch does so when its concept is already tracked; and merging two
    observations in either order tracks the same concepts with the same
    scores.  The other fields and the order among equal scores are not part
    of the statement. *)
Theorem C4_merge_idempotent_and_scores_commute now1 now2 (P : list WeakPoint) a b :
  NoDup (concept <$> P) ->
  is_Some (confusion_score a) -> is_Some (confusion_score b) ->
  (exists r, merge_batch now1 P [a] = Ok r /\ merge_batch now2 r [a] = Ok r)
  /\ (concept a ∈ concept <$> P -> merge_batch now1 P [a; a] = merge_batch now1 P [a])
  /\ (exists rab rba,
        (r ← merge_batch now1 P [a]; merge_batch now2 r [b]) = Ok rab
        /\ (r ← merge_batch now1 P [b]; merge_batch now2 r [a]) = Ok rba
        /\ scores rab = scores rba).
Proof.
  intros Hnd Ha Hb. split; [|split].
  - destruct (merge_batch_first now1 P a Hnd Ha) as (r & Hr & Hndr & Hw & _ & Hsorted).
    exists r. split; [done|].
    rewrite merge_batch_one, (merge_one_again now2 r a Hndr Hw). simpl.
    by rewrite (sort_desc_fixed _ Hsorted).
  - intros Hold. destruct (existing_is_Some _ _ Hold) as (i & t & Hi & Ht & _).
    unfold merge_batch. simpl.
    destruct (merge_one now1 (existing_weak_points P) P a) as [X|e] eqn:HX; [|done].
    simpl. by rewrite (merge_one_twice _ _ _ _ _ _ _ Hi Ht HX).
  - destruct (merge_batch_first now1 P a Hnd Ha) as (ra & Hra & Hnda & _ & Hsa & _).
    destruct (merge_batch_first now2 ra b Hnda Hb) as (rab & Hrab & _ & _ & Hsab & _).
    destruct (merge_batch_first now1 P b Hnd Hb) as (rb & Hrb & Hndb & _ & Hsb & _).
    destruct (merge_batch_first now2 rb a Hndb Ha) as (rba & Hrba & _ & _ & Hsba & _).
    exists rab, rba. rewrite Hra, Hrb. simpl. split; [done|]. split; [done|].
    rewrite Hsab, Hsba, Hsa, Hsb. apply keep_max_comm.
Qed.

(** C4 on a profile that tracks "recursion" at 50, for an observation of
    "recursion" at 60 and one of "pointers" at 40. *)
Lemma C4_merge_idempotent_and_scores_commute_witness :
  NoDup (concept <$> [recursion_jan])
  /\ is_Some (confusion_score recursion_60)
  /\ is_Some (confusion_score pointers_40)
  /\ (exists r, merge_batch "t1" [recursion_jan] [recursion_60] = Ok r
                /\ merge_batch "t2" r [recursion_60] = Ok r)
  /\ (exists rab rba,
        (r ← merge_batch "t1" [recursion_jan] [recursion_60];
         merge_batch "t2" r [pointers_40]) = Ok rab
        /\ (r ← merge_batch "t1" [recursion_jan] [pointers_40];
            merge_batch "t2" r [recursion_60]) = Ok rba
        /\ scores rab = scores rba).
Proof.
  assert (Hnd : NoDup (concept <$> [recursion_jan])) by apply NoDup_singleton.
  assert (Ha : is_Some (confusion_score recursion_60)) by (by eexists).
  assert (Hb : is_Some (confusion_score pointers_40)) by (by eexists).
  pose proof (C4_merge_idempotent_and_scores_commute "t1" "t2" [recursion_jan]
                recursion_60 pointers_40 Hnd Ha Hb) as (Hidem & _ & Hcomm).
  split; [exact Hnd|]. split; [exact Ha|]. split; [exact Hb|].
  split; [exact Hidem|exact Hcomm].
Defined.

(** C4 as stated fails: two observations of one concept with equal scores
    leave the [last_confused] of whichever was merged first. *)
Lemma C4_counterexample :
  (r ← merge_batch "t" [] [recursion_jan]; merge_batch "t" r [recursion_feb])
  = Ok [recursion_jan]
  /\ (r ← merge_batch "t" [] [recursion_feb]; merge_batch "t" r [recursion_jan])
     = Ok [recursion_feb]
  /\ recursion_jan <> recursion_feb.
Proof. repeat split; [vm_compute; reflexivity..|discriminate]. Qed.

(** ** Knowledge graph: clamping *)

Section GraphFacts.
Context {clock : Clock}.

(** On binary64 a strict comparison that holds gives the weak one; a NaN
    satisfies neither. *)
Lemma float_ltb_leb (x y : float) : (x <? y)%float = true -> (x <=? y)%float = true.
Proof.
  rewrite ltb_spec, leb_spec. unfold SFltb, SFleb.
  destruct (SFcompare (Prim2SF x) (Prim2SF y)) as [[]|]; done.
Qed.

Lemma clamp_unfold (x : float) :
  py_max 0 (py_min 1 x)
  = if (x <? 1)%float then (if (0 <? x)%float then x else 0%float) else 1%float.
Proof. unfold py_max, py_min. by destruct (x <? 1)%float. Qed.

Lemma clamp_in_range (x : float) :
  (0 <=? py_max 0 (py_min 1 x))%float = true
  /\ (py_max 0 (py_min 1 x) <=? 1)%float = true.
Proof.
  rewrite clamp_unfold. destruct (x <? 1)%float eqn:H1.
  - destruct (0 <? x)%float eqn:H0.
    + split; by apply float_ltb_leb.
    + split; reflexivity.
  - split; reflexivity.
Qed.

Lemma touch_in_range now md idelta cd sub top dif kp :
  point_in_range kp ->
  point_in_range (touch_knowledge_point now md idelta cd sub top dif kp).
Proof.
  intros (Hlo & Hhi & Hc). unfold point_in_range, touch_knowledge_point. simpl.
  destruct md as [d|]; destruct cd as [c|];
    repeat split; try done; try apply clamp_in_range; try lia.
Qed.

Lemma new_point_in_range now sub top dif :
  point_in_range (new_knowledge_point now sub top dif).
Proof. unfold point_in_range. simpl. repeat split; try reflexivity; lia. Qed.

Lemma update_graph_in_range now g c md idelta cd sub top dif :
  graph_in_range g -> graph_in_range (update_graph now g c md idelta cd sub top dif).
Proof.
  intros Hg c' kp. unfold update_graph. rewrite lookup_insert.
  case_decide as Hc.
  - intros [= <-]. apply touch_in_range.
    destruct (g !! c) as [kp0|] eqn:Hkp; [by eapply Hg|apply new_point_in_range].
  - apply Hg.
Qed.




End GraphFacts.


(** ** Statistics: the running mean *)

Section MeanFacts.
Context {clock : Clock}.

Lemma ltb_succ (n : Z) : (1 <? n + 1) = (1 <=? n).
Proof. destruct (Z.ltb_spec 1 (n + 1)), (Z.leb_spec 1 n); lia || done. Qed.

(** The average after the update, for a supplied session length. *)
Lemma increment_statistics_avg now st inc_s inc_q inc_d new_value :
  (st' ← increment_statistics now st inc_s inc_q inc_d (Some new_value);
   Ok (avg_session_length st'))
  = (new_avg ← new_avg_session_length (default (PyInt 0) (avg_session_length st))
                 (default 0 (total_sessions st)) new_value;
     Ok (Some new_avg)).
Proof.
  unfold increment_statistics. cbn [mbind result_bind].
  by destruct (new_avg_session_length _ _ _).
Qed.

Lemma new_avg_running_mean old_avg old_count new_value :
  new_avg_session_length old_avg old_count new_value
  = (if 1 <=? old_count
     then mean ← running_mean old_avg old_count new_value; Ok (py_round2 mean)
     else Ok (py_round2 new_value)).
Proof.
  unfold new_avg_session_length, running_mean. rewrite ltb_succ.
  by destruct (1 <=? old_count).
Qed.

(** C6, as the code has it: the stored average is the running mean over
    the session count before this event's increment, computed in Python's
    arithmetic and rounded to two decimals by [round]; with no earlier
    session it is the rounded new value.  10, 4, 20 give 12.0 and
    10, 1, 20 give 15.0; 2.28, 7, 2 give 2.25 and 10, 2, 15 give 11.67;
    with no earlier session a whole-numbered length is stored as it is and
    3.14159 is stored as 3.14; eight sessions of 2, 2, 2, 2, 2, 4, 2 and 2
    messages leave 2.25. *)
Theorem C6_running_mean_rounded now st inc_s inc_q inc_d (new_value : pynum) :
  let old_count := default 0 (total_sessions st) in
  let old_avg := default (PyInt 0) (avg_session_length st) in
  (st' ← increment_statistics now st inc_s inc_q inc_d (Some new_value);
   Ok (avg_session_length st'))
  = (if 1 <=? old_count
     then mean ← running_mean old_avg old_count new_value; Ok (Some (py_round2 mean))
     else Ok (Some (py_round2 new_value)))
  /\ new_avg_session_length (PyInt 10) 4 (PyInt 20) = Ok (PyFloat 12)
  /\ new_avg_session_length (PyFloat 10) 1 (PyInt 20) = Ok (PyFloat 15)
  /\ new_avg_session_length (PyFloat 0x1.23d70a3d70a3dp+1) 7 (PyInt 2)
     = Ok (PyFloat 0x1.2p+1)
  /\ new_avg_session_length (PyFloat 10) 2 (PyInt 15)
     = Ok (PyFloat 0x1.7570a3d70a3d7p+3)
  /\ (forall avg length : Z,
        new_avg_session_length (PyInt avg) 0 (PyInt length) = Ok (PyInt length))
  /\ new_avg_session_length (PyInt 0) 0 (PyFloat 0x1.921f9f01b866ep+1)
     = Ok (PyFloat 0x1.91eb851eb851fp+1)
  /\ (st' ← after_sessions now [2; 2; 2; 2; 2; 4; 2; 2] default_statistics;
      Ok (total_sessions st', avg_session_length st'))
     = Ok (Some 8, Some (PyFloat 0x1.2p+1)).
Proof.
  intros old_count old_avg. split.
  - rewrite increment_statistics_avg, new_avg_running_mean. fold old_count old_avg.
    destruct (1 <=? old_count); [|done].
    by destruct (running_mean old_avg old_count new_value).
  - repeat split; vm_compute; reflexivity.
Qed.

End MeanFacts.

(** C6 as stated fails where the mean has more than two decimals: for
    two sessions that averaged ten and a third of fifteen the formula
    gives 11.666666666666666 and the stored value is 11.67. *)
Lemma C6_counterexample :
  (st' ← increment_statistics (clock := epoch_clock) 0 two_sessions true true true
           (Some (PyInt 15));
   Ok (avg_session_length st'))
  = Ok (Some (PyFloat 0x1.7570a3d70a3d7p+3))
  /\ running_mean (PyFloat 10) 2 (PyInt 15) = Ok (PyFloat 0x1.7555555555555p+3)
  /\ PyFloat 0x1.7570a3d70a3d7p+3 <> PyFloat 0x1.7555555555555p+3.
Proof.
  split; [vm_compute; reflexivity|]. split; [vm_compute; reflexivity|].
  intros Heq.
  apply (f_equal (fun a => match a with
                           | PyFloat x => (x <=? 0x1.7555555555555p+3)%float
                           | PyInt _ => false
                           end)) in Heq.
  vm_compute in Heq. discriminate.
Qed.

(** ** Summarizer agent *)

Section SummarizerFacts.
Import Summarizer.
Context {clock : Clock} {pystr : PyStr} {agent : BaseAgent} {json : Json Summary}.
Variable config : SummaryConfig.

(** A failure of the call leaves [_generate_summary] as it came. *)
Lemma generate_summary_call_failure session_id uid messages e :
  call_llm (summarize_request messages) = Raise e ->
  fst (_generate_summary config session_id uid messages) = Raise e.
Proof. intros Hcall. unfold _generate_summary. simpl. by rewrite Hcall. Qed.

(** A response that is no JSON text gives the default summary. *)
Lemma generate_summary_parse_failure session_id uid messages response :
  call_llm (summarize_request messages) = Ok response ->
  json_loads response = Raise JSONDecodeError ->
  fst (_generate_summary config session_id uid messages)
  = Ok (_get_default_summary messages).
Proof.
  intros Hcall Hparse. unfold _generate_summary. simpl. rewrite Hcall. simpl.
  by rewrite Hparse.
Qed.

Lemma generate_summary_counts session_id uid messages summary :
  fst (_generate_summary config session_id uid messages) = Ok summary ->
  sm_message_count summary = Some (Z.of_nat (length messages)).
Proof.
  unfold _generate_summary. simpl.
  destruct (call_llm _) as [response|e]; simpl; [|done].
  destruct (json_loads response) as [[parsed|]|[]]; simpl; try done.
  - by intros [= <-].
  - by intros [= <-].
Qed.

Lemma keeps_weak_points now uid batch :
  Forall (fun wp => is_Some (confusion_score wp)) batch ->
  keeps_statistics uid (update_weak_points now uid batch).
Proof.
  intros Hall s. rewrite run_update_weak_points.
  destruct (merge_batch_total (isoformat now) (weak_points (current uid s)) batch Hall)
    as [r ->].
  eexists _, _. split; [reflexivity|]. by rewrite current_put.
Qed.

(** Of the four steps of [_update_user_profile] only the third writes the
    statistics. *)
Lemma run_update_user_profile now uid summary s :
  Forall (fun wp => is_Some (confusion_score wp)) (default [] (sm_weak_points summary)) ->
  match increment_statistics now (statistics (current uid s)) true (has_questions summary)
          true (session_length_of summary) with
  | Ok st =>
      exists s',
        run (_update_user_profile now uid summary) s = Ok (tt, s')
        /\ statistics (current uid s') = st
  | Raise e => run (_update_user_profile now uid summary) s = Raise e
  end.
Proof.
  intros Hall. unfold _update_user_profile.
  assert (Hprefs : keeps_statistics uid
            (match sm_user_preferences summary with
             | Some prefs => _ ← update_profile_preferences now uid prefs; mret tt
             | None => mret tt
             end)).
  { destruct (sm_user_preferences summary); [|apply keeps_ret].
    apply keeps_bind; [apply keeps_preferences|intros; apply keeps_ret]. }
  assert (Hwps : keeps_statistics uid
            (match sm_weak_points summary with
             | Some (wp :: wps) =>
                 _ ← update_weak_points now uid (map (stamp_weak_point summary) (wp :: wps));
                 mret tt
             | _ => mret tt
             end)).
  { destruct (sm_weak_points summary) as [[|wp wps]|]; try apply keeps_ret.
    apply keeps_bind; [|intros; apply keeps_ret].
    apply keeps_weak_points. simpl in Hall.
    apply Forall_fmap. eapply Forall_impl; [exact Hall|]. done. }
  assert (Hkg : keeps_statistics uid
            (match sm_key_points summary with
             | Some points =>
                 for_each_db
                   (fun point =>
                      _ ← update_knowledge_graph now uid (concept_of_key_point point)
                            (Some reinforcement) 1 None
                            (sm_subject summary) (sm_topic summary) (sm_difficulty summary);
                      mret tt)
                   points
             | None => mret tt
             end)).
  { destruct (sm_key_points summary); [|apply keeps_ret].
    apply keeps_for_each. intros point.
    apply keeps_bind; [apply keeps_knowledge_graph|intros; apply keeps_ret]. }
  rewrite run_bind. destruct (Hprefs s) as (? & s1 & -> & Hs1).
  rewrite run_bind. destruct (Hwps s1) as (? & s2 & -> & Hs2).
  rewrite run_bind, run_increment_profile_statistics.
  replace (statistics (current uid s2)) with (statistics (current uid s)) by congruence.
  destruct (increment_statistics _ _ _ _ _ _) as [st|e]; [|done].
  match goal with |- context [put uid ?p s2] => set (p3 := p) end.
  destruct (Hkg (put uid p3 s2)) as ([] & s4 & -> & Hs4).
  exists s4. split; [done|]. rewrite Hs4, current_put. subst p3. reflexivity.
Qed.

(** The statistics update of a consolidation, by the outcome of the new
    average. *)
Lemma consolidated_statistics now st summary :
  increment_statistics now st true (has_questions summary) true (session_length_of summary)
  = (new_avg ← new_avg_session_length (default (PyInt 0) (avg_session_length st))
                 (default 0 (total_sessions st))
                 (PyInt (default 0 (sm_message_count summary)));
     Ok (mkStatistics (Some (default 0 (total_sessions st) + 1))
           (if has_questions summary then Some (default 0 (total_questions st) + 1)
            else total_questions st)
           (Some (default 0 (active_days st) + 1))
           (Some new_avg) (most_active_hour st) (Some (isoformat now)))).
Proof.
  unfold increment_statistics, session_length_of. cbn [mbind result_bind].
  by destruct (new_avg_session_length _ _ _).
Qed.

(** C10: the summary that [_generate_summary] returns carries the number
    of conversation turns as [message_count]; that number, an int, is the
    session length handed to the statistics update, and the stored average
    becomes the running mean of message counts: with [n] turns, the mean
    of the specification over the stored average, the stored session count
    and [n], rounded to two decimals, or [n] itself for a user without an
    earlier session.  When that mean cannot be computed its exception
    leaves the profile update. *)
Theorem C10_session_length_is_message_count now session_id uid messages summary s :
  Forall (fun wp => is_Some (confusion_score wp)) (default [] (sm_weak_points summary)) ->
  fst (_generate_summary config session_id uid messages) = Ok summary ->
  let n := Z.of_nat (length messages) in
  let old_count := default 0 (total_sessions (statistics (current uid s))) in
  let old_avg := default (PyInt 0) (avg_session_length (statistics (current uid s))) in
  sm_message_count summary = Some n
  /\ session_length_of summary = Some (PyInt n)
  /\ match (if 1 <=? old_count
            then mean ← running_mean old_avg old_count (PyInt n); Ok (py_round2 mean)
            else Ok (PyInt n)) with
     | Ok new_avg =>
         exists s',
           run (_update_user_profile now uid summary) s = Ok (tt, s')
           /\ avg_session_length (statistics (current uid s')) = Some new_avg
     | Raise e => run (_update_user_profile now uid summary) s = Raise e
     end.
Proof.
  intros Hall Hgen n old_count old_avg.
  pose proof (generate_summary_counts _ _ _ _ Hgen) as Hcount.
  split; [done|]. split; [unfold session_length_of; by rewrite Hcount|].
  pose proof (run_update_user_profile now uid summary s Hall) as Hrun.
  rewrite consolidated_statistics, Hcount in Hrun.
  change (default 0 (Some (Z.of_nat (length messages)))) with n in Hrun.
  fold old_count old_avg in Hrun. rewrite new_avg_running_mean in Hrun.
  destruct (1 <=? old_count).
  - destruct (running_mean old_avg old_count (PyInt n)) as [mean|e]; [|exact Hrun].
    destruct Hrun as (s' & Hrun & Hst). exists s'. split; [done|]. by rewrite Hst.
  - destruct Hrun as (s' & Hrun & Hst). exists s'. split; [done|]. by rewrite Hst.
Qed.

End SummarizerFacts.

(** C1 where the language model is unreachable: the exception of the call
    leaves [_generate_summary], and [process] with it, and no default
    summary is returned.  A response that parses to a JSON value other than
    an object leaves it as a [TypeError] likewise. *)
Theorem C1_call_failure_propagates :
  fst (Summarizer._generate_summary (pystr := ascii_str) (agent := llm_down)
         (json := json_reading (Raise JSONDecodeError))
         Summarizer.default_config "s1" "u1" two_turns)
  = Raise RuntimeError
  /\ fst (Summarizer.process (clock := epoch_clock) (pystr := ascii_str) (agent := llm_down)
            (json := json_reading (Raise JSONDecodeError))
            Summarizer.default_config 1709251200 "s1" "u1" two_turns true no_store)
     = Raise RuntimeError
  /\ fst (Summarizer._generate_summary (pystr := ascii_str) (agent := llm_replying "[]")
            (json := json_reading (Ok JOther))
            Summarizer.default_config "s1" "u1" two_turns)
     = Raise TypeError.
Proof. repeat split; vm_compute; reflexivity. Qed.

(** C10 for a conversation of two turns: for a user of two sessions that
    averaged ten messages the stored average becomes 22/3 rounded, 7.33,
    and for a user without a profile it becomes the int 2. *)
Lemma C10_session_length_is_message_count_witness :
  Forall (fun wp => is_Some (confusion_score wp))
    (default [] (Summarizer.sm_weak_points
                   (Summarizer.attach_messages Summarizer.default_config two_turns
                      parsed_summary)))
  /\ fst (Summarizer._generate_summary (pystr := ascii_str) (agent := llm_replying "{}")
            (json := json_reading (Ok (JObject parsed_summary)))
            Summarizer.default_config "s1" "u1" two_turns)
     = Ok (Summarizer.attach_messages Summarizer.default_config two_turns parsed_summary)
  /\ (Summarizer.sm_message_count
        (Summarizer.attach_messages Summarizer.default_config two_turns parsed_summary)
      = Some 2
      /\ Summarizer.session_length_of
           (Summarizer.attach_messages Summarizer.default_config two_turns parsed_summary)
         = Some (PyInt 2)
      /\ exists s',
           run (Summarizer._update_user_profile (clock := epoch_clock) (pystr := ascii_str)
                  1709251200 "u1"
                  (Summarizer.attach_messages Summarizer.default_config two_turns
                     parsed_summary))
               one_user
           = Ok (tt, s')
           /\ avg_session_length (statistics (current "u1" s'))
              = Some (PyFloat 0x1.d51eb851eb852p+2))
  /\ exists s',
       run (Summarizer._update_user_profile (clock := epoch_clock) (pystr := ascii_str)
              1709251200 "u1"
              (Summarizer.attach_messages Summarizer.default_config two_turns parsed_summary))
           no_store
       = Ok (tt, s')
       /\ avg_session_length (statistics (current "u1" s')) = Some (PyInt 2).
Proof.
  assert (Hall : Forall (fun wp => is_Some (confusion_score wp))
                   (default [] (Summarizer.sm_weak_points
                                  (Summarizer.attach_messages Summarizer.default_config
                                     two_turns parsed_summary)))).
  { repeat constructor. by eexists. }
  assert (Hgen : fst (Summarizer._generate_summary (pystr := ascii_str)
                        (agent := llm_replying "{}")
                        (json := json_reading (Ok (JObject parsed_summary)))
                        Summarizer.default_config "s1" "u1" two_turns)
                 = Ok (Summarizer.attach_messages Summarizer.default_config two_turns
                         parsed_summary)).
  { vm_compute. reflexivity. }
  split; [exact Hall|]. split; [exact Hgen|]. split.
  - exact (C10_session_length_is_message_count (clock := epoch_clock)
             Summarizer.default_config 1709251200 "s1" "u1" two_turns _
             one_user Hall Hgen).
  - exact (proj2 (proj2 (C10_session_length_is_message_count (clock := epoch_clock)
                           Summarizer.default_config 1709251200 "s1" "u1" two_turns _
                           no_store Hall Hgen))).
Defined.

(** ** Retrieval agent *)

Section RetrievalFacts.
Import Retrieval.
Context {clock : Clock} {pystr : PyStr} {agent : BaseAgent} {json : Json ContextDoc}.
Variable str_of_num : Q -> string.
Variable json_dumps : option UserProfile -> string.

Lemma no_memories_found : contains no_memories (_format_summaries []) = true.
Proof. vm_compute. reflexivity. Qed.

Lemma generate_context_no_summaries query profile days :
  _generate_context str_of_num json_dumps query profile (_format_summaries []) days
  = (Ok (basic_context_doc str_of_num profile), []).
Proof.
  unfold _generate_context. rewrite no_memories_found.
  by rewrite orb_true_r.
Qed.

Lemma generate_context_failure query profile text days :
  (exists e, call_llm (retrieve_request json_dumps query profile text days) = Raise e)
  \/ (exists response e,
        call_llm (retrieve_request json_dumps query profile text days) = Ok response
        /\ json_loads response = Raise e) ->
  fst (_generate_context str_of_num json_dumps query profile text days)
  = Ok (basic_context_doc str_of_num profile).
Proof.
  intros Hfail. unfold _generate_context.
  destruct (bool_decide (text = "") || contains no_memories text); [done|].
  simpl. destruct Hfail as [[e ->]|(response & e & -> & Hparse)]; simpl; [done|].
  by rewrite Hparse.
Qed.

(** [_generate_context] always returns a context. *)
Lemma generate_context_total query profile text days :
  exists doc, fst (_generate_context str_of_num json_dumps query profile text days) = Ok doc.
Proof.
  unfold _generate_context.
  destruct (bool_decide _ || contains _ _); [simpl; eauto|]. simpl.
  destruct (call_llm _) as [response|e]; simpl; [|eauto].
  destruct (json_loads response); simpl; eauto.
Qed.

Lemma retrieval_unfold now uid query days subject topic s :
  process str_of_num json_dumps now uid query days subject topic s
  = let profile := user_profiles s !! uid in
    let memories_text :=
      _format_summaries (summaries_in_window now uid days 20 (session_summaries s)) in
    let '(generated, calls) :=
      _generate_context str_of_num json_dumps query profile memories_text days in
    (doc ← generated;
     '(text, memories) ← read_context doc;
     Ok (mkRetrieved true text memories profile
           (if profile is Some p then weak_points p else []), s),
     calls).
Proof. reflexivity. Qed.

(** A response that parses to a JSON value other than an object is
    returned as the context. *)
Lemma generate_context_other query profile text days response :
  text <> "" ->
  contains no_memories text = false ->
  call_llm (retrieve_request json_dumps query profile text days) = Ok response ->
  json_loads response = Ok JOther ->
  _generate_context str_of_num json_dumps query profile text days
  = (Ok JOther, [retrieve_request json_dumps query profile text days]).
Proof.
  intros Htext Hmarker Hcall Hparse. unfold _generate_context.
  rewrite bool_decide_eq_false_2, Hmarker by done. cbn [orb].
  rewrite Hcall. cbn [mbind result_bind]. by rewrite Hparse.
Qed.

(** C7, as the code has it: retrieval can fail its caller.  With no
    summary in the lookback window it answers from the profile alone, with
    no relevant memories and without a request to the language model, and
    when the call raises or its response does not parse it gives that same
    answer.  But when the response parses to a JSON value that is no
    object, [process] raises [AttributeError].  The profile-only context
    names the learning style, the difficulty, the code and formula
    preferences that are set, and the first three weak points: the text is
    given for a textual learner with one weak point and for a visual
    learner with four. *)
Theorem C7_retrieval_can_fail_its_caller now uid query days subject topic s :
  let profile := user_profiles s !! uid in
  let summaries := summaries_in_window now uid days 20 (session_summaries s) in
  let text := _format_summaries summaries in
  let request := retrieve_request json_dumps query profile text days in
  let answer := process str_of_num json_dumps now uid query days subject topic s in
  let fallback :=
    mkRetrieved true (_get_basic_context str_of_num profile) [] profile
      (if profile is Some p then weak_points p else []) in
  (summaries = [] -> answer = (Ok (fallback, s), []))
  /\ ((exists e, call_llm request = Raise e)
      \/ (exists response e, call_llm request = Ok response /\ json_loads response = Raise e) ->
      fst answer = Ok (fallback, s))
  /\ (forall response,
        text <> "" ->
        contains no_memories text = false ->
        call_llm request = Ok response ->
        json_loads response = Ok JOther ->
        answer = (Raise AttributeError, [request]))
  /\ _get_basic_context str_of_num (Some returning_user)
     = "## 用户画像" +:+ NL
       +:+ "- 学习风格：文字型学习者（偏好文字解释）" +:+ NL
       +:+ "- 难度偏好：中级" +:+ NL
       +:+ "- 喜欢包含代码示例" +:+ NL
       +:+ "- 可以包含数学公式" +:+ NL
       +:+ "- 薄弱知识点：recursion（困惑度50）"
  /\ _get_basic_context str_of_num (Some visual_learner)
     = "## 用户画像" +:+ NL
       +:+ "- 学习风格：视觉型学习者（偏好图表、图像）" +:+ NL
       +:+ "- 难度偏好：高级" +:+ NL
       +:+ "- 薄弱知识点：recursion（困惑度80）, recursion（困惑度60）, recursion（困惑度50）".
Proof.
  intros profile summaries text request answer fallback.
  split; [|split; [|split; [|split; vm_compute; reflexivity]]].
  - intros Hnone. subst answer. rewrite retrieval_unfold. fold summaries. rewrite Hnone.
    cbv zeta. fold profile. by rewrite generate_context_no_summaries.
  - intros Hfail. subst answer. rewrite retrieval_unfold. fold summaries. cbv zeta.
    fold profile.
    pose proof (generate_context_failure query profile (_format_summaries summaries)
                  days Hfail) as Hg.
    destruct (_generate_context _ _ _ _ _ _) as [generated calls]. simpl in Hg.
    subst generated. reflexivity.
  - intros response Htext Hmarker Hcall Hparse. subst answer.
    rewrite retrieval_unfold. fold summaries. cbv zeta. fold profile. fold text.
    by rewrite (generate_context_other query profile text days response).
Qed.

(** C8, as the code has it: retrieval reads the profile and creates
    nothing.  Whenever it returns, the store is as before and the answer
    carries the stored profile of the user, or the empty dict and no weak
    points for a user without one; it raises only on a response that parses
    to something other than a JSON object. *)
Theorem C8_retrieval_reads_without_creating now uid query days subject topic s :
  match fst (process str_of_num json_dumps now uid query days subject topic s) with
  | Ok (found, s') =>
      s' = s
      /\ user_profile found = user_profiles s !! uid
      /\ rt_weak_points found
         = (if user_profiles s !! uid is Some p then weak_points p else [])
  | Raise e => e = AttributeError
  end.
Proof.
  rewrite retrieval_unfold. cbv zeta.
  destruct (generate_context_total query (user_profiles s !! uid)
              (_format_summaries (summaries_in_window now uid days 20 (session_summaries s)))
              days) as [doc Hdoc].
  destruct (_generate_context _ _ _ _ _ _) as [generated calls]. simpl in Hdoc.
  subst generated. simpl. destruct doc as [d|]; simpl; done.
Qed.

End RetrievalFacts.

(** C7 for the stored user of two sessions: on a store without summaries
    and on a store with one summary while the language model is
    unreachable, the answer is the profile-only one; on the store with one
    summary and a language model that answers "[]", a JSON list, retrieval
    raises [AttributeError]. *)
Lemma C7_retrieval_can_fail_its_caller_witness :
  Retrieval.process (clock := epoch_clock) (pystr := ascii_str) (agent := llm_down)
    (json := json_reading (Raise JSONDecodeError)) ratio_text braces
    2000 "u1" "what is recursion" 7 None None one_user
  = (Ok (Retrieval.mkRetrieved true
           ("## 用户画像" +:+ NL
            +:+ "- 学习风格：文字型学习者（偏好文字解释）" +:+ NL
            +:+ "- 难度偏好：中级" +:+ NL
            +:+ "- 喜欢包含代码示例" +:+ NL
            +:+ "- 可以包含数学公式" +:+ NL
            +:+ "- 薄弱知识点：recursion（困惑度50）")
           [] (Some returning_user) [recursion_jan],
         one_user), [])
  /\ fst (Retrieval.process (clock := epoch_clock) (pystr := ascii_str) (agent := llm_down)
            (json := json_reading (Raise JSONDecodeError)) ratio_text braces
            2000 "u1" "what is recursion" 7 None None one_summary)
     = Ok (Retrieval.mkRetrieved true
             ("## 用户画像" +:+ NL
              +:+ "- 学习风格：文字型学习者（偏好文字解释）" +:+ NL
              +:+ "- 难度偏好：中级" +:+ NL
              +:+ "- 喜欢包含代码示例" +:+ NL
              +:+ "- 可以包含数学公式" +:+ NL
              +:+ "- 薄弱知识点：recursion（困惑度50）")
             [] (Some returning_user) [recursion_jan],
           one_summary)
  /\ Retrieval.process (clock := epoch_clock) (pystr := ascii_str)
       (agent := llm_replying "[]") (json := json_reading (Ok JOther)) ratio_text braces
       2000 "u1" "what is recursion" 7 None None one_summary
     = (Raise AttributeError,
        [Retrieval.retrieve_request (pystr := ascii_str) (agent := llm_replying "[]") braces
           "what is recursion" (Some returning_user)
           (Retrieval._format_summaries (clock := epoch_clock) [a_row]) 7]).
Proof.
  split; [|split].
  - exact (proj1 (C7_retrieval_can_fail_its_caller (clock := epoch_clock)
                    (pystr := ascii_str) (agent := llm_down)
                    (json := json_reading (Raise JSONDecodeError)) ratio_text braces
                    2000 "u1" "what is recursion" 7 None None one_user) eq_refl).
  - exact (proj1 (proj2 (C7_retrieval_can_fail_its_caller (clock := epoch_clock)
                           (pystr := ascii_str) (agent := llm_down)
                           (json := json_reading (Raise JSONDecodeError)) ratio_text
                           braces
                           2000 "u1" "what is recursion" 7 None None one_summary))
             (or_introl (ex_intro _ RuntimeError eq_refl))).
  - refine (proj1 (proj2 (proj2 (C7_retrieval_can_fail_its_caller (clock := epoch_clock)
                                   (pystr := ascii_str) (agent := llm_replying "[]")
                                   (json := json_reading (Ok JOther)) ratio_text braces
                                   2000 "u1" "what is recursion" 7 None None one_summary)))
              "[]" _ eq_refl eq_refl eq_refl).
    discriminate.
Defined.

(** C8 as stated fails for a user without a stored profile: the answer
    carries the empty dict, and afterwards the store still has no profile
    for the user. *)
Lemma C8_counterexample :
  fst (Retrieval.process (clock := epoch_clock) (pystr := ascii_str) (agent := llm_down)
         (json := json_reading (Raise JSONDecodeError)) ratio_text braces
         2000 "u1" "what is recursion" 7 None None no_store)
  = Ok (Retrieval.profile_only ratio_text None, no_store)
  /\ Retrieval.user_profile (Retrieval.profile_only ratio_text None) = None
  /\ user_profiles no_store !! "u1" = None.
Proof. repeat split; vm_compute; reflexivity. Qed.

(** ** Profile agent *)

Section ProfileFacts.
Import Profile.
Context {clock : Clock} {pystr : PyStr} {agent : BaseAgent}
  {json : Json (gmap string pval)}.

Lemma run_consolidate now uid doc s :
  run (consolidate now uid doc) s
  = match confident doc with
    | Raise e => Raise e
    | Ok true =>
        let p' := set_updated_at now
                    (set_preferences
                       ((if doc is JObject prefs then prefs else ∅)
                        ∪ preferences (current uid s))
                       (current uid s)) in
        Ok ((p', bool_decide (user_profiles s !! uid = None)), put uid p' s)
    | Ok false =>
        Ok ((current uid s, bool_decide (user_profiles s !! uid = None)),
            put uid (current uid s) s)
    end.
Proof.
  unfold consolidate. rewrite run_bind.
  destruct (run_get_or_create_profile uid s) as (s1 & -> & Hcur & Hlook & Hput).
  cbv beta iota. rewrite run_bind. unfold lift_result. cbn [run].
  destruct (confident doc) as [[|]|e]; [| |done].
  - rewrite run_bind, run_update_profile_preferences. rewrite Hcur, Hput. reflexivity.
  - rewrite run_bind. simpl. f_equal. f_equal. rewrite <- Hput. unfold put.
    destruct s1 as [profiles rows]. simpl in *. by rewrite insert_id.
Qed.

Lemma infer_failure messages :
  messages = []
  \/ (exists e, call_llm (infer_request messages) = Raise e)
  \/ (exists response e,
        call_llm (infer_request messages) = Ok response /\ json_loads response = Raise e) ->
  fst (_infer_preferences messages) = JObject ∅.
Proof.
  unfold _infer_preferences. intros [->|Hfail]; [done|].
  destruct messages as [|m rest]; [done|]. simpl.
  destruct Hfail as [[e ->]|(response & e & -> & Hparse)]; simpl; [done|].
  by rewrite Hparse.
Qed.

Lemma inference_unfold now uid messages update_statistics s :
  fst (process now uid messages update_statistics s)
  = ('(found, was_created, s') ←
       run (consolidate now uid (fst (_infer_preferences messages))) s;
     Ok (mkInferred true found (fst (_infer_preferences messages)) was_created, s')).
Proof.
  unfold process. destruct (_infer_preferences messages) as [doc calls]. reflexivity.
Qed.

(** C9: an empty conversation, a failed call and a response that does not
    parse give the empty guess.  For a guess with a numeric confidence the
    pass returns; above 0.5 every key of the guess overwrites the stored
    preference and the other keys stay, at 0.5 or below the profile is the
    one that was stored (the default one for a new user); a guess without a
    confidence counts as 0 and leaves the profile likewise. *)
Theorem C9_confidence_gate now uid messages update_statistics s :
  (messages = []
   \/ (exists e, call_llm (infer_request messages) = Raise e)
   \/ (exists response e,
         call_llm (infer_request messages) = Ok response /\ json_loads response = Raise e) ->
   fst (_infer_preferences messages) = JObject ∅)
  /\ (forall prefs, fst (_infer_preferences messages) = JObject prefs ->
      (forall q, prefs !! "confidence" = Some (PNum q) ->
         exists answer s',
           fst (process now uid messages update_statistics s) = Ok (answer, s')
           /\ user_profiles s' !! uid = Some (profile answer)
           /\ ((1 # 2 < q)%Q ->
               forall k, preferences (profile answer) !! k
                         = if prefs !! k is Some v then Some v
                           else preferences (current uid s) !! k)
           /\ ((q <= 1 # 2)%Q -> profile answer = current uid s))
      /\ (prefs !! "confidence" = None ->
          exists answer s',
            fst (process now uid messages update_statistics s) = Ok (answer, s')
            /\ user_profiles s' !! uid = Some (profile answer)
            /\ profile answer = current uid s)).
Proof.
  split; [apply infer_failure|].
  intros prefs Hdoc. split.
  - intros q Hq. rewrite inference_unfold, Hdoc, run_consolidate. simpl. rewrite Hq.
    destruct (Qlt_le_dec (1 # 2) q) as [Hgt|Hle]; simpl.
    + eexists _, _. split; [reflexivity|]. simpl. rewrite lookup_insert_eq.
      split; [done|]. split.
      * intros _ k. rewrite lookup_union.
        destruct (prefs !! k), (preferences (current uid s) !! k); done.
      * intros Hle. exfalso. by apply (Qlt_not_le _ _ Hgt).
    + eexists _, _. split; [reflexivity|]. simpl. rewrite lookup_insert_eq.
      split; [done|]. split; [|done].
      intros Hgt. exfalso. by apply (Qlt_not_le _ _ Hgt).
  - intros Hq. rewrite inference_unfold, Hdoc, run_consolidate. simpl. rewrite Hq.
    eexists _, _. split; [reflexivity|]. simpl. by rewrite lookup_insert_eq.
Qed.

End ProfileFacts.

(** C9 on a stored profile of textual style, for a guess of visual style:
    at confidence 0.3 the profile stays as stored, at 0.6 the style is
    overwritten. *)
Lemma C9_confidence_gate_witness :
  (exists answer s',
     fst (Profile.process (pystr := ascii_str)
            (agent := llm_replying "{}") (json := json_reading (Ok (JObject unsure_guess)))
            1709251200 "u1" two_turns true one_user) = Ok (answer, s')
     /\ user_profiles s' !! "u1" = Some (Profile.profile answer)
     /\ Profile.profile answer = returning_user)
  /\ (exists answer s',
        fst (Profile.process (pystr := ascii_str)
               (agent := llm_replying "{}")
               (json := json_reading (Ok (JObject confident_guess)))
               1709251200 "u1" two_turns true one_user) = Ok (answer, s')
        /\ user_profiles s' !! "u1" = Some (Profile.profile answer)
        /\ preferences (Profile.profile answer) !! "learning_style" = Some (PStr "visual")
        /\ preferences (Profile.profile answer) !! "language" = Some (PStr "zh-CN")).
Proof.
  split.
  - destruct (proj1 (proj2 (C9_confidence_gate (pystr := ascii_str)
                              (agent := llm_replying "{}")
                              (json := json_reading (Ok (JObject unsure_guess)))
                              1709251200 "u1" two_turns true one_user)
                       unsure_guess eq_refl) (3 # 10)%Q eq_refl)
      as (answer & s' & Hrun & Hstored & _ & Hkeep).
    exists answer, s'. split; [exact Hrun|]. split; [exact Hstored|].
    apply Hkeep. vm_compute. discriminate.
  - destruct (proj1 (proj2 (C9_confidence_gate (pystr := ascii_str)
                              (agent := llm_replying "{}")
                              (json := json_reading (Ok (JObject confident_guess)))
                              1709251200 "u1" two_turns true one_user)
                       confident_guess eq_refl) (6 # 10)%Q eq_refl)
      as (answer & s' & Hrun & Hstored & Hover & _).
    exists answer, s'. split; [exact Hrun|]. split; [exact Hstored|].
    assert (Hgt : (1 # 2 < 6 # 10)%Q) by reflexivity.
    split; [exact (Hover Hgt "learning_style")|exact (Hover Hgt "language")].
Defined.

(** ** Further properties of the code *)

(** *** When consolidation triggers *)

Section TriggerFacts.
Import Summarizer.
Context {pystr : PyStr}.

(** The three rules of the trigger policy, side by side. *)
Lemma trigger_policy config messages force :
  _should_trigger_summary config messages force
  = force
    || (summary_trigger_rounds config * 2 <=? Z.of_nat (length messages))
    || (summary_trigger_tokens config
        <=? foldr Z.add 0 (map (fun m => py_len (default "" (content m))) messages) / 2).
Proof.
  unfold _should_trigger_summary. destruct force; [done|]. simpl.
  by destruct (summary_trigger_rounds config * 2 <=? Z.of_nat (length messages)).
Qed.

Lemma total_chars_app (messages more : list Message) :
  foldr Z.add 0 (map (fun m => py_len (default "" (content m))) (messages ++ more))
  = foldr Z.add 0 (map (fun m => py_len (default "" (content m))) messages)
    + foldr Z.add 0 (map (fun m => py_len (default "" (content m))) more).
Proof.
  induction messages as [|m messages IH]; simpl; [done|]. rewrite IH. lia.
Qed.

Lemma total_chars_nonneg (messages : list Message) :
  (forall text, 0 <= py_len text) ->
  0 <= foldr Z.add 0 (map (fun m => py_len (default "" (content m))) messages).
Proof.
  intros Hlen. induction messages as [|m messages IH]; simpl; [done|].
  specialize (Hlen (default "" (content m))). lia.
Qed.

(** X1: the trigger policy is monotone in the conversation.  Once a
    conversation triggers consolidation (forced, by its number of messages,
    or by its estimated tokens), every conversation that continues it
    triggers as well; [len] of a string is never negative. *)
Theorem X1_trigger_monotone config messages more force :
  (forall text, 0 <= py_len text) ->
  _should_trigger_summary config messages force = true ->
  _should_trigger_summary config (messages ++ more) force = true.
Proof.
  intros Hlen. rewrite !trigger_policy, total_chars_app, length_app.
  pose proof (total_chars_nonneg more Hlen) as Hmore.
  intros [[Hforce|Hrounds]%orb_prop|Htokens]%orb_prop.
  - by rewrite Hforce.
  - apply Z.leb_le in Hrounds. apply orb_true_intro. left. apply orb_true_intro. right.
    apply Z.leb_le. lia.
  - apply Z.leb_le in Htokens. apply orb_true_intro. right. apply Z.leb_le.
    etransitivity; [exact Htokens|]. apply Z.div_le_mono; lia.
Qed.

End TriggerFacts.

(** X1 with three rounds configured: six short messages trigger, and so
    does the conversation two turns later. *)
Lemma X1_trigger_monotone_witness :
  (forall text, 0 <= py_len (PyStr := ascii_str) text)
  /\ Summarizer._should_trigger_summary (pystr := ascii_str) three_rounds (short_turns 6) false
     = true
  /\ Summarizer._should_trigger_summary (pystr := ascii_str) three_rounds
       (short_turns 6 ++ two_turns) false
     = true.
Proof.
  assert (Hlen : forall text, 0 <= py_len (PyStr := ascii_str) text)
    by (intros text; simpl; lia).
  assert (Hsix : Summarizer._should_trigger_summary (pystr := ascii_str) three_rounds
                   (short_turns 6) false = true) by reflexivity.
  split; [exact Hlen|]. split; [exact Hsix|].
  exact (X1_trigger_monotone (pystr := ascii_str) three_rounds (short_turns 6) two_turns
           false Hlen Hsix).
Defined.

(** *** The messages kept with a summary *)

Section RecentFacts.
Import Summarizer.
Context {pystr : PyStr} {agent : BaseAgent} {json : Json Summary}.

Lemma slice_from_last {A} (k : Z) (l : list A) :
  0 < k -> slice_from (- k) l = drop (length l - Z.to_nat k) l.
Proof.
  intros Hk. unfold slice_from. destruct (Z.ltb_spec (- k) 0); [|lia].
  f_equal. lia.
Qed.

(** X2: which turns a summary keeps as [recent_messages].  For a parsed
    response and a positive [summary_keep_recent] these are the last
    [summary_keep_recent] turns (all of them in a shorter conversation); at
    [summary_keep_recent = 0] the slice [messages[-0:]] keeps the whole
    conversation, not none of it; a negative value drops that many turns
    from the front.  The default summary of a response that does not parse
    keeps the last five turns whatever the configuration says. *)
Theorem X2_recent_messages_window config session_id uid messages response :
  call_llm (summarize_request messages) = Ok response ->
  (forall parsed, json_loads response = Ok (JObject parsed) ->
     exists summary,
       fst (_generate_summary config session_id uid messages) = Ok summary
       /\ (0 < summary_keep_recent config ->
           sm_recent_messages summary
           = Some (drop (length messages - Z.to_nat (summary_keep_recent config)) messages))
       /\ (summary_keep_recent config = 0 -> sm_recent_messages summary = Some messages)
       /\ (summary_keep_recent config < 0 ->
           sm_recent_messages summary
           = Some (drop (Z.to_nat (- summary_keep_recent config)) messages)))
  /\ (json_loads response = Raise JSONDecodeError ->
      exists summary,
        fst (_generate_summary config session_id uid messages) = Ok summary
        /\ sm_recent_messages summary = Some (drop (length messages - 5) messages)).
Proof.
  intros Hcall. split.
  - intros parsed Hparse. unfold _generate_summary. simpl. rewrite Hcall. simpl.
    rewrite Hparse. simpl. eexists. split; [reflexivity|]. simpl.
    destruct (Z.ltb_spec (summary_keep_recent config) (Z.of_nat (length messages)))
      as [Hlt|Hge].
    + split; [|split].
      * intros Hk. by rewrite slice_from_last.
      * intros ->. reflexivity.
      * intros Hk. unfold slice_from.
        destruct (Z.ltb_spec (- summary_keep_recent config) 0); [lia|done].
    + split; [|split].
      * intros Hk. replace (length messages - Z.to_nat (summary_keep_recent config))%nat
          with 0%nat by lia. done.
      * done.
      * lia.
  - intros Hparse. exists (_get_default_summary messages).
    split; [by apply generate_summary_parse_failure with (response := response)|].
    simpl. destruct (Z.ltb_spec 5 (Z.of_nat (length messages))) as [Hlt|Hge].
    + by rewrite (slice_from_last 5).
    + replace (length messages - 5)%nat with 0%nat by lia. done.
Qed.

End RecentFacts.

(** X2 for a conversation of eight turns: with nothing to keep configured
    the parsed summary keeps all eight, and the default summary keeps the
    last five. *)
Lemma X2_recent_messages_window_witness :
  call_llm (BaseAgent := llm_replying "{}")
    (Summarizer.summarize_request (pystr := ascii_str) (agent := llm_replying "{}")
       (short_turns 8))
  = Ok "{}"
  /\ (exists summary,
        fst (Summarizer._generate_summary (pystr := ascii_str) (agent := llm_replying "{}")
               (json := json_reading (Ok (JObject parsed_summary)))
               keep_none "s1" "u1" (short_turns 8)) = Ok summary
        /\ Summarizer.sm_recent_messages summary = Some (short_turns 8))
  /\ (exists summary,
        fst (Summarizer._generate_summary (pystr := ascii_str) (agent := llm_replying "{}")
               (json := json_reading (Raise JSONDecodeError))
               keep_none "s1" "u1" (short_turns 8)) = Ok summary
        /\ Summarizer.sm_recent_messages summary = Some (short_turns 5)).
Proof.
  assert (Hcall : call_llm (BaseAgent := llm_replying "{}")
                    (Summarizer.summarize_request (pystr := ascii_str)
                       (agent := llm_replying "{}") (short_turns 8))
                  = Ok "{}") by reflexivity.
  split; [exact Hcall|]. split.
  - destruct (proj1 (X2_recent_messages_window (pystr := ascii_str)
                       (agent := llm_replying "{}")
                       (json := json_reading (Ok (JObject parsed_summary)))
                       keep_none "s1" "u1" (short_turns 8) "{}" Hcall)
                parsed_summary eq_refl) as (summary & Hgen & _ & Hzero & _).
    exists summary. split; [exact Hgen|]. apply Hzero. reflexivity.
  - destruct (proj2 (X2_recent_messages_window (pystr := ascii_str)
                       (agent := llm_replying "{}")
                       (json := json_reading (Raise JSONDecodeError))
                       keep_none "s1" "u1" (short_turns 8) "{}" Hcall) eq_refl)
      as (summary & Hgen & Hfive).
    exists summary. split; [exact Hgen|]. exact Hfive.
Defined.

(** *** The order of the weak points, and the default summary *)

(** X3: whatever the starting list and the batch, a merge that returns
    stores a list in descending order of score: no entry has a lower score
    than an entry behind it, where a missing score reads as 0. *)
Theorem X3_merge_keeps_descending_order now wps batch stored :
  merge_batch now wps batch = Ok stored ->
  forall i j a b,
    (i <= j)%nat -> stored !! i = Some a -> stored !! j = Some b ->
    default 0 (confusion_score b) <= default 0 (confusion_score a).
Proof.
  intros Hrun i j a b Hij Ha Hb.
  assert (Hsorted : StronglySorted ge_score stored).
  { apply Sorted.Sorted_StronglySorted; [|by eapply merge_batch_sorted].
    intros x y z. unfold ge_score. lia. }
  clear Hrun. revert i j Hij Ha Hb.
  induction Hsorted as [|x l Hl IH Hx]; intros i j Hij Ha Hb; [done|].
  destruct i as [|i], j as [|j]; simpl in *.
  - assert (a = b) as -> by congruence. lia.
  - injection Ha as ->. rewrite Forall_forall in Hx.
    apply (Hx b). by eapply list_elem_of_lookup_2.
  - lia.
  - apply (IH i j); [lia|done|done].
Qed.

(** X3 on a tracked list that is out of order, merged with two
    observations: the stored scores run 80, 50, 40. *)
Lemma X3_merge_keeps_descending_order_witness :
  merge_batch "now" [pointers_40; recursion_jan] [recursion_jan; seen "graphs" 80 "t"]
  = Ok [seen "graphs" 80 "t"; recursion_jan; pointers_40]
  /\ forall i j a b,
       (i <= j)%nat ->
       [seen "graphs" 80 "t"; recursion_jan; pointers_40] !! i = Some a ->
       [seen "graphs" 80 "t"; recursion_jan; pointers_40] !! j = Some b ->
       default 0 (confusion_score b) <= default 0 (confusion_score a).
Proof.
  split; [reflexivity|].
  exact (X3_merge_keeps_descending_order "now" [pointers_40; recursion_jan]
           [recursion_jan; seen "graphs" 80 "t"] _ eq_refl).
Defined.

Section DefaultSummaryFacts.
Import Summarizer.
Context {pystr : PyStr} {agent : BaseAgent} {json : Json Summary}.

(** X4: when the response of the language model is no JSON text, the
    summary extractor returns the default summary: the topic "学习对话", the
    two generic key points, no questions, no weak points, the four default
    preferences, no subject, topic or difficulty, the last five turns (all
    of them when there are at most five), the number of turns as message
    count, a token count of 0, and no time stamps. *)
Theorem X4_parse_failure_gives_default config session_id uid messages response :
  call_llm (summarize_request messages) = Ok response ->
  json_loads response = Raise JSONDecodeError ->
  fst (_generate_summary config session_id uid messages)
  = Ok (mkSummary
          (Some "学习对话")
          (Some ["讨论了相关概念"; "进行了一些问题解答"])
          (Some [])
          (Some [])
          (Some (<["learning_style" := PStr "textual"]>
                 (<["difficulty_preference" := PStr "intermediate"]>
                 (<["include_code" := PBool true]>
                 (<["include_math" := PBool true]> ∅)))))
          (Some [])
          None None None
          (Some (drop (length messages - 5) messages))
          (Some (Z.of_nat (length messages)))
          (Some 0)
          None None).
Proof.
  intros Hcall Hparse.
  rewrite (generate_summary_parse_failure config _ _ _ _ Hcall Hparse).
  unfold _get_default_summary. do 2 f_equal.
  destruct (Z.ltb_spec 5 (Z.of_nat (length messages))) as [Hlong|Hshort].
  - unfold slice_from. simpl. do 2 f_equal. lia.
  - replace (length messages - 5)%nat with 0%nat by lia. reflexivity.
Qed.

End DefaultSummaryFacts.

(** X4 for a language model that answers with text that does not parse,
    after a conversation of eight turns: the default summary keeps the last
    five. *)
Lemma X4_parse_failure_gives_default_witness :
  call_llm (BaseAgent := llm_replying "not json")
    (Summarizer.summarize_request (pystr := ascii_str) (agent := llm_replying "not json")
       (short_turns 8))
  = Ok "not json"
  /\ json_loads (Json := json_reading (D := Summarizer.Summary) (Raise JSONDecodeError))
       "not json"
     = Raise JSONDecodeError
  /\ fst (Summarizer._generate_summary (pystr := ascii_str)
            (agent := llm_replying "not json")
            (json := json_reading (Raise JSONDecodeError))
            Summarizer.default_config "s1" "u1" (short_turns 8))
     = Ok (Summarizer.mkSummary
             (Some "学习对话")
             (Some ["讨论了相关概念"; "进行了一些问题解答"])
             (Some [])
             (Some [])
             (Some (<["learning_style" := PStr "textual"]>
                    (<["difficulty_preference" := PStr "intermediate"]>
                    (<["include_code" := PBool true]>
                    (<["include_math" := PBool true]> ∅)))))
             (Some [])
             None None None
             (Some (short_turns 5))
             (Some 8)
             (Some 0)
             None None).
Proof.
  split; [reflexivity|]. split; [reflexivity|].
  exact (X4_parse_failure_gives_default (pystr := ascii_str)
           (agent := llm_replying "not json")
           (json := json_reading (Raise JSONDecodeError))
           Summarizer.default_config "s1" "u1" (short_turns 8) "not json" eq_refl eq_refl).
Defined.

Section ConsolidationFacts.
Import Summarizer.
Context {clock : Clock} {pystr : PyStr}.


End ConsolidationFacts.


(** *** What a merge of weak points keeps *)

Section KeepFacts.
Variable now : string.

Lemma kept_by_refl w : kept_by w w.
Proof. unfold kept_by. repeat split; lia. Qed.

Lemma kept_by_trans w1 w2 w3 : kept_by w1 w2 -> kept_by w2 w3 -> kept_by w1 w3.
Proof. unfold kept_by. intros (?&?&?&?) (?&?&?&?). repeat split; try congruence; lia. Qed.

(** One step of the loop keeps every position of the list, under the same
    concept and with a score that is not lower, and leaves the observation
    tracked with at least its score. *)
Lemma merge_one_keeps (existing : gmap string nat) (cur cur' : list WeakPoint) a :
  (forall c i, existing !! c = Some i -> exists t, cur !! i = Some t /\ concept t = c) ->
  merge_one now existing cur a = Ok cur' ->
  (forall i w, cur !! i = Some w -> exists w', cur' !! i = Some w' /\ kept_by w w')
  /\ (exists w', w' ∈ cur' /\ concept w' = concept a /\ get_score a <= get_score w').
Proof.
  intros Htracks. unfold merge_one.
  destruct (existing !! concept a) as [i|] eqn:Hi.
  - destruct (Htracks _ _ Hi) as (t & Ht & Hc). rewrite Ht.
    destruct (Z.ltb_spec (get_score t) (get_score a)) as [Hlt|Hge].
    + destruct (confusion_score a) as [score|] eqn:Hscore; simpl; [|done].
      intros [= <-].
      assert (Hgs : get_score a = score) by (unfold get_score; by rewrite Hscore).
      split.
      * intros j w Hw. destruct (decide (i = j)) as [<-|Hne].
        -- rewrite list_lookup_insert_eq by (by eapply lookup_lt_Some).
           eexists. split; [done|]. assert (w = t) as -> by congruence.
           unfold kept_by, get_score. simpl. fold (get_score t). repeat split; lia.
        -- rewrite list_lookup_insert_ne by done. exists w. split; [done|apply kept_by_refl].
      * eexists. split.
        -- apply list_elem_of_lookup. exists i. apply list_lookup_insert_eq.
           by eapply lookup_lt_Some.
        -- unfold get_score at 2. simpl. split; [done|lia].
    + intros [= <-]. split.
      * intros j w Hw. exists w. split; [done|apply kept_by_refl].
      * exists t. split; [|done]. apply list_elem_of_lookup. eauto.
  - intros [= <-]. split.
    + intros j w Hw. exists w. split; [|apply kept_by_refl].
      by apply lookup_app_l_Some.
    + exists a. split; [|done]. apply elem_of_app. right. by apply list_elem_of_singleton.
Qed.

Lemma for_each_merge_keeps (existing : gmap string nat) batch :
  forall (cur final : list WeakPoint),
  (forall c i, existing !! c = Some i -> exists t, cur !! i = Some t /\ concept t = c) ->
  for_each (merge_one now existing) cur batch = Ok final ->
  (forall i w, cur !! i = Some w -> exists w', final !! i = Some w' /\ kept_by w w')
  /\ (forall a, a ∈ batch ->
        exists w', w' ∈ final /\ concept w' = concept a /\ get_score a <= get_score w').
Proof.
  induction batch as [|a batch IH]; intros cur final Htracks; simpl.
  - intros [= <-]. split.
    + intros i w Hw. exists w. split; [done|apply kept_by_refl].
    + intros a Ha. by apply elem_of_nil in Ha.
  - destruct (merge_one now existing cur a) as [cur'|e] eqn:Hone; simpl; [|done].
    intros Hrest.
    destruct (merge_one_keeps _ _ _ _ Htracks Hone) as (Hkeep & w1 & Hw1 & Hc1 & Hs1).
    assert (Htracks' : forall c i, existing !! c = Some i ->
                         exists t, cur' !! i = Some t /\ concept t = c).
    { intros c i Hi. destruct (Htracks _ _ Hi) as (t & Ht & Hc).
      destruct (Hkeep _ _ Ht) as (t' & Ht' & Hk & _). exists t'. split; [done|congruence]. }
    destruct (IH cur' final Htracks' Hrest) as (Hkeep' & Hall).
    split.
    + intros i w Hw. destruct (Hkeep _ _ Hw) as (w' & Hw' & Hk).
      destruct (Hkeep' _ _ Hw') as (w'' & Hw'' & Hk').
      exists w''. split; [done|]. by eapply kept_by_trans.
    + intros b Hb. apply elem_of_cons in Hb as [->|Hb]; [|by apply Hall].
      apply list_elem_of_lookup in Hw1 as [j Hj].
      destruct (Hkeep' _ _ Hj) as (w'' & Hw'' & Hk & _ & _ & Hs).
      exists w''. split; [apply list_elem_of_lookup; eauto|]. split; [congruence|lia].
Qed.

(** X6: a merge of weak points never forgets and never lowers.  Whenever
    [update_weak_points] returns, every entry that was stored is continued
    by a stored entry of the same concept, subject and topic whose score is
    not lower, and every observation of the batch is tracked by an entry of
    its concept whose score is at least the observed one. *)
Theorem X6_merge_never_forgets wps batch stored :
  merge_batch now wps batch = Ok stored ->
  (forall w, w ∈ wps -> exists w', w' ∈ stored /\ kept_by w w')
  /\ (forall a, a ∈ batch ->
        exists w', w' ∈ stored /\ concept w' = concept a /\ get_score a <= get_score w').
Proof.
  unfold merge_batch.
  destruct (for_each _ _ _) as [merged|e] eqn:Hloop; simpl; [|done].
  intros [= <-].
  assert (Htracks : forall c i, existing_weak_points wps !! c = Some i ->
                      exists t, wps !! i = Some t /\ concept t = c)
    by apply existing_Some.
  destruct (for_each_merge_keeps _ _ _ _ Htracks Hloop) as (Hkeep & Hall).
  split.
  - intros w [i Hi]%list_elem_of_lookup. destruct (Hkeep _ _ Hi) as (w' & Hw' & Hk).
    exists w'. split; [|done]. rewrite sort_desc_perm. apply list_elem_of_lookup. eauto.
  - intros a Ha. destruct (Hall a Ha) as (w' & Hw' & Hrest).
    exists w'. split; [|done]. by rewrite sort_desc_perm.
Qed.

(** A step of the loop appends exactly when the dict does not know the
    concept. *)
Lemma merge_one_length (existing : gmap string nat) (cur cur' : list WeakPoint) a :
  merge_one now existing cur a = Ok cur' ->
  length cur' = (length cur + (if existing !! concept a is Some _ then 0 else 1))%nat.
Proof.
  unfold merge_one. destruct (existing !! concept a) as [i|].
  - destruct (cur !! i) as [t|]; [|intros [= <-]; lia].
    destruct (get_score t <? get_score a); [|intros [= <-]; lia].
    destruct (confusion_score a); simpl; [|done].
    intros [= <-]. rewrite length_insert. lia.
  - intros [= <-]. rewrite length_app. simpl. lia.
Qed.

(** X7: the concepts known to a merge are those stored before it began.
    Whenever [update_weak_points] returns, the stored list has grown by one
    entry for every observation of the batch whose concept was not stored
    before the call, repeated observations of a new concept included. *)
Theorem X7_merge_length wps batch stored :
  merge_batch now wps batch = Ok stored ->
  length stored
  = (length wps + length (filter (fun a => concept a ∉ concept <$> wps) batch))%nat.
Proof.
  unfold merge_batch.
  destruct (for_each _ _ _) as [merged|e] eqn:Hloop; simpl; [|done].
  intros [= <-]. rewrite (Permutation_length (sort_desc_perm merged)).
  assert (Hgen : forall cur final,
            for_each (merge_one now (existing_weak_points wps)) cur batch = Ok final ->
            length final
            = (length cur
               + length (filter (fun a => concept a ∉ concept <$> wps) batch))%nat).
  { clear merged Hloop. induction batch as [|a batch IH]; intros cur final; simpl.
    - intros [= <-]. lia.
    - destruct (merge_one _ _ cur a) as [cur'|e] eqn:Hone; simpl; [|done].
      intros Hrest. rewrite (IH _ _ Hrest), (merge_one_length _ _ _ _ Hone).
      rewrite filter_cons.
      destruct (existing_weak_points wps !! concept a) as [i|] eqn:Hi.
      + rewrite decide_False; [lia|]. intros Hnot. apply existing_None in Hnot. congruence.
      + rewrite decide_True by (by apply existing_None). simpl. lia. }
  by apply Hgen.
Qed.

End KeepFacts.

(** X6 on a list that tracks "pointers" and "recursion", for an observation
    of "recursion" at a higher score. *)
Lemma X6_merge_never_forgets_witness :
  exists stored,
    merge_batch "2024-03-02T00:00:00" [pointers_40; recursion_jan] [recursion_60] = Ok stored
    /\ (forall w, w ∈ [pointers_40; recursion_jan] ->
          exists w', w' ∈ stored /\ kept_by w w')
    /\ (forall a, a ∈ [recursion_60] ->
          exists w', w' ∈ stored /\ concept w' = concept a /\ get_score a <= get_score w').
Proof.
  eexists. split; [vm_compute; reflexivity|].
  apply (X6_merge_never_forgets "2024-03-02T00:00:00" [pointers_40; recursion_jan]
           [recursion_60]).
  vm_compute. reflexivity.
Defined.

(** X7 on an empty list and a batch that names "recursion" twice and
    "pointers" once: three entries are stored. *)
Lemma X7_merge_length_witness :
  exists stored,
    merge_batch "2024-03-02T00:00:00" [] [recursion_60; pointers_40; recursion_80] = Ok stored
    /\ length stored = 3%nat.
Proof.
  eexists. split; [vm_compute; reflexivity|].
  exact (X7_merge_length "2024-03-02T00:00:00" [] [recursion_60; pointers_40; recursion_80]
           _ eq_refl).
Defined.

(** *** Knowledge graph: what an update touches, and how deltas add up *)

Section GraphMore.
Context {clock : Clock}.

(** X8: an update of the knowledge graph always returns, stores the
    profile it returns, and touches nothing but the entry of the concept
    (and the time of the update): the profiles of other users, the session
    summaries, the other concepts of the graph and the preferences,
    statistics, interests and weak points of the user are as before (those
    of a new profile for a user without one). *)
Theorem X8_graph_update_frame now uid c md idelta cd sub top dif s :
  exists p s',
    run (update_knowledge_graph now uid c md idelta cd sub top dif) s = Ok (p, s')
    /\ user_profiles s' !! uid = Some p
    /\ (forall uid', uid' <> uid -> user_profiles s' !! uid' = user_profiles s !! uid')
    /\ session_summaries s' = session_summaries s
    /\ is_Some (knowledge_graph p !! c)
    /\ (forall c', c' <> c ->
          knowledge_graph p !! c' = knowledge_graph (current uid s) !! c')
    /\ preferences p = preferences (current uid s)
    /\ statistics p = statistics (current uid s)
    /\ interests p = interests (current uid s)
    /\ weak_points p = weak_points (current uid s).
Proof.
  eexists _, _. split; [apply run_update_knowledge_graph|].
  split; [apply lookup_insert_eq|]. split.
  { intros uid' Hne. unfold put. simpl. by rewrite lookup_insert_ne. }
  split; [done|]. split.
  { simpl. unfold update_graph. rewrite lookup_insert_eq. by eexists. }
  split; [|done].
  intros c' Hne. simpl. unfold update_graph. by rewrite lookup_insert_ne.
Qed.

(** The entry of a concept after one update of that concept. *)
Lemma graph_step now uid c md idelta cd sub top dif s :
  let s' := put uid
              (set_updated_at now
                 (set_knowledge_graph
                    (update_graph now (knowledge_graph (current uid s)) c md idelta cd
                       sub top dif)
                    (current uid s))) s in
  let old := knowledge_graph (current uid s) !! c in
  exists kp,
    knowledge_graph (current uid s') !! c = Some kp
    /\ interaction_count kp = from_option interaction_count 0 old + idelta
    /\ kp_confusion_score kp
       = match cd with
         | Some d => Z.max 0 (Z.min 100 (from_option kp_confusion_score 0 old + d))
         | None => from_option kp_confusion_score 0 old
         end.
Proof.
  intros s' old. subst s'. rewrite current_put. simpl. unfold update_graph.
  rewrite lookup_insert_eq. eexists. split; [done|]. fold old.
  destruct old as [kp|]; simpl; done.
Qed.

Lemma stores_after_cons s u rest :
  stores_after s (u :: rest)
  = let s1 := put (gu_user u)
                (set_updated_at (gu_now u)
                   (set_knowledge_graph
                      (update_graph (gu_now u) (knowledge_graph (current (gu_user u) s))
                         (gu_concept u) (gu_mastery_delta u) (gu_interaction_delta u)
                         (gu_confusion_delta u) (gu_subject u) (gu_topic u) (gu_difficulty u))
                      (current (gu_user u) s))) s in
    s1 :: stores_after s1 rest.
Proof.
  cbn [stores_after]. unfold apply_graph_update. by rewrite run_update_knowledge_graph.
Qed.

Lemma deltas_accumulate uid c ups : forall s,
  Forall (fun u => gu_user u = uid /\ gu_concept u = c) ups ->
  let old := knowledge_graph (current uid s) !! c in
  let final := default s (last (stores_after s ups)) in
  let entry := knowledge_graph (current uid final) !! c in
  (ups <> [] -> is_Some (last (stores_after s ups)) /\ is_Some entry)
  /\ from_option interaction_count 0 entry
     = from_option interaction_count 0 old + foldr Z.add 0 (gu_interaction_delta <$> ups)
  /\ (0 <= from_option kp_confusion_score 0 old <= 100 ->
      Forall (fun u => 0 <= default 0 (gu_confusion_delta u)) ups ->
      from_option kp_confusion_score 0 entry
      = Z.min 100 (from_option kp_confusion_score 0 old
                   + foldr Z.add 0 ((fun u => default 0 (gu_confusion_delta u)) <$> ups)))
  /\ (0 <= from_option kp_confusion_score 0 old <= 100 ->
      Forall (fun u => default 0 (gu_confusion_delta u) <= 0) ups ->
      from_option kp_confusion_score 0 entry
      = Z.max 0 (from_option kp_confusion_score 0 old
                 + foldr Z.add 0 ((fun u => default 0 (gu_confusion_delta u)) <$> ups))).
Proof.
  induction ups as [|u rest IH]; intros s Hall.
  - simpl. split; [done|]. split; [lia|]. split; intros; lia.
  - apply Forall_cons in Hall as [[Hu Hc] Hrest].
    rewrite stores_after_cons. cbv zeta. rewrite last_cons.
    match goal with |- context [stores_after ?x rest] => set (s1 := x) end.
    assert (Hfinal : default s (match last (stores_after s1 rest) with
                                | Some y => Some y | None => Some s1 end)
                     = default s1 (last (stores_after s1 rest)))
      by (by destruct (last (stores_after s1 rest))).
    rewrite Hfinal. clear Hfinal.
    destruct (IH s1 Hrest) as (Hsome & Hcount & Hup & Hdown).
    cbv zeta in Hsome, Hcount, Hup, Hdown.
    destruct (graph_step (gu_now u) uid c (gu_mastery_delta u) (gu_interaction_delta u)
                (gu_confusion_delta u) (gu_subject u) (gu_topic u) (gu_difficulty u) s)
      as (kp & Hkp & Hk1 & Hk2).
    cbv zeta in Hkp. rewrite <- Hu, <- Hc in Hkp. fold s1 in Hkp.
    rewrite Hu, Hc in Hkp. rewrite Hkp in Hcount, Hup, Hdown.
    cbn [from_option] in Hcount, Hup, Hdown.
    rewrite !fmap_cons. cbn [foldr].
    split; [|split; [rewrite Hcount, Hk1; lia|split]].
    + intros _. split; [by destruct (last (stores_after s1 rest))|].
      destruct rest as [|u' rest'].
      * simpl. rewrite Hkp. by eexists.
      * by apply Hsome.
    + intros Hrange Hpos. apply Forall_cons in Hpos as [Hd Hpos].
      assert (Hsum : 0 <= foldr Z.add 0
                              ((fun u => default 0 (gu_confusion_delta u)) <$> rest)).
      { clear -Hpos. induction Hpos as [|x l Hx _ IHl]; [done|].
        rewrite fmap_cons. cbn [foldr]. lia. }
      rewrite Hup; [|rewrite Hk2; destruct (gu_confusion_delta u); simpl in *; lia|done].
      rewrite Hk2. destruct (gu_confusion_delta u); simpl in *; lia.
    + intros Hrange Hneg. apply Forall_cons in Hneg as [Hd Hneg].
      assert (Hsum : foldr Z.add 0
                       ((fun u => default 0 (gu_confusion_delta u)) <$> rest) <= 0).
      { clear -Hneg. induction Hneg as [|x l Hx _ IHl]; [done|].
        rewrite fmap_cons. cbn [foldr]. lia. }
      rewrite Hdown; [|rewrite Hk2; destruct (gu_confusion_delta u); simpl in *; lia|done].
      rewrite Hk2. destruct (gu_confusion_delta u); simpl in *; lia.
Qed.

(** X9: how the deltas of repeated updates of one concept add up.  After
    a sequence of updates of the concept, its [interaction_count] is the
    old count (0 for a new concept) plus the sum of the interaction deltas,
    with no bound applied.  When the confusion deltas all raise (an absent
    one counts as 0) the stored [confusion_score] is the old score plus
    their sum, capped at 100; when they all lower, it is that sum floored
    at 0. *)
Theorem X9_graph_deltas_accumulate uid c s ups :
  ups <> [] ->
  Forall (fun u => gu_user u = uid /\ gu_concept u = c) ups ->
  exists s' kp,
    last (stores_after s ups) = Some s'
    /\ knowledge_graph (current uid s') !! c = Some kp
    /\ interaction_count kp
       = from_option interaction_count 0 (knowledge_graph (current uid s) !! c)
         + foldr Z.add 0 (gu_interaction_delta <$> ups)
    /\ (0 <= from_option kp_confusion_score 0 (knowledge_graph (current uid s) !! c) <= 100 ->
        Forall (fun u => 0 <= default 0 (gu_confusion_delta u)) ups ->
        kp_confusion_score kp
        = Z.min 100
            (from_option kp_confusion_score 0 (knowledge_graph (current uid s) !! c)
             + foldr Z.add 0 ((fun u => default 0 (gu_confusion_delta u)) <$> ups)))
    /\ (0 <= from_option kp_confusion_score 0 (knowledge_graph (current uid s) !! c) <= 100 ->
        Forall (fun u => default 0 (gu_confusion_delta u) <= 0) ups ->
        kp_confusion_score kp
        = Z.max 0
            (from_option kp_confusion_score 0 (knowledge_graph (current uid s) !! c)
             + foldr Z.add 0 ((fun u => default 0 (gu_confusion_delta u)) <$> ups))).
Proof.
  intros Hne Hall.
  destruct (deltas_accumulate uid c ups s Hall) as (Hsome & Hcount & Hup & Hdown).
  cbv zeta in Hsome, Hcount, Hup, Hdown.
  destruct (Hsome Hne) as [[s' Hlast] [kp Hkp]].
  rewrite Hlast in Hkp, Hcount, Hup, Hdown. cbn [default] in Hkp, Hcount, Hup, Hdown.
  rewrite Hkp in Hcount, Hup, Hdown. cbn [from_option] in Hcount, Hup, Hdown.
  exists s', kp. done.
Qed.

End GraphMore.

(** X9 on a new store: two updates of "recursion" with confusion deltas of
    70 and 50 and interaction deltas of 1 and 2 leave a confusion of 100
    and three interactions. *)
Lemma X9_graph_deltas_accumulate_witness :
  rising_confusion <> []
  /\ Forall (fun u => gu_user u = "u1" /\ gu_concept u = "recursion") rising_confusion
  /\ exists s' kp,
       last (stores_after (clock := epoch_clock) no_store rising_confusion) = Some s'
       /\ knowledge_graph (current "u1" s') !! "recursion" = Some kp
       /\ interaction_count kp = 3
       /\ kp_confusion_score kp = 100.
Proof.
  assert (Hne : rising_confusion <> []) by discriminate.
  assert (Hall : Forall (fun u => gu_user u = "u1" /\ gu_concept u = "recursion")
                   rising_confusion) by (repeat constructor).
  split; [exact Hne|]. split; [exact Hall|].
  destruct (X9_graph_deltas_accumulate (clock := epoch_clock) "u1" "recursion" no_store
              rising_confusion Hne Hall) as (s' & kp & Hlast & Hkp & Hcount & Hup & _).
  exists s', kp. split; [exact Hlast|]. split; [exact Hkp|]. split; [exact Hcount|].
  apply Hup.
  - vm_compute. split; discriminate.
  - repeat constructor; vm_compute; discriminate.
Defined.

(** *** The row of a session: upsert and lookup *)

Section UpsertFacts.
Import Summarizer.

Lemma update_first_found sid (g : SessionSummary -> SessionSummary) rows old :
  find (fun row => bool_decide (ss_session_id row = sid)) rows = Some old ->
  update_first sid (fun _ => g old) rows = update_first sid g rows.
Proof.
  induction rows as [|row rows IH]; simpl; [done|].
  destruct (bool_decide (ss_session_id row = sid)).
  - by intros [= ->].
  - intros Hfind. by rewrite IH.
Qed.

(** The two paths of lines 81-107, written out. *)
Lemma run_upsert_summary now sid uid summary s :
  run (upsert_summary now sid uid summary) s
  = match find (fun row => bool_decide (ss_session_id row = sid)) (session_summaries s) with
    | Some row =>
        match sm_core_topic summary, sm_key_points summary, sm_resolved_questions summary,
              sm_unresolved_questions summary, sm_weak_points summary with
        | Some core_topic, Some key_points, Some resolved, Some unresolved, Some wps =>
            Ok (ss_id row,
                mkStore (user_profiles s)
                  (update_first sid
                     (apply_update now (Some core_topic) (Some key_points)
                        (Some resolved) (Some unresolved) (Some wps))
                     (session_summaries s)))
        | _, _, _, _, _ => Raise KeyError
        end
    | None =>
        match sm_core_topic summary, sm_key_points summary with
        | Some core_topic, Some key_points =>
            Ok (next_id (session_summaries s),
                mkStore (user_profiles s)
                  (session_summaries s
                   ++ [mkSessionSummary (next_id (session_summaries s)) sid uid core_topic
                         key_points
                         (default [] (sm_resolved_questions summary))
                         (default [] (sm_unresolved_questions summary))
                         (default [] (sm_weak_points summary))
                         (default 0 (sm_message_count summary)) (Some now) (Some now)]))
        | _, _ => Raise ValidationError
        end
    end.
Proof.
  unfold upsert_summary. rewrite run_bind. cbn [run get_session_summary].
  destruct (find _ (session_summaries s)) as [row|] eqn:Hfind.
  - destruct (sm_core_topic summary) as [ct|]; [|done].
    destruct (sm_key_points summary) as [kp|]; [|done].
    destruct (sm_resolved_questions summary) as [r|]; [|done].
    destruct (sm_unresolved_questions summary) as [u|]; [|done].
    destruct (sm_weak_points summary) as [w|]; [|done].
    simpl. rewrite Hfind. cbn [run]. do 3 f_equal.
    apply (update_first_found sid
             (apply_update now (Some ct) (Some kp) (Some r) (Some u) (Some w)) _ _ Hfind).
  - destruct (sm_core_topic summary) as [ct|]; [|done].
    destruct (sm_key_points summary) as [kp|]; done.
Qed.

Lemma find_update_first sid (f : SessionSummary -> SessionSummary) rows :
  (forall row, ss_session_id (f row) = ss_session_id row) ->
  forall sid',
    find (fun row => bool_decide (ss_session_id row = sid')) (update_first sid f rows)
    = if decide (sid' = sid)
      then f <$> find (fun row => bool_decide (ss_session_id row = sid)) rows
      else find (fun row => bool_decide (ss_session_id row = sid')) rows.
Proof.
  intros Hf sid'. induction rows as [|row rows IH]; simpl.
  - by destruct (decide _).
  - destruct (decide (ss_session_id row = sid)) as [Hrow|Hrow].
    + rewrite (bool_decide_eq_true_2 _ Hrow). simpl. rewrite Hf.
      destruct (decide (sid' = sid)) as [->|Hne].
      * by rewrite (bool_decide_eq_true_2 _ Hrow).
      * rewrite !bool_decide_eq_false_2 by congruence. done.
    + rewrite (bool_decide_eq_false_2 _ Hrow). simpl.
      destruct (decide (sid' = sid)) as [->|Hne].
      * by rewrite (bool_decide_eq_false_2 _ Hrow).
      * by destruct (bool_decide (ss_session_id row = sid')).
Qed.

Lemma find_app_new sid' rows (row : SessionSummary) :
  find (fun r => bool_decide (ss_session_id r = sid')) (rows ++ [row])
  = match find (fun r => bool_decide (ss_session_id r = sid')) rows with
    | Some r => Some r
    | None => if decide (ss_session_id row = sid') then Some row else None
    end.
Proof.
  induction rows as [|r rows IH]; simpl.
  - destruct (decide _) as [H|H];
      [by rewrite (bool_decide_eq_true_2 _ H)|by rewrite (bool_decide_eq_false_2 _ H)].
  - by destruct (bool_decide (ss_session_id r = sid')).
Qed.

Lemma update_first_columns {A} (col : SessionSummary -> A) sid f rows :
  (forall row, col (f row) = col row) ->
  col <$> update_first sid f rows = col <$> rows.
Proof.
  intros Hf. induction rows as [|row rows IH]; [done|]. cbn [update_first].
  destruct (bool_decide _); rewrite !fmap_cons; [by rewrite Hf|by rewrite IH].
Qed.

Lemma find_None_fresh sid (rows : list SessionSummary) :
  find (fun row => bool_decide (ss_session_id row = sid)) rows = None ->
  sid ∉ ss_session_id <$> rows.
Proof.
  intros Hnone [row [-> Hin]]%list_elem_of_fmap.
  apply list_elem_of_In in Hin.
  pose proof (find_none _ _ Hnone row Hin) as Hf. simpl in Hf.
  by rewrite bool_decide_eq_true_2 in Hf.
Qed.

(** After an upsert the row of the session is in the table, under the id
    that was returned. *)
Lemma upsert_row_found now sid uid summary s id s' :
  run (upsert_summary now sid uid summary) s = Ok (id, s') ->
  user_profiles s' = user_profiles s
  /\ exists row,
       find (fun row => bool_decide (ss_session_id row = sid)) (session_summaries s')
       = Some row
       /\ ss_id row = id
       /\ sm_core_topic summary = Some (ss_core_topic row)
       /\ sm_key_points summary = Some (ss_key_points row).
Proof.
  rewrite run_upsert_summary.
  destruct (find _ (session_summaries s)) as [old|] eqn:Hfind.
  - destruct (sm_core_topic summary) as [ct|]; [|done].
    destruct (sm_key_points summary) as [kp|]; [|done].
    destruct (sm_resolved_questions summary) as [r|]; [|done].
    destruct (sm_unresolved_questions summary) as [u|]; [|done].
    destruct (sm_weak_points summary) as [w|]; [|done].
    intros [= <- <-]. split; [done|]. cbn [session_summaries].
    rewrite find_update_first by done. rewrite decide_True by done. rewrite Hfind.
    eexists. split; [reflexivity|]. done.
  - destruct (sm_core_topic summary) as [ct|]; [|done].
    destruct (sm_key_points summary) as [kp|]; [|done].
    intros [= <- <-]. split; [done|]. cbn [session_summaries].
    rewrite find_app_new, Hfind. cbn [ss_session_id]. rewrite decide_True by done.
    eexists. split; [reflexivity|]. done.
Qed.

(** X11: upsert and lookup round trip.  Whenever the summarizer has
    stored a summary, created or updated, [get_session_summary] finds the
    row of the session: it carries the id that was returned, the core topic
    and key points of the summary, its question lists and weak points (empty
    where the summary of a new row has none), and the time of the call as
    [updated_at]; the profiles are not touched. *)
Theorem X11_upsert_then_lookup now sid uid summary s id s' :
  run (upsert_summary now sid uid summary) s = Ok (id, s') ->
  exists row,
    run (get_session_summary sid) s' = Ok (Some row, s')
    /\ ss_id row = id
    /\ ss_session_id row = sid
    /\ sm_core_topic summary = Some (ss_core_topic row)
    /\ sm_key_points summary = Some (ss_key_points row)
    /\ ss_resolved_questions row = default [] (sm_resolved_questions summary)
    /\ ss_unresolved_questions row = default [] (sm_unresolved_questions summary)
    /\ ss_weak_points row = default [] (sm_weak_points summary)
    /\ ss_updated_at row = Some now
    /\ user_profiles s' = user_profiles s.
Proof.
  rewrite run_upsert_summary. cbn [run get_session_summary].
  destruct (find _ (session_summaries s)) as [old|] eqn:Hfind.
  - destruct (sm_core_topic summary) as [ct|]; [|done].
    destruct (sm_key_points summary) as [kp|]; [|done].
    destruct (sm_resolved_questions summary) as [r|]; [|done].
    destruct (sm_unresolved_questions summary) as [u|]; [|done].
    destruct (sm_weak_points summary) as [w|]; [|done].
    intros [= <- <-]. cbn [session_summaries user_profiles].
    rewrite find_update_first by done. rewrite decide_True by done. rewrite Hfind.
    eexists. split; [reflexivity|]. simpl.
    apply find_some in Hfind as [_ Hsid]. apply bool_decide_eq_true_1 in Hsid.
    done.
  - destruct (sm_core_topic summary) as [ct|]; [|done].
    destruct (sm_key_points summary) as [kp|]; [|done].
    intros [= <- <-]. cbn [session_summaries user_profiles].
    rewrite find_app_new, Hfind. cbn [ss_session_id]. rewrite decide_True by done.
    eexists. split; [reflexivity|]. done.
Qed.

(** X12: what an upsert leaves alone.  The rows of other sessions are
    found as before.  When the session already has a row, the upsert keeps
    the number of rows, returns the id of that row and keeps its [user_id]
    (whoever the caller says the user is), its [message_count] (however long
    the conversation has become) and its [created_at]; when it has none, one
    row is added for the calling user with the message count of the summary
    and the time of the call. *)
Theorem X12_upsert_frame now sid uid summary s id s' :
  run (upsert_summary now sid uid summary) s = Ok (id, s') ->
  (forall sid' found, sid' <> sid ->
     run (get_session_summary sid') s = Ok (found, s) ->
     run (get_session_summary sid') s' = Ok (found, s'))
  /\ (forall old, run (get_session_summary sid) s = Ok (Some old, s) ->
        id = ss_id old
        /\ length (session_summaries s') = length (session_summaries s)
        /\ exists row,
             run (get_session_summary sid) s' = Ok (Some row, s')
             /\ ss_user_id row = ss_user_id old
             /\ ss_message_count row = ss_message_count old
             /\ ss_created_at row = ss_created_at old)
  /\ (run (get_session_summary sid) s = Ok (None, s) ->
        length (session_summaries s') = S (length (session_summaries s))
        /\ exists row,
             run (get_session_summary sid) s' = Ok (Some row, s')
             /\ ss_user_id row = uid
             /\ ss_message_count row = default 0 (sm_message_count summary)
             /\ ss_created_at row = Some now).
Proof.
  rewrite run_upsert_summary. cbn [run get_session_summary].
  destruct (find _ (session_summaries s)) as [old|] eqn:Hfind.
  - destruct (sm_core_topic summary) as [ct|]; [|done].
    destruct (sm_key_points summary) as [kp|]; [|done].
    destruct (sm_resolved_questions summary) as [r|]; [|done].
    destruct (sm_unresolved_questions summary) as [u|]; [|done].
    destruct (sm_weak_points summary) as [w|]; [|done].
    intros [= <- <-]. cbn [session_summaries user_profiles].
    split; [|split; [|done]].
    + intros sid' found Hne [= <-]. rewrite find_update_first by done.
      by rewrite decide_False.
    + intros old' [= <-]. split; [done|]. split.
      * rewrite <- !(length_fmap ss_id). by rewrite update_first_columns.
      * rewrite find_update_first by done. rewrite decide_True by done. rewrite Hfind.
        eexists. split; [reflexivity|]. done.
  - destruct (sm_core_topic summary) as [ct|]; [|done].
    destruct (sm_key_points summary) as [kp|]; [|done].
    intros [= <- <-]. cbn [session_summaries user_profiles].
    split; [|split; [done|]].
    + intros sid' found Hne [= <-]. rewrite find_app_new. cbn [ss_session_id].
      rewrite decide_False by congruence. do 2 f_equal.
      match goal with |- match ?x with _ => _ end = ?y => change y with x; by destruct x end.
    + intros _. split; [rewrite length_app; simpl; lia|].
      rewrite find_app_new, Hfind. cbn [ss_session_id]. rewrite decide_True by done.
      eexists. split; [reflexivity|]. done.
Qed.

(** X13: one row per session.  From a store in which no two rows share a
    [session_id], an upsert that returns leaves such a store: it adds a row
    only for a session that has none, and an update keeps the session ids
    of all rows. *)
Theorem X13_upsert_keeps_sessions_unique now sid uid summary s id s' :
  NoDup (ss_session_id <$> session_summaries s) ->
  run (upsert_summary now sid uid summary) s = Ok (id, s') ->
  NoDup (ss_session_id <$> session_summaries s').
Proof.
  intros Hnd. rewrite run_upsert_summary.
  destruct (find _ (session_summaries s)) as [old|] eqn:Hfind.
  - destruct (sm_core_topic summary) as [ct|]; [|done].
    destruct (sm_key_points summary) as [kp|]; [|done].
    destruct (sm_resolved_questions summary) as [r|]; [|done].
    destruct (sm_unresolved_questions summary) as [u|]; [|done].
    destruct (sm_weak_points summary) as [w|]; [|done].
    intros [= <- <-]. cbn [session_summaries]. by rewrite update_first_columns.
  - destruct (sm_core_topic summary) as [ct|]; [|done].
    destruct (sm_key_points summary) as [kp|]; [|done].
    intros [= <- <-]. cbn [session_summaries]. rewrite fmap_app. simpl.
    apply NoDup_app. split; [done|]. split; [|apply NoDup_singleton].
    intros x Hx ->%list_elem_of_singleton. by apply find_None_fresh in Hfind.
Qed.

(** X14: when an upsert raises [KeyError].  It does so exactly when the
    session already has a row and the summary lacks one of the five keys
    that the update path subscripts ([core_topic], [key_points],
    [resolved_questions], [unresolved_questions], [weak_points]); the create
    path never raises it. *)
Theorem X14_upsert_key_error now sid uid summary s :
  run (upsert_summary now sid uid summary) s = Raise KeyError
  <-> (exists old, run (get_session_summary sid) s = Ok (Some old, s))
      /\ (sm_core_topic summary = None \/ sm_key_points summary = None
          \/ sm_resolved_questions summary = None
          \/ sm_unresolved_questions summary = None
          \/ sm_weak_points summary = None).
Proof.
  rewrite run_upsert_summary. cbn [run get_session_summary].
  destruct (find _ (session_summaries s)) as [old|] eqn:Hfind.
  - assert (Hold : exists old', Ok (Some old, s) = Ok (Some old', s)) by eauto.
    destruct (sm_core_topic summary) as [ct|];
      [|split; [intros _; split; [exact Hold|auto 9]|done]].
    destruct (sm_key_points summary) as [kp|];
      [|split; [intros _; split; [exact Hold|auto 9]|done]].
    destruct (sm_resolved_questions summary) as [r|];
      [|split; [intros _; split; [exact Hold|auto 9]|done]].
    destruct (sm_unresolved_questions summary) as [u|];
      [|split; [intros _; split; [exact Hold|auto 9]|done]].
    destruct (sm_weak_points summary) as [w|];
      [|split; [intros _; split; [exact Hold|auto 9]|done]].
    split; [done|]. intros [_ [?|[?|[?|[?|?]]]]]; done.
  - assert (Hnew : ~ exists old', @Ok (option SessionSummary * Store) (None, s)
                                  = Ok (Some old', s))
      by (intros [old' [=]]).
    destruct (sm_core_topic summary) as [ct|]; [|split; [done|by intros [? _]]].
    destruct (sm_key_points summary) as [kp|]; split; try done; by intros [? _].
Qed.

End UpsertFacts.

(** X11 on a store without rows: the summary of session "s1" is stored
    under id 1. *)
Lemma X11_upsert_then_lookup_witness :
  run (Summarizer.upsert_summary 1709251200 "s1" "u1" parsed_summary) no_store
  = Ok (1, mkStore ∅
             [mkSessionSummary 1 "s1" "u1" "recursion" ["base case first"] ["what is it"] []
                [mkWeakPoint "recursion" (Some 70) None None None] 0
                (Some 1709251200) (Some 1709251200)])
  /\ exists row,
       run (get_session_summary "s1")
         (mkStore ∅
            [mkSessionSummary 1 "s1" "u1" "recursion" ["base case first"] ["what is it"] []
               [mkWeakPoint "recursion" (Some 70) None None None] 0
               (Some 1709251200) (Some 1709251200)])
       = Ok (Some row,
             mkStore ∅
               [mkSessionSummary 1 "s1" "u1" "recursion" ["base case first"] ["what is it"] []
                  [mkWeakPoint "recursion" (Some 70) None None None] 0
                  (Some 1709251200) (Some 1709251200)])
       /\ ss_id row = 1
       /\ ss_core_topic row = "recursion".
Proof.
  assert (Hrun : run (Summarizer.upsert_summary 1709251200 "s1" "u1" parsed_summary) no_store
                 = Ok (1, mkStore ∅
                            [mkSessionSummary 1 "s1" "u1" "recursion" ["base case first"]
                               ["what is it"] []
                               [mkWeakPoint "recursion" (Some 70) None None None] 0
                               (Some 1709251200) (Some 1709251200)])) by reflexivity.
  split; [exact Hrun|].
  destruct (X11_upsert_then_lookup _ _ _ _ _ _ _ Hrun)
    as (row & Hrow & Hid & _ & Hct & _).
  exists row. split; [exact Hrow|]. split; [exact Hid|].
  simpl in Hct. by injection Hct as <-.
Defined.

(** X12 on a store that holds the row of session "s1" with its eight
    messages: summarising the session again, as another user, keeps the id,
    the user and the message count of the row. *)
Lemma X12_upsert_frame_witness :
  exists s',
    run (Summarizer.upsert_summary 2000 "s1" "u2" parsed_summary) one_summary = Ok (1, s')
    /\ run (get_session_summary "s1") one_summary = Ok (Some a_row, one_summary)
    /\ length (session_summaries s') = length (session_summaries one_summary)
    /\ exists row,
         run (get_session_summary "s1") s' = Ok (Some row, s')
         /\ ss_user_id row = "u1"
         /\ ss_message_count row = 8.
Proof.
  eexists. split; [reflexivity|].
  assert (Hold : run (get_session_summary "s1") one_summary = Ok (Some a_row, one_summary))
    by reflexivity.
  split; [exact Hold|].
  destruct (proj1 (proj2 (X12_upsert_frame 2000 "s1" "u2" parsed_summary one_summary 1 _
                            eq_refl)) a_row Hold)
    as (_ & Hlen & row & Hrow & Huser & Hcount & _).
  split; [exact Hlen|]. exists row. split; [exact Hrow|]. split; [exact Huser|exact Hcount].
Defined.

(** X13 on the store that holds the row of session "s1", for a summary of
    session "s2". *)
Lemma X13_upsert_keeps_sessions_unique_witness :
  NoDup (ss_session_id <$> session_summaries one_summary)
  /\ exists id s',
       run (Summarizer.upsert_summary 2000 "s2" "u1" parsed_summary) one_summary = Ok (id, s')
       /\ NoDup (ss_session_id <$> session_summaries s').
Proof.
  assert (Hnd : NoDup (ss_session_id <$> session_summaries one_summary))
    by apply NoDup_singleton.
  split; [exact Hnd|]. eexists _, _. split; [reflexivity|].
  exact (X13_upsert_keeps_sessions_unique 2000 "s2" "u1" parsed_summary one_summary _ _
           Hnd eq_refl).
Defined.

(** *** The summaries of the lookback window *)

Section WindowFacts.

Lemma insert_newest_perm row rows : insert_newest row rows ≡ₚ row :: rows.
Proof.
  induction rows as [|r rows IH]; simpl; [done|].
  case_match; [done|]. rewrite IH. apply Permutation_swap.
Qed.

Lemma newest_first_perm rows : foldr insert_newest [] rows ≡ₚ rows.
Proof.
  induction rows as [|r rows IH]; simpl; [done|].
  by rewrite insert_newest_perm, IH.
Qed.

Lemma insert_newest_sorted row rows :
  Sorted (fun a b => default 0 (ss_created_at b) <= default 0 (ss_created_at a)) rows ->
  Sorted (fun a b => default 0 (ss_created_at b) <= default 0 (ss_created_at a))
    (insert_newest row rows).
Proof.
  induction 1 as [|r rows Hrows IH Hhd]; simpl.
  - repeat constructor.
  - destruct (Z.leb_spec (default 0 (ss_created_at r)) (default 0 (ss_created_at row))).
    + repeat constructor; done.
    + constructor; [done|].
      destruct Hhd as [|r' rows' Hr']; simpl.
      * constructor. lia.
      * destruct (Z.leb_spec (default 0 (ss_created_at r')) (default 0 (ss_created_at row)));
          constructor; lia.
Qed.

Lemma newest_first_sorted rows :
  StronglySorted (fun a b => default 0 (ss_created_at b) <= default 0 (ss_created_at a))
    (foldr insert_newest [] rows).
Proof.
  apply Sorted.Sorted_StronglySorted.
  - intros a b c Hab Hbc. lia.
  - induction rows as [|r rows IH]; simpl; [constructor|]. by apply insert_newest_sorted.
Qed.

Lemma in_window_spec now uid days (limit : nat) rows row :
  row ∈ summaries_in_window now uid days limit rows ->
  row ∈ rows /\ ss_user_id row = uid
  /\ exists t, ss_created_at row = Some t /\ now - days * 86400 <= t.
Proof.
  unfold summaries_in_window. intros Hin%elem_of_take.
  destruct Hin as (i & Hi & _).
  assert (Hrow : row ∈ foldr insert_newest []
                   (filter (fun row : SessionSummary =>
                      bool_decide (ss_user_id row = uid)
                      && (if ss_created_at row is Some t then now - days * 86400 <=? t
                          else false)) rows))
    by (apply list_elem_of_lookup; eauto).
  rewrite newest_first_perm in Hrow. apply list_elem_of_filter in Hrow as [Hp Hrow].
  split; [done|]. apply andb_prop_elim in Hp as [Hu Ht].
  apply bool_decide_unpack in Hu. split; [done|].
  destruct (ss_created_at row) as [t|]; [|done].
  exists t. split; [done|]. apply Is_true_eq_true in Ht. lia.
Qed.

(** X15: what the list of recent sessions contains.  The listing always
    returns and leaves the store as it is; its [count] is the number of
    sessions listed, which is at most [limit]; every listed row is a stored
    row of the user, created at or after the cutoff of [days] days before
    now; and the rows are listed from the newest to the oldest. *)
Theorem X15_recent_sessions_sound now uid days limit s :
  exists reply,
    run (Api.list_user_sessions now uid days limit) s = Ok (reply, s)
    /\ Api.sl_count reply = Z.of_nat (length (Api.sl_sessions reply))
    /\ (length (Api.sl_sessions reply) <= limit)%nat
    /\ (forall row, row ∈ Api.sl_sessions reply ->
          row ∈ session_summaries s /\ ss_user_id row = uid
          /\ exists t, ss_created_at row = Some t /\ now - days * 86400 <= t)
    /\ StronglySorted
         (fun a b => default 0 (ss_created_at b) <= default 0 (ss_created_at a))
         (Api.sl_sessions reply).
Proof.
  eexists. split; [reflexivity|]. simpl. split; [done|]. split; [|split].
  - unfold summaries_in_window. rewrite length_take. lia.
  - apply in_window_spec.
  - unfold summaries_in_window.
    match goal with |- StronglySorted _ (take _ ?l) =>
      pose proof (newest_first_sorted
                    (filter (fun row : SessionSummary =>
                       bool_decide (ss_user_id row = uid)
                       && (if ss_created_at row is Some t then now - days * 86400 <=? t
                           else false)) (session_summaries s))) as Hs;
      rewrite <- (take_drop limit l) in Hs
    end.
    by apply StronglySorted_app_1_l in Hs.
Qed.

(** X16: the lookback query returns the newest rows of the window.  A
    stored row of the user that was created at or after the cutoff is among
    the rows returned, unless [limit] rows are returned and each of them is
    at least as new. *)
Theorem X16_recent_sessions_complete now uid days limit s row t :
  row ∈ session_summaries s -> ss_user_id row = uid ->
  ss_created_at row = Some t -> now - days * 86400 <= t ->
  exists returned,
    run (get_user_session_summaries now uid days limit) s = Ok (returned, s)
    /\ (row ∈ returned
        \/ (length returned = limit
            /\ forall r, r ∈ returned ->
                 default 0 (ss_created_at row) <= default 0 (ss_created_at r))).
Proof.
  intros Hrow Huid Ht Hcut. eexists. split; [reflexivity|].
  unfold summaries_in_window.
  match goal with |- context [take limit ?l] => set (sorted := l) end.
  assert (Hin : row ∈ sorted).
  { subst sorted. rewrite newest_first_perm. apply list_elem_of_filter. split; [|done].
    rewrite Huid, Ht. apply andb_prop_intro. split.
    - by apply bool_decide_pack.
    - apply Is_true_eq_left. by apply Z.leb_le. }
  assert (Hs : StronglySorted
                 (fun a b => default 0 (ss_created_at b) <= default 0 (ss_created_at a))
                 (take limit sorted ++ drop limit sorted))
    by (rewrite take_drop; apply newest_first_sorted).
  rewrite <- (take_drop limit sorted) in Hin. apply elem_of_app in Hin as [Hin|Hin].
  - by left.
  - right. split.
    + apply length_take_le. destruct (decide (limit <= length sorted)%nat); [done|].
      rewrite drop_ge in Hin by lia. by apply elem_of_nil in Hin.
    + intros r Hr. exact (StronglySorted_app_1_elem_of _ _ _ _ _ Hs Hr Hin).
Qed.

End WindowFacts.

(** X16 on the store that holds one row of "u1", created at 1000, for a
    window of seven days before 2000. *)
Lemma X16_recent_sessions_complete_witness :
  a_row ∈ session_summaries one_summary
  /\ ss_user_id a_row = "u1"
  /\ ss_created_at a_row = Some 1000
  /\ 2000 - 7 * 86400 <= 1000
  /\ exists returned,
       run (get_user_session_summaries 2000 "u1" 7 20) one_summary
       = Ok (returned, one_summary)
       /\ (a_row ∈ returned
           \/ (length returned = 20%nat
               /\ forall r, r ∈ returned ->
                    default 0 (ss_created_at a_row) <= default 0 (ss_created_at r))).
Proof.
  assert (Hin : a_row ∈ session_summaries one_summary) by (simpl; constructor).
  assert (Hcut : 2000 - 7 * 86400 <= 1000) by lia.
  split; [exact Hin|]. split; [reflexivity|]. split; [reflexivity|]. split; [exact Hcut|].
  exact (X16_recent_sessions_complete 2000 "u1" 7 20 one_summary a_row 1000 Hin eq_refl
           eq_refl Hcut).
Defined.

(** *** Profiles: creation, preference updates, full updates *)

Section ProfileMore.
Context {clock : Clock}.

(** X17: the lazy creation paths agree.  [get_or_create_profile] of
    database.py, the opening lines of the update functions of crud.py
    ([get_user_profile], then [create_user_profile]), [get_profile] of the
    profile agent and [GET /profiles/{user_id}] return the same profile and
    leave the same store: the stored profile of the user, else a new one
    with the same defaults.  The flag tells whether the profile was created;
    a second call returns the profile with the flag off and the store
    unchanged; other users are not touched. *)
Theorem X17_lazy_creation_paths_agree uid s :
  exists p s',
    run (Database.get_or_create_profile uid) s
    = Ok ((p, bool_decide (user_profiles s !! uid = None)), s')
    /\ run (get_or_new uid) s = Ok (p, s')
    /\ run (Profile.get_profile uid) s = Ok (p, s')
    /\ run (Api.get_profile uid) s = Ok (p, s')
    /\ run (Database.get_or_create_profile uid) s' = Ok ((p, false), s')
    /\ user_profiles s' !! uid = Some p
    /\ (forall uid', uid' <> uid -> user_profiles s' !! uid' = user_profiles s !! uid')
    /\ (user_profiles s !! uid = None ->
        p = mkUserProfile default_preferences default_statistics ∅ [] [] None).
Proof.
  unfold Profile.get_profile, Api.get_profile, get_or_new, create_user_profile.
  rewrite !run_bind. unfold Database.get_or_create_profile. cbn [run get_user_profile].
  destruct (user_profiles s !! uid) as [p|] eqn:Hp.
  - exists p, s. cbn [run]. rewrite Hp. done.
  - repeat (rewrite ?run_bind; cbn [run flush_profile]; rewrite ?Hp).
    eexists _, _. split; [reflexivity|]. split; [reflexivity|]. split; [reflexivity|].
    split; [reflexivity|]. cbn [user_profiles]. rewrite lookup_insert_eq.
    split; [reflexivity|]. split; [done|]. split; [|done].
    intros uid' Hne. by rewrite lookup_insert_ne.
Qed.

(** X18: updating preferences and reading them back.  An explicit
    preference update always returns; the profile it returns is the one
    [get_user_profile] finds afterwards; every key of the delta reads back
    with the value of the delta and every other key with its old value (the
    default for a new user), so no key is ever removed; the statistics, the
    graph and the weak points stay; and a second update composes with the
    first as one update by the union of the deltas, the later one winning. *)
Theorem X18_preference_update_round_trip now uid delta s :
  exists p s',
    run (Profile.update_preferences now uid delta) s = Ok (p, s')
    /\ run (get_user_profile uid) s' = Ok (Some p, s')
    /\ (forall k v, delta !! k = Some v -> preferences p !! k = Some v)
    /\ (forall k, delta !! k = None ->
          preferences p !! k = preferences (current uid s) !! k)
    /\ statistics p = statistics (current uid s)
    /\ knowledge_graph p = knowledge_graph (current uid s)
    /\ weak_points p = weak_points (current uid s)
    /\ (forall now' delta',
          exists q s'',
            run (Profile.update_preferences now' uid delta') s' = Ok (q, s'')
            /\ preferences q = (delta' ∪ delta) ∪ preferences (current uid s)).
Proof.
  unfold Profile.update_preferences. eexists _, _.
  split; [apply run_update_profile_preferences|].
  split; [cbn [run get_user_profile put user_profiles]; by rewrite lookup_insert_eq|].
  cbn [preferences set_updated_at set_preferences]. split; [|split].
  - intros k v Hk. by apply lookup_union_Some_l.
  - intros k Hk. by apply lookup_union_r.
  - split; [done|]. split; [done|]. split; [done|].
    intros now' delta'. eexists _, _. split; [apply run_update_profile_preferences|].
    rewrite current_put. cbn [preferences set_updated_at set_preferences].
    by rewrite (assoc_L (∪)).
Qed.

(** X19: the full profile update replaces, and never creates.  For a
    user without a profile [update_user_profile] returns [None] and leaves
    the store as it is.  For a stored profile, a request that carries
    preferences assigns their dump as the new preference dict, which has
    exactly the six keys of the schema whatever keys were stored before; a
    request without them keeps the stored preferences; the interests are
    replaced when the request carries some; statistics, graph and weak
    points stay, and the time of the update is stamped. *)
Theorem X19_full_update_replaces_preferences now uid update_data s :
  match user_profiles s !! uid with
  | None => run (update_user_profile now uid update_data) s = Ok (None, s)
  | Some p =>
      exists p',
        run (update_user_profile now uid update_data) s = Ok (Some p', put uid p' s)
        /\ (forall prefs, Schemas.upd_preferences update_data = Some prefs ->
              preferences p' = Schemas.model_dump prefs
              /\ dom (preferences p')
                 = list_to_set ["learning_style"; "difficulty_preference"; "language";
                                "include_code"; "include_math"; "response_format"])
        /\ (Schemas.upd_preferences update_data = None -> preferences p' = preferences p)
        /\ interests p' = default (interests p) (Schemas.upd_interests update_data)
        /\ statistics p' = statistics p
        /\ knowledge_graph p' = knowledge_graph p
        /\ weak_points p' = weak_points p
        /\ updated_at p' = Some now
  end.
Proof.
  unfold update_user_profile. rewrite run_bind. cbn [run get_user_profile].
  destruct (user_profiles s !! uid) as [p|] eqn:Hp; [|done].
  eexists. split; [reflexivity|].
  split; [|split; [|split; [|split; [|split; [|split]]]]].
  - intros prefs ->. destruct (Schemas.upd_interests update_data); simpl.
    all: split; [done|].
    all: unfold Schemas.model_dump; rewrite !dom_insert_L, dom_empty_L; set_solver.
  - intros ->. by destruct (Schemas.upd_interests update_data).
  - by destruct (Schemas.upd_preferences update_data), (Schemas.upd_interests update_data).
  - by destruct (Schemas.upd_preferences update_data), (Schemas.upd_interests update_data).
  - by destruct (Schemas.upd_preferences update_data), (Schemas.upd_interests update_data).
  - by destruct (Schemas.upd_preferences update_data), (Schemas.upd_interests update_data).
  - done.
Qed.

End ProfileMore.

(** *** Profile agent: a confidence that is no number *)

Section InferenceErrors.
Import Profile.
Context {clock : Clock} {pystr : PyStr} {agent : BaseAgent}
  {json : Json (gmap string pval)}.

(** X20: what the confidence gate does with a guess that is not a dict
    with a numeric confidence.  A response that parses to a JSON value other
    than an object makes the pass raise [AttributeError]; a confidence that
    is [null] or a string makes it raise [TypeError]; in both cases nothing
    of the unit of work is kept, the lazily created profile included.  A
    boolean confidence is compared as 1 or 0: [true] overwrites the stored
    preferences with the guess, [false] leaves them. *)
Theorem X20_inference_type_errors now uid messages update_statistics s :
  (fst (_infer_preferences messages) = JOther ->
   fst (process now uid messages update_statistics s) = Raise AttributeError)
  /\ (forall prefs, fst (_infer_preferences messages) = JObject prefs ->
        (prefs !! "confidence" = Some PNull
         \/ exists t, prefs !! "confidence" = Some (PStr t)) ->
        fst (process now uid messages update_statistics s) = Raise TypeError)
  /\ (forall prefs b, fst (_infer_preferences messages) = JObject prefs ->
        prefs !! "confidence" = Some (PBool b) ->
        exists answer s',
          fst (process now uid messages update_statistics s) = Ok (answer, s')
          /\ preferences (profile answer)
             = if b then prefs ∪ preferences (current uid s) else preferences (current uid s)).
Proof.
  split; [|split].
  - intros Hdoc. rewrite inference_unfold, Hdoc, run_consolidate. done.
  - intros prefs Hdoc Hc. rewrite inference_unfold, Hdoc, run_consolidate. simpl.
    destruct Hc as [->|[t ->]]; done.
  - intros prefs b Hdoc Hc. rewrite inference_unfold, Hdoc, run_consolidate. simpl.
    rewrite Hc. destruct b; eexists _, _; (split; [reflexivity|done]).
Qed.

End InferenceErrors.

(** X20 for a language model whose answer parses to a JSON list, and for
    one whose guess carries the confidence "high". *)
Lemma X20_inference_type_errors_witness :
  fst (Profile.process (pystr := ascii_str) (agent := llm_replying "[]")
         (json := json_reading (Ok JOther)) 1709251200 "u1" two_turns true no_store)
  = Raise AttributeError
  /\ fst (Profile.process (pystr := ascii_str) (agent := llm_replying "{}")
            (json := json_reading (Ok (JObject worded_guess)))
            1709251200 "u1" two_turns true no_store)
     = Raise TypeError.
Proof.
  split.
  - exact (proj1 (X20_inference_type_errors (pystr := ascii_str) (agent := llm_replying "[]")
                    (json := json_reading (Ok JOther)) 1709251200 "u1" two_turns true
                    no_store) eq_refl).
  - exact (proj1 (proj2 (X20_inference_type_errors (pystr := ascii_str)
                           (agent := llm_replying "{}")
                           (json := json_reading (Ok (JObject worded_guess)))
                           1709251200 "u1" two_turns true no_store))
             worded_guess eq_refl (or_intror (ex_intro _ "high" eq_refl))).
Defined.

(** *** Retrieval: the profile-only context *)

Section BasicContext.
Import Retrieval.
Variable str_of_num : Q -> string.

(** X21: the profile-only context always describes a learner.  Whatever
    the profile, the text starts with the heading and the line of the
    learning style, so the answer for new users ("新用户，暂无画像信息") is
    never given; for a user without a profile the text is the heading with
    the default style and the default difficulty. *)
Theorem X21_basic_context_always_describes profile :
  (exists rest,
     _get_basic_context str_of_num profile
     = "## 用户画像" +:+ NL +:+ "- 学习风格：" +:+ rest)
  /\ _get_basic_context str_of_num profile <> "新用户，暂无画像信息"
  /\ _get_basic_context str_of_num None
     = "## 用户画像" +:+ NL +:+ "- 学习风格：文字型学习者（偏好文字解释）"
       +:+ NL +:+ "- 难度偏好：中级".
Proof.
  assert (Hshape : exists rest,
            _get_basic_context str_of_num profile
            = "## 用户画像" +:+ NL +:+ "- 学习风格：" +:+ rest).
  { unfold _get_basic_context. cbv zeta.
    eexists. cbn [app join append NL]. reflexivity. }
  split; [exact Hshape|]. split.
  - destruct Hshape as [rest ->]. discriminate.
  - vm_compute. reflexivity.
Qed.

End BasicContext.

(** *** The statistics endpoint *)

Section StatsFacts.
Import Api.

Lemma ge_score_strongly (l : list WeakPoint) : Sorted ge_score l -> StronglySorted ge_score l.
Proof.
  apply Sorted.Sorted_StronglySorted. intros a b c. unfold ge_score. lia.
Qed.

(** X22: the counts of [GET /stats/{user_id}].  For a user without a
    profile the answer is the three zero counters and no profile is created.
    Otherwise the store stays as it is and the answer carries the stored
    statistics, at most 100 recent sessions, the number of weak points and
    the first five of them, the number of concepts of the graph, and a
    number of mastered concepts between 0 and that number.  When the weak
    points are stored in descending order, as [update_weak_points] leaves
    them, no weak point beyond the five has a higher score than one of the
    five. *)
Theorem X22_user_stats_counts now uid s :
  match user_profiles s !! uid with
  | None => run (get_user_stats now uid) s = Ok (NoProfile 0 0 0, s)
  | Some p =>
      exists stats,
        run (get_user_stats now uid) s = Ok (ProfileStats stats, s)
        /\ us_statistics stats = statistics p
        /\ 0 <= recent_sessions_30d stats <= 100
        /\ weak_points_count stats = Z.of_nat (length (weak_points p))
        /\ top_weak_points stats = take 5 (weak_points p)
        /\ knowledge_points_count stats = Z.of_nat (size (knowledge_graph p))
        /\ 0 <= mastered_points_count stats <= knowledge_points_count stats
        /\ (Sorted ge_score (weak_points p) ->
            forall a i b, a ∈ top_weak_points stats -> weak_points p !! i = Some b ->
                          (5 <= i)%nat -> get_score b <= get_score a)
  end.
Proof.
  unfold get_user_stats. rewrite run_bind. cbn [run get_user_profile].
  destruct (user_profiles s !! uid) as [p|] eqn:Hp; [|done].
  eexists. split; [reflexivity|]. cbn [us_statistics recent_sessions_30d weak_points_count
    top_weak_points knowledge_points_count mastered_points_count].
  split; [done|]. split.
  { unfold summaries_in_window. rewrite length_take. lia. }
  split; [done|]. split; [done|]. split; [done|]. split.
  { split; [lia|]. apply inj_le. etransitivity; [apply List.filter_length_le|].
    rewrite length_fmap. by rewrite length_map_to_list. }
  intros Hsorted a i b Ha Hb Hi.
  apply ge_score_strongly in Hsorted.
  rewrite <- (take_drop 5 (weak_points p)) in Hsorted.
  apply (StronglySorted_app_1_elem_of _ _ _ _ _ Hsorted Ha).
  apply list_elem_of_lookup. exists (i - 5)%nat. rewrite lookup_drop.
  by replace (5 + (i - 5))%nat with i by lia.
Qed.

End StatsFacts.

(** *** What one consolidation leaves in the store *)

Section StepFacts.
Context {clock : Clock}.

Lemma relates_ret {A} (R : relation Store) `{!Reflexive R} (a : A) : relates R (mret a).
Proof. intros s a' s' [= <- <-]. reflexivity. Qed.

Lemma relates_bind {A B} (R : relation Store) `{!Transitive R} (m : DB A) (f : A -> DB B) :
  relates R m -> (forall a, relates R (f a)) -> relates R (m ≫= f).
Proof.
  intros Hm Hf s b s'. rewrite run_bind.
  destruct (run m s) as [[a s1]|e] eqn:Hrun; [|done].
  intros Hrun2. etransitivity; [by eapply Hm|by eapply Hf].
Qed.

Lemma relates_for_each {B} (R : relation Store) `{!PreOrder R} (body : B -> DB unit) xs :
  (forall x, relates R (body x)) -> relates R (for_each_db body xs).
Proof.
  intros Hbody. induction xs as [|x xs IH]; simpl; [apply relates_ret; apply _|].
  apply relates_bind; [apply _|apply Hbody|intros _; apply IH].
Qed.

#[local] Instance profile_step_preorder uid : PreOrder (profile_step uid).
Proof.
  split.
  - intros s. unfold profile_step. done.
  - intros s1 s2 s3 (H1 & H2 & H3 & H4 & H5) (G1 & G2 & G3 & G4 & G5).
    unfold profile_step. split; [congruence|]. split.
    { intros uid' Hne. rewrite G2, H2; done. }
    split; [auto|]. split; auto.
Qed.

Lemma put_same_graph uid p s :
  knowledge_graph p = knowledge_graph (current uid s) -> profile_step uid s (put uid p s).
Proof.
  intros Hg. unfold profile_step. rewrite current_put, Hg. split; [done|]. split.
  { intros uid' Hne. unfold put. simpl. by rewrite lookup_insert_ne. }
  split; [|done]. intros _. unfold put. simpl. rewrite lookup_insert_eq. by eexists.
Qed.

Lemma put_updated_graph uid p s now c md idelta cd sub top dif :
  knowledge_graph p
  = update_graph now (knowledge_graph (current uid s)) c md idelta cd sub top dif ->
  profile_step uid s (put uid p s).
Proof.
  intros Hg. unfold profile_step. rewrite current_put, Hg. split; [done|]. split.
  { intros uid' Hne. unfold put. simpl. by rewrite lookup_insert_ne. }
  split. { intros _. unfold put. simpl. rewrite lookup_insert_eq. by eexists. }
  split; [|apply update_graph_in_range].
  intros c' Hc'. unfold update_graph. rewrite lookup_insert. by case_decide.
Qed.

Lemma step_update_profile_preferences now uid delta :
  relates (profile_step uid) (update_profile_preferences now uid delta).
Proof.
  intros s a s'. rewrite run_update_profile_preferences. intros [= <- <-].
  by apply put_same_graph.
Qed.

Lemma step_update_weak_points now uid batch :
  relates (profile_step uid) (update_weak_points now uid batch).
Proof.
  intros s a s'. rewrite run_update_weak_points.
  destruct (merge_batch _ _ _); [|done]. intros [= <- <-]. by apply put_same_graph.
Qed.

Lemma step_increment_profile_statistics now uid a b c len :
  relates (profile_step uid) (increment_profile_statistics now uid a b c len).
Proof.
  intros s x s'. rewrite run_increment_profile_statistics.
  destruct (increment_statistics _ _ _ _ _ _); [|done]. intros [= <- <-].
  by apply put_same_graph.
Qed.

Lemma step_update_knowledge_graph now uid c md idelta cd sub top dif :
  relates (profile_step uid) (update_knowledge_graph now uid c md idelta cd sub top dif).
Proof.
  intros s x s'. rewrite run_update_knowledge_graph. intros [= <- <-].
  by eapply put_updated_graph.
Qed.

End StepFacts.

Section ConsolidationMore.
Import Summarizer.
Context {clock : Clock} {pystr : PyStr} {agent : BaseAgent} {json : Json Summary}.
Variable config : SummaryConfig.

#[local] Existing Instance profile_step_preorder.

Lemma step_key_points now uid sub top dif points :
  relates (profile_step uid)
    (for_each_db
       (fun point =>
          _ ← update_knowledge_graph now uid (concept_of_key_point point)
                (Some reinforcement) 1 None sub top dif;
          mret tt)
       points).
Proof.
  apply relates_for_each; [apply _|]. intros point.
  apply relates_bind; [apply _|apply step_update_knowledge_graph|].
  intros _. apply relates_ret; apply _.
Qed.

Lemma step_update_user_profile now uid summary :
  relates (profile_step uid) (_update_user_profile now uid summary).
Proof.
  unfold _update_user_profile.
  apply relates_bind; [apply _| |intros _].
  { destruct (sm_user_preferences summary); [|apply relates_ret; apply _].
    apply relates_bind; [apply _|apply step_update_profile_preferences|].
    intros _. apply relates_ret; apply _. }
  apply relates_bind; [apply _| |intros _].
  { destruct (sm_weak_points summary) as [[|wp wps]|]; try (apply relates_ret; apply _).
    apply relates_bind; [apply _|apply step_update_weak_points|].
    intros _. apply relates_ret; apply _. }
  apply relates_bind; [apply _|apply step_increment_profile_statistics|intros _].
  destruct (sm_key_points summary); [|apply relates_ret; apply _].
  apply step_key_points.
Qed.

(** The loop over the key points leaves an entry for each of them. *)
Lemma key_points_tracked now uid sub top dif points : forall s s',
  run (for_each_db
         (fun point =>
            _ ← update_knowledge_graph now uid (concept_of_key_point point)
                  (Some reinforcement) 1 None sub top dif;
            mret tt)
         points) s = Ok (tt, s') ->
  forall point, point ∈ points ->
    is_Some (knowledge_graph (current uid s') !! concept_of_key_point point).
Proof.
  induction points as [|pt points IH]; intros s s' Hrun point Hin;
    [by apply elem_of_nil in Hin|].
  cbn [for_each_db] in Hrun. rewrite !run_bind, run_update_knowledge_graph in Hrun.
  cbn [run mret DB_ret] in Hrun.
  match type of Hrun with run _ ?x = _ => set (s1 := x) in * end.
  apply elem_of_cons in Hin as [->|Hin]; [|by eapply IH].
  destruct (step_key_points now uid sub top dif points _ _ _ Hrun)
    as (_ & _ & _ & Hkeys & _).
  apply Hkeys.
  subst s1. rewrite current_put. simpl. unfold update_graph. rewrite lookup_insert_eq.
  by eexists.
Qed.

(** The statistics step of the profile update stores a profile for the
    user, and no later step removes it. *)
Lemma update_user_profile_creates now uid summary s s' :
  run (_update_user_profile now uid summary) s = Ok (tt, s') ->
  is_Some (user_profiles s' !! uid).
Proof.
  intros Hrun.
  unfold _update_user_profile in Hrun. rewrite run_bind in Hrun.
  destruct (run _ s) as [[[] s1]|] eqn:H1 in Hrun; [|done].
  rewrite run_bind in Hrun.
  destruct (run _ s1) as [[[] s2]|] eqn:H2 in Hrun; [|done].
  rewrite run_bind, run_increment_profile_statistics in Hrun.
  destruct (increment_statistics _ _ _ _ _ _) as [st|] in Hrun; [|done].
  match type of Hrun with run _ ?x = _ => set (s3 := x) in * end.
  assert (Hlast : profile_step uid s3 s').
  { revert Hrun. destruct (sm_key_points summary) as [points|].
    - apply step_key_points.
    - apply relates_ret; apply _. }
  destruct Hlast as (_ & _ & Hsome & _). apply Hsome.
  subst s3. unfold put. simpl. rewrite lookup_insert_eq. by eexists.
Qed.

(** X23: what a consolidation that returns has done.  When [process]
    answers with a stored summary, the trigger policy held, exactly one
    request went to the language model, the summary counts the turns of the
    conversation, [get_session_summary] finds the row of the session under
    the returned id with the topic and key points of the summary, the user
    has a profile, and the profiles of other users are as before. *)
Theorem X23_consolidation_stores_row now sid uid messages force s summary_id summary s'
    calls :
  process config now sid uid messages force s
  = (Ok (Summarized summary_id summary, s'), calls) ->
  _should_trigger_summary config messages force = true
  /\ calls = [summarize_request messages]
  /\ sm_message_count summary = Some (Z.of_nat (length messages))
  /\ (exists row,
        run (get_session_summary sid) s' = Ok (Some row, s')
        /\ ss_id row = summary_id
        /\ sm_core_topic summary = Some (ss_core_topic row)
        /\ sm_key_points summary = Some (ss_key_points row))
  /\ is_Some (user_profiles s' !! uid)
  /\ (forall uid', uid' <> uid -> user_profiles s' !! uid' = user_profiles s !! uid').
Proof.
  unfold process.
  destruct (_should_trigger_summary config messages force) eqn:Htrig; cbn [negb]; [|done].
  destruct (_generate_summary config sid uid messages) as [generated calls'] eqn:Hgen.
  intros Hpair. pose proof (f_equal fst Hpair) as Hrun.
  pose proof (f_equal snd Hpair) as Hcalls. cbn [fst snd] in Hrun, Hcalls. subst calls'.
  clear Hpair.
  destruct generated as [summary_data|e]; [|done]. cbn [mbind result_bind] in Hrun.
  rewrite run_bind in Hrun.
  destruct (run (upsert_summary now sid uid summary_data) s) as [[id s1]|e1] eqn:Hup;
    [|done].
  rewrite run_bind in Hrun.
  destruct (run (_update_user_profile now uid summary_data) s1) as [[[] s2]|e2] eqn:Hprof;
    [|done].
  cbn [run mret DB_ret] in Hrun. injection Hrun as <- <- <-.
  split; [done|]. split.
  { unfold _generate_summary in Hgen. by injection Hgen as _ <-. }
  split.
  { apply (generate_summary_counts config sid uid). by rewrite Hgen. }
  destruct (step_update_user_profile now uid summary_data _ _ _ Hprof)
    as (Hrows & Hothers & _).
  pose proof (update_user_profile_creates now uid summary_data s1 s2 Hprof) as Hsome.
  destruct (upsert_row_found now sid uid summary_data s id s1 Hup)
    as (Hprofiles & row & Hrow & Hid & Hct & Hkp).
  split; [|split; [done|]].
  - exists row. cbn [run get_session_summary]. rewrite Hrows, Hrow. done.
  - intros uid' Hne. rewrite Hothers by done. by rewrite Hprofiles.
Qed.

(** X24: what the profile update of a consolidation does to the knowledge
    graph and to the rest of the store.  Whenever [_update_user_profile]
    returns, every key point of the summary has an entry in the graph of the
    user under its derived concept, no concept that had an entry has lost
    it, a graph within the bounds of the data model is still within them,
    the session summaries are untouched, the user has a profile, and the
    profiles of other users are as before. *)
Theorem X24_key_points_enter_graph now uid summary s s' :
  run (_update_user_profile now uid summary) s = Ok (tt, s') ->
  (forall point, point ∈ default [] (sm_key_points summary) ->
     is_Some (knowledge_graph (current uid s') !! concept_of_key_point point))
  /\ (forall c, is_Some (knowledge_graph (current uid s) !! c) ->
                is_Some (knowledge_graph (current uid s') !! c))
  /\ (graph_in_range (knowledge_graph (current uid s)) ->
      graph_in_range (knowledge_graph (current uid s')))
  /\ session_summaries s' = session_summaries s
  /\ is_Some (user_profiles s' !! uid)
  /\ (forall uid', uid' <> uid -> user_profiles s' !! uid' = user_profiles s !! uid').
Proof.
  intros Hrun.
  destruct (step_update_user_profile now uid summary _ _ _ Hrun)
    as (Hrows & Hothers & _ & Hkeys & Hrange).
  split; [|split; [done|split; [done|split; [done|split; [|done]]]]].
  - unfold _update_user_profile in Hrun. rewrite run_bind in Hrun.
    destruct (run _ s) as [[[] s1]|] eqn:H1 in Hrun; [|done].
    rewrite run_bind in Hrun.
    destruct (run _ s1) as [[[] s2]|] eqn:H2 in Hrun; [|done].
    rewrite run_bind, run_increment_profile_statistics in Hrun.
    destruct (increment_statistics _ _ _ _ _ _) as [st|] in Hrun; [|done].
    destruct (sm_key_points summary) as [points|]; simpl.
    + by eapply key_points_tracked.
    + intros point Hin. by apply elem_of_nil in Hin.
  - by eapply update_user_profile_creates.
Qed.

End ConsolidationMore.

(** X23 for a new user and a conversation of eight turns with three
    rounds configured: the summary is stored under id 1. *)
Lemma X23_consolidation_stores_row_witness :
  exists summary s' calls,
    Summarizer.process (clock := epoch_clock) (pystr := ascii_str)
      (agent := llm_replying "{}") (json := json_reading (Ok (JObject parsed_summary)))
      three_rounds 1709251200 "s1" "u1" (short_turns 8) false no_store
    = (Ok (Summarizer.Summarized 1 summary, s'), calls)
    /\ Summarizer.sm_message_count summary = Some 8
    /\ (exists row,
          run (get_session_summary "s1") s' = Ok (Some row, s') /\ ss_id row = 1)
    /\ is_Some (user_profiles s' !! "u1").
Proof.
  eexists _, _, _. split; [reflexivity|].
  match goal with
  | |- Summarizer.sm_message_count ?summary = _ /\ (exists row, run _ ?s' = _ /\ _) /\ _ =>
      destruct (X23_consolidation_stores_row (clock := epoch_clock) (pystr := ascii_str)
                  (agent := llm_replying "{}")
                  (json := json_reading (Ok (JObject parsed_summary)))
                  three_rounds 1709251200 "s1" "u1" (short_turns 8) false no_store 1
                  summary s' _ eq_refl)
        as (_ & _ & Hcount & (row & Hrow & Hid & _) & Hsome & _)
  end.
  split; [exact Hcount|]. split; [|exact Hsome].
  exists row. split; [exact Hrow|exact Hid].
Defined.

(** X24 on the stored user of two sessions and a summary with the key
    point "base case first". *)
Lemma X24_key_points_enter_graph_witness :
  exists s',
    run (Summarizer._update_user_profile (clock := epoch_clock) (pystr := ascii_str)
           1709251200 "u1" parsed_summary) one_user = Ok (tt, s')
    /\ is_Some (knowledge_graph (current "u1" s') !! "base case first")
    /\ session_summaries s' = session_summaries one_user.
Proof.
  eexists. split; [reflexivity|].
  match goal with
  | |- is_Some (knowledge_graph (current _ ?s') !! _) /\ _ =>
      destruct (X24_key_points_enter_graph (clock := epoch_clock) (pystr := ascii_str)
                  1709251200 "u1" parsed_summary one_user s' eq_refl)
        as (Hpoints & _ & _ & Hrows & _)
  end.
  split; [|exact Hrows].
  apply (Hpoints "base case first"). simpl. constructor.
Defined.

(** *** The chat endpoints that call the summarizer *)

Section ChatFacts.
Import Summarizer Chat.
Context {clock : Clock} {pystr : PyStr} {agent : BaseAgent} {json : Json Summary}.
Variable config : SummaryConfig.

(** X25: ending a session always forces the summary.  For a session with
    at least one message and a user id that is neither empty nor
    "default_user", [POST /chat/sessions/{id}/end] sends one request to the
    language model whatever the trigger thresholds are, and answers either
    with the stored summary, having done exactly what a forced run of the
    summarizer does, or with the error of that run, with the store as it
    was; it never answers that the summary was skipped or not triggered. *)
Theorem X25_end_session_forces_summary now messages sid uid s :
  messages <> [] -> uid <> "" -> uid <> "default_user" ->
  exists reply s',
    end_session config now (Some messages) sid (Some uid) s
    = (reply, s', [summarize_request messages])
    /\ ((exists summary_id summary,
           reply = Success (Summarized summary_id summary)
           /\ process config now sid uid messages true s
              = (Ok (Summarized summary_id summary, s'), [summarize_request messages]))
        \/ (exists e,
              reply = ServerError e /\ s' = s
              /\ fst (process config now sid uid messages true s) = Raise e)).
Proof.
  intros Hm Hu Hd. unfold end_session.
  destruct messages as [|m rest]; [done|].
  rewrite !bool_decide_eq_false_2 by done. cbn [orb].
  unfold process. cbn [_should_trigger_summary negb].
  unfold _generate_summary.
  destruct (call_llm _) as [response|e]; [|eexists _, _; split; [reflexivity|]; eauto].
  cbn [mbind result_bind].
  destruct (try_except _ _ _) as [summary|e]; cbn [mbind result_bind];
    [|eexists _, _; split; [reflexivity|]; eauto].
  destruct (run _ s) as [[outcome s']|e] eqn:Hrun;
    [|eexists _, _; split; [reflexivity|]; eauto].
  eexists _, _. split; [reflexivity|]. left.
  rewrite run_bind in Hrun.
  destruct (run (upsert_summary now sid uid summary) s) as [[summary_id s1]|e1]; [|done].
  rewrite run_bind in Hrun.
  destruct (run (_update_user_profile now uid summary) s1) as [[[] s2]|e2]; [|done].
  injection Hrun as <- <-. eauto.
Qed.

(** X26: when the summary on disconnect can have any effect.  The
    background task of the websocket handler changes the store or contacts
    the language model only for a session that was found with at least six
    messages, for a user other than "default_user", and when the trigger
    policy of the summarizer holds without force; it then sends exactly one
    request.  A conversation of fewer than six messages is never
    consolidated on disconnect, whatever its length in characters. *)
Theorem X26_disconnect_summary_guard now session sid uid s s' calls :
  trigger_summary config now session sid uid s = (s', calls) ->
  s' <> s \/ calls <> [] ->
  exists messages,
    session = Some messages
    /\ 6 <= Z.of_nat (length messages)
    /\ uid <> "default_user"
    /\ _should_trigger_summary config messages false = true
    /\ calls = [summarize_request messages].
Proof.
  unfold trigger_summary. destruct session as [messages|]; [|intros [= <- <-] [|]; done].
  destruct messages as [|m rest]; [intros [= <- <-] [|]; done|].
  cbn [orb]. destruct (decide (uid = "default_user")) as [Hd|Hd].
  { rewrite (bool_decide_eq_true_2 _ Hd). intros [= <- <-] [|]; done. }
  rewrite (bool_decide_eq_false_2 _ Hd).
  destruct (Z.ltb_spec (Z.of_nat (length (m :: rest))) 6) as [Hlt|Hge].
  { intros [= <- <-] [|]; done. }
  unfold process.
  destruct (_should_trigger_summary config (m :: rest) false) eqn:Htrig; cbn [negb].
  - unfold _generate_summary. intros [= <- <-] _. exists (m :: rest). done.
  - intros [= <- <-] [|]; done.
Qed.

End ChatFacts.

(** X25 for a conversation of two turns, far below the thresholds, while
    the language model is unreachable: the request is sent and the answer
    is the error, with the store as it was. *)
Lemma X25_end_session_forces_summary_witness :
  two_turns <> []
  /\ "u1" <> ""
  /\ "u1" <> "default_user"
  /\ exists reply s',
       Chat.end_session (clock := epoch_clock) (pystr := ascii_str) (agent := llm_down)
         (json := json_reading (Raise JSONDecodeError))
         Summarizer.default_config 1709251200 (Some two_turns) "s1" (Some "u1") no_store
       = (reply, s',
          [Summarizer.summarize_request (pystr := ascii_str) (agent := llm_down) two_turns])
       /\ ((exists summary_id summary,
              reply = Chat.Success (Summarizer.Summarized summary_id summary)
              /\ Summarizer.process (clock := epoch_clock) (pystr := ascii_str)
                   (agent := llm_down) (json := json_reading (Raise JSONDecodeError))
                   Summarizer.default_config 1709251200 "s1" "u1" two_turns true no_store
                 = (Ok (Summarizer.Summarized summary_id summary, s'),
                    [Summarizer.summarize_request (pystr := ascii_str) (agent := llm_down)
                       two_turns]))
           \/ (exists e,
                 reply = Chat.ServerError e /\ s' = no_store
                 /\ fst (Summarizer.process (clock := epoch_clock) (pystr := ascii_str)
                           (agent := llm_down)
                           (json := json_reading (Raise JSONDecodeError))
                           Summarizer.default_config 1709251200 "s1" "u1" two_turns true
                           no_store)
                    = Raise e)).
Proof.
  assert (Hm : two_turns <> []) by discriminate.
  assert (Hu : "u1" <> "") by discriminate.
  assert (Hd : "u1" <> "default_user") by discriminate.
  split; [exact Hm|]. split; [exact Hu|]. split; [exact Hd|].
  exact (X25_end_session_forces_summary (clock := epoch_clock) (pystr := ascii_str)
           (agent := llm_down) (json := json_reading (Raise JSONDecodeError))
           Summarizer.default_config 1709251200 two_turns "s1" "u1" no_store Hm Hu Hd).
Defined.

(** X26 for a conversation of eight turns with three rounds configured:
    the task contacts the language model, so all the conditions held. *)
Lemma X26_disconnect_summary_guard_witness :
  exists s' calls,
    Chat.trigger_summary (clock := epoch_clock) (pystr := ascii_str)
      (agent := llm_replying "{}") (json := json_reading (Ok (JObject parsed_summary)))
      three_rounds 1709251200 (Some (short_turns 8)) "s1" "u1" no_store
    = (s', calls)
    /\ (s' <> no_store \/ calls <> [])
    /\ exists messages,
         Some (short_turns 8) = Some messages
         /\ 6 <= Z.of_nat (length messages)
         /\ "u1" <> "default_user"
         /\ Summarizer._should_trigger_summary (pystr := ascii_str) three_rounds messages
              false = true
         /\ calls = [Summarizer.summarize_request (pystr := ascii_str)
                       (agent := llm_replying "{}") messages].
Proof.
  eexists _, _. split; [apply surjective_pairing|].
  assert (Heffect :
    fst (Chat.trigger_summary (clock := epoch_clock) (pystr := ascii_str)
           (agent := llm_replying "{}") (json := json_reading (Ok (JObject parsed_summary)))
           three_rounds 1709251200 (Some (short_turns 8)) "s1" "u1" no_store) <> no_store
    \/ snd (Chat.trigger_summary (clock := epoch_clock) (pystr := ascii_str)
              (agent := llm_replying "{}")
              (json := json_reading (Ok (JObject parsed_summary)))
              three_rounds 1709251200 (Some (short_turns 8)) "s1" "u1" no_store) <> []).
  { right. vm_compute. discriminate. }
  split; [exact Heffect|].
  exact (X26_disconnect_summary_guard (clock := epoch_clock) (pystr := ascii_str)
           (agent := llm_replying "{}") (json := json_reading (Ok (JObject parsed_summary)))
           three_rounds 1709251200 (Some (short_turns 8)) "s1" "u1" no_store _ _
           (surjective_pairing _) Heffect).
Defined.

(** *** The time stamp of a consolidated weak point *)

Section StampFacts.
Import Summarizer.
Context {clock : Clock} {pystr : PyStr}.

(** A batch whose observations all carry the key [last_confused] never
    makes the merge read the clock. *)
Lemma merge_batch_stamped now (seen_at : option string) wps batch stored :
  Forall (fun a => last_confused a = Some seen_at) batch ->
  merge_batch now wps batch = Ok stored ->
  forall w, w ∈ stored -> w ∈ wps \/ last_confused w = Some seen_at.
Proof.
  intros Hall. unfold merge_batch.
  destruct (for_each _ _ _) as [merged|e] eqn:Hloop; simpl; [|done].
  intros [= <-] w Hw. rewrite sort_desc_perm in Hw.
  revert w Hw. generalize dependent (existing_weak_points wps). intros existing.
  assert (Hstart : forall w, w ∈ wps -> w ∈ wps \/ last_confused w = Some seen_at)
    by auto.
  revert Hstart. generalize wps at 1 3. intros cur Hcur Hloop.
  revert cur Hcur Hloop.
  induction Hall as [|a batch Ha _ IH]; intros cur Hcur; simpl.
  - by intros [= <-].
  - destruct (merge_one now existing cur a) as [cur'|e] eqn:Hone; simpl; [|done].
    apply IH. intros w Hw. unfold merge_one in Hone.
    destruct (existing !! concept a) as [i|].
    + destruct (cur !! i) as [t|] eqn:Ht; [|injection Hone as <-; auto].
      destruct (get_score t <? get_score a); [|injection Hone as <-; auto].
      destruct (confusion_score a) as [score|]; simpl in Hone; [|done].
      injection Hone as <-.
      apply list_elem_of_lookup in Hw as [j Hj].
      destruct (decide (i = j)) as [<-|Hne].
      * rewrite list_lookup_insert_eq in Hj by (by eapply lookup_lt_Some).
        injection Hj as <-. right. simpl. by rewrite Ha.
      * rewrite list_lookup_insert_ne in Hj by done.
        apply Hcur. apply list_elem_of_lookup. eauto.
    + injection Hone as <-. apply elem_of_app in Hw as [Hw|Hw]; [auto|].
      apply list_elem_of_singleton in Hw as ->. by right.
Qed.

Lemma same_weak_points_preorder uid :
  PreOrder (fun s s' : Store => weak_points (current uid s') = weak_points (current uid s)).
Proof. split; [done|]. intros s1 s2 s3 H1 H2. congruence. Qed.

(** X27: a consolidation never stamps a weak point with the current
    time.  The observations handed to [update_weak_points] always carry the
    key [last_confused], set to the [created_at] of the summary, else to its
    [generated_at], else to [None]; so whenever the profile update of a
    consolidation returns, every stored weak point is either an entry that
    was stored before, untouched, or carries that value as [last_confused]:
    [None] when the summary has neither time, whatever the entry held
    before. *)
Theorem X27_consolidated_weak_points_never_read_the_clock now uid summary s s' :
  run (_update_user_profile now uid summary) s = Ok (tt, s') ->
  forall w, w ∈ weak_points (current uid s') ->
    w ∈ weak_points (current uid s)
    \/ last_confused w = Some (py_or (sm_created_at summary) (sm_generated_at summary)).
Proof.
  pose proof (same_weak_points_preorder uid) as Hpre.
  set (W := fun s s' : Store => weak_points (current uid s') = weak_points (current uid s))
    in *.
  intros Hrun. unfold _update_user_profile in Hrun. rewrite run_bind in Hrun.
  destruct (run _ s) as [[[] s1]|] eqn:H1 in Hrun; [|done].
  assert (Hs1 : W s s1).
  { revert H1. destruct (sm_user_preferences summary) as [prefs|].
    - rewrite run_bind, run_update_profile_preferences. intros [= <-].
      unfold W. by rewrite current_put.
    - by intros [= <-]. }
  rewrite run_bind in Hrun.
  destruct (run _ s1) as [[[] s2]|] eqn:H2 in Hrun; [|done].
  rewrite run_bind, run_increment_profile_statistics in Hrun.
  destruct (increment_statistics _ _ _ _ _ _) as [st|] in Hrun; [|done].
  match type of Hrun with run _ ?x = _ => set (s3 := x) in * end.
  assert (Hs3 : W s2 s3) by (subst s3; unfold W; by rewrite current_put).
  assert (Hs' : W s3 s').
  { revert Hrun. destruct (sm_key_points summary) as [points|]; [|by intros [= <-]].
    apply (relates_for_each W). intros point s4 [] s5.
    rewrite run_bind, run_update_knowledge_graph. intros [= <-].
    unfold W. by rewrite current_put. }
  unfold W in Hs1, Hs3, Hs'. rewrite Hs', Hs3. clear Hrun Hs' Hs3.
  intros w Hw. revert H2.
  destruct (sm_weak_points summary) as [[|wp wps]|];
    try (intros [= <-]; left; by rewrite <- Hs1).
  rewrite run_bind, run_update_weak_points.
  destruct (merge_batch _ _ _) as [merged|e] eqn:Hmerge; [|done].
  intros [= <-]. rewrite current_put in Hw. simpl in Hw. rewrite <- Hs1.
  eapply merge_batch_stamped; [|exact Hmerge|exact Hw].
  apply Forall_forall. intros a [b [-> _]]%list_elem_of_fmap. reflexivity.
Qed.

End StampFacts.

(** X27 on the stored user whose "recursion" was last confused in January,
    for a summary without a time that observes it at a higher score: the
    stored entry has the new score and no time. *)
Lemma X27_consolidated_weak_points_never_read_the_clock_witness :
  exists s',
    run (Summarizer._update_user_profile (clock := epoch_clock) (pystr := ascii_str)
           1709251200 "u1" parsed_summary) one_user = Ok (tt, s')
    /\ weak_points (current "u1" s')
       = [mkWeakPoint "recursion" (Some 70) (Some None) None None]
    /\ forall w, w ∈ weak_points (current "u1" s') ->
         w ∈ weak_points (current "u1" one_user) \/ last_confused w = Some None.
Proof.
  eexists. split; [reflexivity|]. split; [vm_compute; reflexivity|].
  exact (X27_consolidated_weak_points_never_read_the_clock (clock := epoch_clock)
           (pystr := ascii_str) 1709251200 "u1" parsed_summary one_user _ eq_refl).
Defined.

(** *** One consolidation, run

    A new user, a new session, eight turns and three configured rounds:
    consolidation triggers without being forced, one session is counted, the
    weak points are stored in order, and the key point of the summary has
    its entry in the knowledge graph, reinforced once. *)
Example consolidation_of_a_new_user :
  match fst (Summarizer.process (clock := epoch_clock) (pystr := ascii_str)
               (agent := llm_replying "{}")
               (json := json_reading (Ok (JObject parsed_summary)))
               three_rounds 1709251200 "s1" "u1" (short_turns 8) false no_store) with
  | Ok (Summarizer.Summarized summary_id summary, s') =>
      summary_id = 1
      /\ Summarizer.sm_message_count summary = Some 8
      /\ total_sessions (statistics (current "u1" s')) = Some 1
      /\ avg_session_length (statistics (current "u1" s')) = Some (PyInt 8)
      /\ weak_points (current "u1" s')
         = [mkWeakPoint "recursion" (Some 70) (Some None) (Some "cs") None]
      /\ Sorted ge_score (weak_points (current "u1" s'))
      /\ mastery_level <$> knowledge_graph (current "u1" s') !! "base case first"
         = Some Summarizer.reinforcement
      /\ interaction_count <$> knowledge_graph (current "u1" s') !! "base case first"
         = Some 1
  | _ => False
  end.
Proof.
  vm_compute. repeat split; try reflexivity. repeat constructor.
Qed.
